(** * DDP receiver: header codec, buffer registry, dispatcher, query responder

    A shallow embedding of [ddp_receiver.py] and the properties of its
    specification.

    Conventions of the embedding
    - Python [int] is [Z]; [bytes], [bytearray] and [memoryview] are
      [list byte]; [len] is [len] (a [Z]).
    - A Python exception is a [Raise] result.  Stateful methods live in the
      monad [M]: the receiver's state survives a raised exception, as the
      attributes of a Python object do.
    - A [dict] is an insertion-ordered association list ([dict_set] keeps the
      position of a key it already holds), because [list(d.keys())] is
      observable in the broadcast branch of [_process_packet].  The results
      on that branch are stated for two destinations iterated in whichever
      order the dictionary yields them.
    - A callback is a handle of an arbitrary type [cb]; what calling it does
      to the receiver is given by [run_cb].  Callbacks are assumed to return
      normally and not to re-enter [poll].
    - [sendto] records the datagram handed to the transport, which is taken
      to accept it.  An [OSError] raised by a real send is not caught by the
      source and would leave [poll]; no result below is about a send that
      fails. *)

From Stdlib Require Import ZArith List Bool Lia.
From Stdlib Require Import Strings.Byte.
From Stdlib Require Strings.Ascii Strings.String.
Import ListNotations.

Local Open Scope Z_scope.

(* ===================================================================== *)
(** ** Python values and exceptions *)

Inductive exn : Type :=
| IndexError
| ValueError
| KeyError (key : Z)
| OSError (args : list Z).

Inductive result (A : Type) : Type :=
| Ok (a : A)
| Raise (e : exn).

Arguments Ok {A} a.
Arguments Raise {A} e.

Definition rbind {A B : Type} (m : result A) (f : A -> result B) : result B :=
  match m with
  | Ok a => f a
  | Raise e => Raise e
  end.

Notation "x <-? m ;; k" := (rbind m (fun x => k))
  (at level 61, m at next level, right associativity).

(** [len(x)] *)
Definition len {A : Type} (l : list A) : Z := Z.of_nat (length l).

(** The integer a byte of a [bytes] object reads as. *)
Definition byte_val (b : byte) : Z := Z.of_N (Byte.to_N b).

(** The byte stored by [bytearray.__setitem__] for an integer in [0, 255]
    (every store in the source is masked with [& 0xFF]). *)
Definition to_byte (z : Z) : byte :=
  match Byte.of_N (Z.to_N z) with
  | Some b => b
  | None => x00
  end.

(** [bytearray(n)]: [n] zero bytes, [ValueError] for a negative count. *)
Definition zeros (n : Z) : list byte := repeat x00 (Z.to_nat n).

Definition bytearray (n : Z) : result (list byte) :=
  if n <? 0 then Raise ValueError else Ok (zeros n).

(** [seq[i]] for [i >= 0]; out of range raises [IndexError]. *)
Definition getitem (packet : list byte) (i : Z) : result Z :=
  if (i <? 0) || (len packet <=? i) then Raise IndexError
  else Ok (byte_val (nth (Z.to_nat i) packet x00)).

(** Python's normalisation of a slice bound against a length. *)
Definition clamp_index (i n : Z) : Z :=
  if i <? 0 then Z.max 0 (i + n) else Z.min i n.

(** [seq[start:stop]] *)
Definition slice {A : Type} (l : list A) (start stop : Z) : list A :=
  let s := clamp_index start (len l) in
  let e := clamp_index stop (len l) in
  firstn (Z.to_nat (e - s)) (skipn (Z.to_nat s) l).

(** [buf[start:stop] = data] on a [bytearray] *)
Definition slice_assign {A : Type} (buf : list A) (start stop : Z) (data : list A)
  : list A :=
  let s := clamp_index start (len buf) in
  let e := Z.max s (clamp_index stop (len buf)) in
  firstn (Z.to_nat s) buf ++ data ++ skipn (Z.to_nat e) buf.

(** [int.from_bytes(bs, "big")] *)
Definition int_from_bytes_big (bs : list byte) : Z :=
  fold_left (fun acc b => acc * 256 + byte_val b) bs 0.

(** Truth value of an integer in a condition. *)
Definition truthy (z : Z) : bool := negb (z =? 0).

(* ===================================================================== *)
(** ** DDP constants *)

Definition DDP_PORT : Z := 4048.

Definition DDP_HEADER_LEN : Z := 10.
Definition DDP_HEADER_LEN_TIME : Z := 14.

Definition DDP_FLAGS1_VER : Z := 0xC0.
Definition DDP_FLAGS1_VER1 : Z := 0x40.
Definition DDP_FLAGS1_PUSH : Z := 0x01.
Definition DDP_FLAGS1_QUERY : Z := 0x02.
Definition DDP_FLAGS1_REPLY : Z := 0x04.
Definition DDP_FLAGS1_STORAGE : Z := 0x08.
Definition DDP_FLAGS1_TIME : Z := 0x10.

Definition DDP_ID_DISPLAY : Z := 1.
Definition DDP_ID_STATUS : Z := 251.
Definition DDP_ID_CONFIG : Z := 250.
Definition DDP_ID_ALL : Z := 255.

(* ===================================================================== *)
(** ** Header codec *)

Definition build_header (flags1 device_id offset length : Z) : list byte :=
  [ to_byte (Z.land flags1 0xFF);
    to_byte 0;
    to_byte 0;
    to_byte (Z.land device_id 0xFF);
    to_byte (Z.land (Z.shiftr offset 24) 0xFF);
    to_byte (Z.land (Z.shiftr offset 16) 0xFF);
    to_byte (Z.land (Z.shiftr offset 8) 0xFF);
    to_byte (Z.land offset 0xFF);
    to_byte (Z.land (Z.shiftr length 8) 0xFF);
    to_byte (Z.land length 0xFF) ].

(** The tuple [_parse_header] returns. *)
Record header : Type := mkHeader {
  hdr_flags1 : Z;
  hdr_device_id : Z;
  hdr_offset : Z;
  hdr_length : Z;
  hdr_header_len : Z;
  hdr_timecode : option Z
}.

Definition _parse_header (packet : list byte) : result (option header) :=
  if len packet <? DDP_HEADER_LEN then Ok None
  else
    flags1 <-? getitem packet 0 ;;
    let version := Z.shiftr (Z.land flags1 DDP_FLAGS1_VER) 6 in
    if negb (version =? 1) then Ok None
    else
      device_id <-? getitem packet 3 ;;
      p4 <-? getitem packet 4 ;;
      p5 <-? getitem packet 5 ;;
      p6 <-? getitem packet 6 ;;
      p7 <-? getitem packet 7 ;;
      let offset :=
        Z.lor (Z.lor (Z.lor (Z.shiftl p4 24) (Z.shiftl p5 16)) (Z.shiftl p6 8)) p7 in
      p8 <-? getitem packet 8 ;;
      p9 <-? getitem packet 9 ;;
      let length := Z.lor (Z.shiftl p8 8) p9 in
      (* [None] stands for the early [return None] of the TIME branch *)
      let timecode : option (option Z) :=
        if truthy (Z.land flags1 DDP_FLAGS1_TIME) then
          if len packet <? DDP_HEADER_LEN_TIME then None
          else Some (Some (int_from_bytes_big (slice packet 10 14)))
        else Some None in
      match timecode with
      | None => Ok None
      | Some timecode =>
          let header_len :=
            if truthy (Z.land flags1 DDP_FLAGS1_TIME)
            then DDP_HEADER_LEN_TIME else DDP_HEADER_LEN in
          Ok (Some (mkHeader flags1 device_id offset length header_len timecode))
      end.

(** The 2-bit version field of a flags byte. *)
Definition version_of (flags1 : Z) : Z := Z.shiftr (Z.land flags1 DDP_FLAGS1_VER) 6.

(** Whether a flag bit is set in a flags byte. *)
Definition has_flag (flags1 flag : Z) : bool := truthy (Z.land flags1 flag).

(** The integer read at index [i] of a packet that is long enough. *)
Definition byte_at (packet : list byte) (i : nat) : Z := byte_val (nth i packet x00).

(* ===================================================================== *)
(** ** Dictionaries

    Insertion-ordered, one entry per key. *)

Definition dict (V : Type) : Type := list (Z * V).

Fixpoint dict_get {V : Type} (k : Z) (d : dict V) : option V :=
  match d with
  | [] => None
  | (k', v) :: d' => if k =? k' then Some v else dict_get k d'
  end.

(** [d[k] = v]: replaces in place, or appends a new entry. *)
Fixpoint dict_set {V : Type} (k : Z) (v : V) (d : dict V) : dict V :=
  match d with
  | [] => [(k, v)]
  | (k', v') :: d' =>
      if k =? k' then (k, v) :: d' else (k', v') :: dict_set k v d'
  end.

(** [list(d.keys())] *)
Definition dict_keys {V : Type} (d : dict V) : list Z := map fst d.

(* ===================================================================== *)
(** ** The receiver *)

(** What the transport hands to one [recvfrom_into] call: a datagram with
    its source address, or an [OSError] with the given [args].  An exhausted
    queue raises [OSError(EAGAIN)]. *)
Inductive arrival (address : Type) : Type :=
| Datagram (data : list byte) (addr : address)
| Fault (args : list Z).

Arguments Datagram {address} data addr.
Arguments Fault {address} args.

(** [errno.EAGAIN] *)
Definition EAGAIN : Z := 11.

(** [len(self._rx_buffer)] *)
Definition RX_BUFFER_LEN : Z := 2048.

Section Receiver.

Context {cb address : Type}.

Record receiver : Type := mkReceiver {
  _max_buffer_size : Z;
  _buffers : dict (list byte);
  _callbacks : dict cb;
  _status_json : option (list byte)
}.

(** Observable actions, in the order they happen: a call of
    [_write_to_buffer] made by [_process_packet], a callback invocation
    with the arguments it receives, a datagram passed to [sendto]. *)
Inductive event : Type :=
| EWrite (target_id offset : Z) (data : list byte)
| ECall (callback : cb) (device_id : Z) (buffer : list byte) (timecode : option Z)
| ESend (datagram : list byte) (addr : address).

Record world : Type := mkWorld {
  rcv : receiver;
  trace : list event
}.

(** What invoking a callback does to the receiver it closes over. *)
Variable run_cb : cb -> Z -> list byte -> option Z -> receiver -> receiver.

(** State that persists, and a value or an exception. *)
Definition M (A : Type) : Type := world -> result A * world.

Definition ret {A : Type} (a : A) : M A := fun w => (Ok a, w).

Definition raise {A : Type} (e : exn) : M A := fun w => (Raise e, w).

Definition bind {A B : Type} (m : M A) (f : A -> M B) : M B :=
  fun w =>
    match m w with
    | (Ok a, w') => f a w'
    | (Raise e, w') => (Raise e, w')
    end.

Definition lift {A : Type} (r : result A) : M A := fun w => (r, w).

Definition get_rcv : M receiver := fun w => (Ok (rcv w), w).

Definition emit (e : event) : M unit :=
  fun w => (Ok tt, mkWorld (rcv w) (trace w ++ [e])).

(** [self._buffers[device_id] = buf], also the in-place mutation of the
    [bytearray] stored under [device_id]. *)
Definition set_buffer (device_id : Z) (buf : list byte) (r : receiver) : receiver :=
  mkReceiver (_max_buffer_size r) (dict_set device_id buf (_buffers r))
             (_callbacks r) (_status_json r).

Definition set_callback (device_id : Z) (c : cb) (r : receiver) : receiver :=
  mkReceiver (_max_buffer_size r) (_buffers r)
             (dict_set device_id c (_callbacks r)) (_status_json r).

Definition modify (f : receiver -> receiver) : M unit :=
  fun w => (Ok tt, mkWorld (f (rcv w)) (trace w)).

Local Notation "x <- m ;; k" := (bind m (fun x => k))
  (at level 61, m at next level, right associativity).
Local Notation "m ;;; k" := (bind m (fun _ => k))
  (at level 61, right associativity).

Fixpoint for_each {A : Type} (l : list A) (body : A -> M unit) : M unit :=
  match l with
  | [] => ret tt
  | x :: l' => body x ;;; for_each l' body
  end.

(** [self._buffers[device_id]] *)
Definition buffer_of (device_id : Z) (r : receiver) : result (list byte) :=
  match dict_get device_id (_buffers r) with
  | Some buf => Ok buf
  | None => Raise (KeyError device_id)
  end.

(** [self._sock.sendto(datagram, addr)]: the datagram handed to the
    transport is recorded in the trace; the transport is taken to accept
    it (the source does not catch an [OSError] of the send). *)
Definition sendto (datagram : list byte) (addr : address) : M unit :=
  emit (ESend datagram addr).

(** [DDPReceiver(sock, max_buffer_size=..., status_json=...)] *)
Definition construct (max_buffer_size : Z) (status_json : option (list byte))
  : world :=
  mkWorld (mkReceiver max_buffer_size [] [] status_json) [].

Definition configure_output (device_id size : Z) (callback : option cb) : M unit :=
  buf <- lift (bytearray size) ;;
  modify (set_buffer device_id buf) ;;;
  match callback with
  | Some c => modify (set_callback device_id c)
  | None => ret tt
  end.

Definition set_status (status_json : list byte) : M unit :=
  modify (fun r => mkReceiver (_max_buffer_size r) (_buffers r) (_callbacks r)
                              (Some status_json)).

Definition _write_to_buffer (device_id offset : Z) (data : list byte) : M unit :=
  r <- get_rcv ;;
  let absent :=
    match dict_get device_id (_buffers r) with Some _ => false | None => true end in
  if absent && (offset + len data >? _max_buffer_size r) then ret tt
  else
    (if absent then
       buf <- lift (bytearray (offset + len data)) ;;
       modify (set_buffer device_id buf)
     else ret tt) ;;;
    r <- get_rcv ;;
    buf <- lift (buffer_of device_id r) ;;
    let end_ := offset + len data in
    if end_ >? len buf then
      if end_ >? _max_buffer_size r then ret tt
      else
        let buf := buf ++ zeros (end_ - len buf) in
        modify (set_buffer device_id (slice_assign buf offset end_ data))
    else
      modify (set_buffer device_id (slice_assign buf offset end_ data)).

Definition _handle_push (device_id : Z) (timecode : option Z) : M unit :=
  r <- get_rcv ;;
  match dict_get device_id (_callbacks r) with
  | None => ret tt
  | Some callback =>
      buf <- lift (buffer_of device_id r) ;;
      emit (ECall callback device_id buf timecode) ;;;
      modify (run_cb callback device_id buf timecode)
  end.

Definition _send_empty_reply (device_id : Z) (addr : address) : M unit :=
  let flags1 := Z.lor (Z.lor DDP_FLAGS1_VER1 DDP_FLAGS1_REPLY) DDP_FLAGS1_PUSH in
  let header := build_header flags1 device_id 0 0 in
  sendto header addr.

Definition _handle_query (device_id : Z) (addr : address) : M unit :=
  if negb (device_id =? DDP_ID_STATUS) then _send_empty_reply device_id addr
  else
    r <- get_rcv ;;
    match _status_json r with
    | None => _send_empty_reply device_id addr
    | Some status_json =>
        let flags1 :=
          Z.lor (Z.lor DDP_FLAGS1_VER1 DDP_FLAGS1_REPLY) DDP_FLAGS1_PUSH in
        let header := build_header flags1 device_id 0 (len status_json) in
        sendto (header ++ status_json) addr
    end.

Definition _process_packet (packet : list byte) (addr : address) : M unit :=
  parsed <- lift (_parse_header packet) ;;
  match parsed with
  | None => ret tt
  | Some (mkHeader flags1 device_id offset length header_len timecode) =>
      if truthy (Z.land flags1 DDP_FLAGS1_REPLY) then ret tt
      else if truthy (Z.land flags1 DDP_FLAGS1_QUERY) then
        _handle_query device_id addr
      else if truthy (Z.land flags1 DDP_FLAGS1_STORAGE) then ret tt
      else
        let data := slice packet header_len (header_len + length) in
        if device_id =? DDP_ID_ALL then
          r <- get_rcv ;;
          for_each (dict_keys (_buffers r)) (fun target_id =>
            emit (EWrite target_id offset data) ;;;
            _write_to_buffer target_id offset data ;;;
            if truthy (Z.land flags1 DDP_FLAGS1_PUSH)
            then _handle_push target_id timecode
            else ret tt)
        else
          emit (EWrite device_id offset data) ;;;
          _write_to_buffer device_id offset data ;;;
          if truthy (Z.land flags1 DDP_FLAGS1_PUSH)
          then _handle_push device_id timecode
          else ret tt
  end.

(** The loop of [poll], over the transport's pending queue; returns the
    count and what is left in the queue. *)
Fixpoint poll_loop (queue : list (arrival address)) (processed : Z)
  : M (Z * list (arrival address)) :=
  match queue with
  | [] => ret (processed, [])
  | Fault args :: rest =>
      if match args with a0 :: _ => a0 =? EAGAIN | [] => false end
      then ret (processed, rest)
      else raise (OSError args)
  | Datagram data addr :: rest =>
      (* [recvfrom_into] copies at most [len(self._rx_buffer)] bytes of the
         datagram to the front of the receive buffer and returns their
         number *)
      let received := firstn (Z.to_nat RX_BUFFER_LEN) data in
      let nbytes := len received in
      if negb (truthy nbytes) then ret (processed, rest)
      else
        let packet_view := slice received 0 nbytes in
        _process_packet packet_view addr ;;;
        poll_loop rest (processed + 1)
  end.

Definition poll (queue : list (arrival address)) : M (Z * list (arrival address)) :=
  poll_loop queue 0.

(** The host's loop [while True: receiver.poll()], for the poll cycles
    whose pending queues are given; an exception ends it. *)
Fixpoint poll_cycles (cycles : list (list (arrival address))) : M unit :=
  match cycles with
  | [] => ret tt
  | queue :: rest => poll queue ;;; poll_cycles rest
  end.

End Receiver.

Arguments receiver : clear implicits.
Arguments event : clear implicits.
Arguments world : clear implicits.
Arguments M : clear implicits.

(** The buffer a successful write leaves: [data] at
    [[offset, offset + len data)], the old bytes before and after it, and
    zeros between the old end and [offset] when [offset] lies beyond it. *)
Definition patched (buf : list byte) (offset : Z) (data : list byte) : list byte :=
  firstn (Z.to_nat offset) (buf ++ zeros (offset - len buf))
  ++ data ++ skipn (Z.to_nat (offset + len data)) buf.

(** The buffer [_write_to_buffer] leaves under an id that held [buf]: [buf]
    itself when the write is dropped. *)
Definition written (max_buffer_size : Z) (buf : list byte) (offset : Z)
    (data : list byte) : list byte :=
  if (offset + len data >? len buf) && (offset + len data >? max_buffer_size)
  then buf
  else patched buf offset data.


(** Every registered callback has a buffer under its id: true of a new
    receiver and kept by [configure_output] and by every write, since
    nothing deletes a buffer. *)
Definition registered_have_buffers {cb : Type} (r : receiver cb) : Prop :=
  forall k, dict_get k (_callbacks r) <> None -> dict_get k (_buffers r) <> None.

(** Callbacks that keep [registered_have_buffers]. *)
Definition callbacks_keep_buffers {cb : Type}
    (run_cb : cb -> Z -> list byte -> option Z -> receiver cb -> receiver cb)
  : Prop :=
  forall c device_id buf timecode r,
    registered_have_buffers r ->
    registered_have_buffers (run_cb c device_id buf timecode r).

(** An action that, from a receiver whose registered callbacks all have
    buffers, returns normally and leaves such a receiver. *)
Definition returns_normally {cb address A : Type} (m : M cb address A) : Prop :=
  forall w, registered_have_buffers (rcv w) ->
    exists a w', m w = (Ok a, w') /\ registered_have_buffers (rcv w').

(** A queued datagram that [poll] hands to [_process_packet]: one with at
    least one byte. *)
Definition is_packet {address : Type} (a : arrival address) : bool :=
  match a with
  | Datagram data _ => negb (len data =? 0)
  | Fault _ => false
  end.

(** What makes [poll] stop without an exception: a zero-length read, or an
    [OSError] whose first argument is [EAGAIN]. *)
Definition stops_poll {address : Type} (a : arrival address) : bool :=
  match a with
  | Datagram data _ => len data =? 0
  | Fault args => match args with a0 :: _ => a0 =? EAGAIN | [] => false end
  end.

(** [_process_packet] on the bytes [recvfrom_into] left in the receive
    buffer for a queued datagram. *)
Definition process_arrival {cb address : Type}
    (run_cb : cb -> Z -> list byte -> option Z -> receiver cb -> receiver cb)
    (a : arrival address) : M cb address unit :=
  match a with
  | Datagram data addr =>
      _process_packet run_cb (firstn (Z.to_nat RX_BUFFER_LEN) data) addr
  | Fault _ => ret tt
  end.

(** [grows r r']: from [r] to [r'] no buffer has disappeared or shrunk, no
    buffer has grown beyond the larger of its former length and
    [max_buffer_size], and every new buffer is within [max_buffer_size]
    (which is the same in both). *)
Definition grows {cb : Type} (r r' : receiver cb) : Prop :=
  _max_buffer_size r' = _max_buffer_size r /\
  forall id : Z,
    match dict_get id (_buffers r), dict_get id (_buffers r') with
    | Some b, Some b' => len b <= len b' <= Z.max (len b) (_max_buffer_size r)
    | Some _, None => False
    | None, Some b' => len b' <= _max_buffer_size r
    | None, None => True
    end.

(** Callbacks that respect [grows]: a callback that only reads the buffer it
    is given (as [on_frame] of the examples does) is one. *)
Definition callbacks_grow {cb : Type}
    (run_cb : cb -> Z -> list byte -> option Z -> receiver cb -> receiver cb)
  : Prop :=
  forall c device_id buf timecode r, grows r (run_cb c device_id buf timecode r).

(** An action of the receiver that respects [grows], whatever it returns. *)
Definition preserves_grows {cb address A : Type} (m : M cb address A) : Prop :=
  forall w, grows (rcv w) (rcv (snd (m w))).

(** Callbacks for the examples: [Observe] only looks at the buffer it is
    given, as [on_frame] does; [Register id size] calls
    [configure_output(id, size)] on the receiver. *)
Inductive demo_cb : Type :=
| Observe (tag : nat)
| Register (new_id size : Z).

Definition demo_run (c : demo_cb) (device_id : Z) (buf : list byte)
    (timecode : option Z) (r : receiver demo_cb) : receiver demo_cb :=
  match c with
  | Observe _ => r
  | Register new_id size =>
      if size <? 0 then r else set_buffer new_id (zeros size) r
  end.

(** A callback environment in which every callback only reads. *)
Definition read_only (c : nat) (device_id : Z) (buf : list byte)
    (timecode : option Z) (r : receiver nat) : receiver nat := r.

(** The receiver of the examples: [max_buffer_size = 16], destinations 1 and
    2 of three bytes each; the callback of 1 registers destination 3, the
    callback of 2 only reads. *)
Definition demo_world : world demo_cb nat :=
  snd (configure_output 2 3 (Some (Observe 2))
        (snd (configure_output 1 3 (Some (Register 3 4)) (construct 16 None)))).

(** Version 1 with PUSH, to every destination, offset 0, three bytes. *)
Definition demo_broadcast : list byte :=
  build_header 0x41 255 0 3 ++ [x01; x02; x03].

(** Version 1 with PUSH, to destination 1, offset 14, three bytes. *)
Definition demo_overflow : list byte :=
  build_header 0x41 1 14 3 ++ [x01; x02; x03].

(** Version 1 with QUERY and PUSH, to the status id. *)
Definition demo_query : list byte := build_header 0x43 251 0 0.

(** Whether an event is a callback invocation. *)
Definition is_call {cb address : Type} (e : event cb address) : bool :=
  match e with
  | ECall _ _ _ _ => true
  | _ => false
  end.

(** An action that invokes no callback: what it adds to the trace holds no
    [ECall]. *)
Definition calls_nothing {cb address A : Type} (m : M cb address A) : Prop :=
  forall w, exists evs,
    trace (snd (m w)) = trace w ++ evs /\ existsb is_call evs = false.

(** [frames_ok d n w]: destination [d] has a buffer of at least [n] bytes,
    and every callback invocation for [d] so far was given at least [n]
    bytes. *)
Definition frames_ok {cb address : Type} (d n : Z) (w : world cb address) : Prop :=
  (exists buf, dict_get d (_buffers (rcv w)) = Some buf /\ n <= len buf)
  /\ forall c buf timecode, In (ECall c d buf timecode) (trace w) -> n <= len buf.

(** An action that keeps [frames_ok]. *)
Definition keeps_frames {cb address A : Type} (d n : Z) (m : M cb address A)
  : Prop :=
  forall w, frames_ok d n w -> frames_ok d n (snd (m w)).

(* ===================================================================== *)
(** ** The frame callbacks of the example programs

    [ddp_web_server.py] turns the display buffer into thirty colour strings,
    [sketch.py] copies it to a pixel strip.  The strip is a NeoPixel object
    of another library: it is kept abstract, with its item assignment and
    its [show] as parameters. *)

Module Display.

Import Stdlib.Strings.Ascii Stdlib.Strings.String.

Definition PIXEL_COUNT : Z := 30.

(** [range(start, stop, step)] for a positive [step] *)
Definition py_range (start stop step : Z) : list Z :=
  map (fun k => start + step * Z.of_nat k)
      (seq 0 (Z.to_nat ((stop - start + step - 1) / step))).

Definition hex_digit (d : Z) : ascii :=
  nth (Z.to_nat d)
      ["0"; "1"; "2"; "3"; "4"; "5"; "6"; "7";
       "8"; "9"; "a"; "b"; "c"; "d"; "e"; "f"]%char "?"%char.

(** [f"{v:02x}"] for a byte value [v] *)
Definition format_02x (v : Z) : string :=
  String (hex_digit (v / 16)) (String (hex_digit (v mod 16)) EmptyString).

(** [f"#{r:02x}{g:02x}{b:02x}"] *)
Definition color_string (r g b : Z) : string :=
  String "#"%char (format_02x r ++ format_02x g ++ format_02x b)%string.

Definition black : string := "#000000"%string.

(** [data[idx], data[idx + 1], data[idx + 2]], read in this order *)
Definition triple_at (data : list byte) (idx : Z) : result (Z * Z * Z) :=
  r <-? getitem data idx ;;
  g <-? getitem data (idx + 1) ;;
  b <-? getitem data (idx + 2) ;;
  Ok (r, g, b).

(** The [for] loop of [_colors_from_buffer] *)
Fixpoint colors_loop (data : list byte) (idxs : list Z) (colors : list string)
  : result (list string) :=
  match idxs with
  | [] => Ok colors
  | idx :: rest =>
      rgb <-? triple_at data idx ;;
      let '(r, g, b) := rgb in
      colors_loop data rest (colors ++ [color_string r g b])
  end.

(** The [while len(colors) < PIXEL_COUNT] loop, for at most [fuel] rounds *)
Fixpoint pad_loop (fuel : nat) (colors : list string) : list string :=
  match fuel with
  | O => colors
  | S fuel' =>
      if len colors <? PIXEL_COUNT then pad_loop fuel' (colors ++ [black])
      else colors
  end.

Definition _colors_from_buffer (data : list byte) : result (list string) :=
  let limit := Z.min (len data) (PIXEL_COUNT * 3) in
  colors <-? colors_loop data (py_range 0 limit 3) [] ;;
  Ok (pad_loop (Z.to_nat PIXEL_COUNT) colors).

Section Strip.

Variable strip : Type.

(** [pixels[pixel] = (r, g, b)] *)
Variable setitem : strip -> Z -> Z * Z * Z -> strip.

(** [pixels.show()] *)
Variable show : strip -> strip.

(** The [for] loop of [_update_pixels]; the strip keeps what was assigned
    before an exception. *)
Fixpoint pixels_loop (data : list byte) (idxs : list Z) (pixels : strip)
  : result unit * strip :=
  match idxs with
  | [] => (Ok tt, pixels)
  | idx :: rest =>
      let pixel := idx / 3 in
      match triple_at data idx with
      | Ok rgb => pixels_loop data rest (setitem pixels pixel rgb)
      | Raise e => (Raise e, pixels)
      end
  end.

Definition _update_pixels (pixels : strip) (data : list byte)
  : result unit * strip :=
  let pixel_bytes := Z.min (len data) (PIXEL_COUNT * 3) in
  match pixels_loop data (py_range 0 pixel_bytes 3) pixels with
  | (Ok _, pixels') => (Ok tt, show pixels')
  | (Raise e, pixels') => (Raise e, pixels')
  end.

(** [on_frame] of [sketch.py] *)
Definition on_frame (pixels : strip) (device_id : Z) (buffer : list byte)
    (timecode : option Z) : result unit * strip :=
  if negb (device_id =? DDP_ID_DISPLAY) then (Ok tt, pixels)
  else _update_pixels pixels buffer.

End Strip.

(** The colour of pixel [k] of a buffer that holds its three bytes. *)
Definition color_at (data : list byte) (k : nat) : string :=
  color_string (byte_at data (3 * k)) (byte_at data (3 * k + 1))
               (byte_at data (3 * k + 2)).

(** The three bytes of pixel [k]. *)
Definition rgb_at (data : list byte) (k : nat) : Z * Z * Z :=
  (byte_at data (3 * k), byte_at data (3 * k + 1), byte_at data (3 * k + 2)).

End Display.

(** Whether an event is a datagram handed to [sendto]. *)
Definition is_send {cb address : Type} (e : event cb address) : bool :=
  match e with
  | ESend _ _ => true
  | _ => false
  end.

(** Whether [_process_packet] answers a packet through the query responder:
    it decodes, its REPLY flag is clear and its QUERY flag is set. *)
Definition answers_query (packet : list byte) : bool :=
  match _parse_header packet with
  | Ok (Some h) =>
      negb (has_flag (hdr_flags1 h) DDP_FLAGS1_REPLY)
      && has_flag (hdr_flags1 h) DDP_FLAGS1_QUERY
  | _ => false
  end.

(** An action that, from a receiver whose registered callbacks all have
    buffers, returns normally, leaves such a receiver, and hands nothing to
    [sendto]. *)
Definition returns_without_sending {cb address A : Type} (m : M cb address A)
  : Prop :=
  forall w, registered_have_buffers (rcv w) ->
    exists a w' evs,
      m w = (Ok a, w')
      /\ registered_have_buffers (rcv w')
      /\ trace w' = trace w ++ evs
      /\ existsb is_send evs = false.

(* ===================================================================== *)
(** * Properties *)

(** ** Bytes and bit fields *)

Lemma byte_val_range (b : byte) : 0 <= byte_val b < 256.
Proof.
  unfold byte_val. pose proof (Byte.to_N_bounded b). lia.
Qed.

Lemma byte_val_to_byte (z : Z) : 0 <= z < 256 -> byte_val (to_byte z) = z.
Proof.
  intros Hz. unfold byte_val, to_byte.
  destruct (Byte.of_N (Z.to_N z)) as [b|] eqn:E.
  - apply Byte.to_of_N in E. rewrite E. lia.
  - apply Byte.of_N_None_iff in E. lia.
Qed.

Lemma land_255_mod (z : Z) : Z.land z 0xFF = z mod 256.
Proof.
  change 0xFF with (Z.ones 8). rewrite Z.land_ones by lia. reflexivity.
Qed.

Lemma land_255_range (z : Z) : 0 <= Z.land z 0xFF < 256.
Proof.
  rewrite land_255_mod. apply Z.mod_pos_bound. lia.
Qed.

Lemma stored_byte (z : Z) : byte_val (to_byte (Z.land z 0xFF)) = z mod 256.
Proof.
  rewrite byte_val_to_byte by apply land_255_range. apply land_255_mod.
Qed.

(** [a | b] is [a + b] when [a] has its low [k] bits clear and [b] fits in
    them. *)
Lemma lor_disjoint (a b k : Z) :
  0 <= k -> a mod 2 ^ k = 0 -> 0 <= b < 2 ^ k -> Z.lor a b = a + b.
Proof.
  intros Hk Ha Hb.
  rewrite <- Z.add_lor_land.
  assert (Hland : Z.land a b = 0).
  { apply Z.bits_inj'. intros n Hn.
    rewrite Z.land_spec, Z.bits_0.
    destruct (Z.lt_ge_cases n k) as [Hlt | Hge].
    - assert (Ea : a = a / 2 ^ k * 2 ^ k).
      { pose proof (Z.div_mod a (2 ^ k)) as D.
        assert (2 ^ k <> 0) by (apply Z.pow_nonzero; lia).
        rewrite Ha in D. specialize (D H). lia. }
      rewrite Ea, Z.mul_pow2_bits_low by lia. reflexivity.
    - rewrite <- (Z.mod_small b (2 ^ k)) by lia.
      rewrite Z.mod_pow2_bits_high by lia.
      apply andb_false_r. }
  rewrite Hland. lia.
Qed.

(** The big-endian reading done by [_parse_header] for the offset. *)
Lemma be32_value (p4 p5 p6 p7 : Z) :
  0 <= p4 < 256 -> 0 <= p5 < 256 -> 0 <= p6 < 256 -> 0 <= p7 < 256 ->
  Z.lor (Z.lor (Z.lor (Z.shiftl p4 24) (Z.shiftl p5 16)) (Z.shiftl p6 8)) p7
  = p4 * 2 ^ 24 + p5 * 2 ^ 16 + p6 * 2 ^ 8 + p7.
Proof.
  intros H4 H5 H6 H7.
  rewrite !Z.shiftl_mul_pow2 by lia.
  rewrite (lor_disjoint (p4 * 2 ^ 24) (p5 * 2 ^ 16) 24); try lia.
  2:{ change (2 ^ 24) with (2 ^ 24 * 1) at 2.
      replace (p4 * 2 ^ 24) with (p4 * (2 ^ 24)) by lia.
      apply Z.mod_mul. lia. }
  rewrite (lor_disjoint _ (p6 * 2 ^ 8) 16); try lia.
  2:{ replace (p4 * 2 ^ 24 + p5 * 2 ^ 16) with ((p4 * 2 ^ 8 + p5) * 2 ^ 16) by lia.
      apply Z.mod_mul. lia. }
  rewrite (lor_disjoint _ p7 8); try lia.
  replace (p4 * 2 ^ 24 + p5 * 2 ^ 16 + p6 * 2 ^ 8)
    with ((p4 * 2 ^ 16 + p5 * 2 ^ 8 + p6) * 2 ^ 8) by lia.
  apply Z.mod_mul. lia.
Qed.

Lemma be16_value (p8 p9 : Z) :
  0 <= p8 < 256 -> 0 <= p9 < 256 ->
  Z.lor (Z.shiftl p8 8) p9 = p8 * 2 ^ 8 + p9.
Proof.
  intros H8 H9.
  rewrite Z.shiftl_mul_pow2 by lia.
  apply (lor_disjoint _ p9 8); try lia.
  apply Z.mod_mul. lia.
Qed.

Lemma be32_split (offset : Z) :
  0 <= offset < 2 ^ 32 ->
  (Z.shiftr offset 24) mod 256 * 2 ^ 24 + (Z.shiftr offset 16) mod 256 * 2 ^ 16
  + (Z.shiftr offset 8) mod 256 * 2 ^ 8 + offset mod 256 = offset.
Proof.
  intros H. rewrite !Z.shiftr_div_pow2 by lia.
  change (2 ^ 24) with 16777216. change (2 ^ 16) with 65536.
  change (2 ^ 8) with 256. change (2 ^ 32) with 4294967296 in H.
  Z.to_euclidean_division_equations. lia.
Qed.

Lemma be16_split (length : Z) :
  0 <= length < 2 ^ 16 ->
  (Z.shiftr length 8) mod 256 * 2 ^ 8 + length mod 256 = length.
Proof.
  intros H. rewrite !Z.shiftr_div_pow2 by lia.
  change (2 ^ 8) with 256. change (2 ^ 16) with 65536 in H.
  Z.to_euclidean_division_equations. lia.
Qed.

(** ** Header codec *)

Lemma len_nonneg {A : Type} (l : list A) : 0 <= len l.
Proof. unfold len. lia. Qed.

Lemma getitem_nth (packet : list byte) (i : Z) :
  0 <= i < len packet -> getitem packet i = Ok (byte_at packet (Z.to_nat i)).
Proof.
  intros H. unfold getitem.
  destruct (Z.ltb_spec i 0); [lia|].
  destruct (Z.leb_spec (len packet) i); [lia|]. reflexivity.
Qed.

(** [_parse_header] on a packet of at least ten bytes, with the index
    operations resolved. *)
Lemma parse_header_long (packet : list byte) :
  10 <= len packet ->
  _parse_header packet =
    let flags1 := byte_at packet 0 in
    if negb (version_of flags1 =? 1) then Ok None
    else if has_flag flags1 DDP_FLAGS1_TIME && (len packet <? 14) then Ok None
    else
      Ok (Some (mkHeader flags1 (byte_at packet 3)
        (Z.lor (Z.lor (Z.lor (Z.shiftl (byte_at packet 4) 24)
                             (Z.shiftl (byte_at packet 5) 16))
                      (Z.shiftl (byte_at packet 6) 8))
               (byte_at packet 7))
        (Z.lor (Z.shiftl (byte_at packet 8) 8) (byte_at packet 9))
        (if has_flag flags1 DDP_FLAGS1_TIME then 14 else 10)
        (if has_flag flags1 DDP_FLAGS1_TIME
         then Some (int_from_bytes_big (slice packet 10 14)) else None))).
Proof.
  intros H. unfold _parse_header, DDP_HEADER_LEN, DDP_HEADER_LEN_TIME.
  destruct (Z.ltb_spec (len packet) 10); [lia|].
  rewrite !getitem_nth by lia. cbn [rbind].
  change (Z.to_nat 0) with 0%nat. change (Z.to_nat 3) with 3%nat.
  change (Z.to_nat 4) with 4%nat. change (Z.to_nat 5) with 5%nat.
  change (Z.to_nat 6) with 6%nat. change (Z.to_nat 7) with 7%nat.
  change (Z.to_nat 8) with 8%nat. change (Z.to_nat 9) with 9%nat.
  fold (version_of (byte_at packet 0)).
  fold (has_flag (byte_at packet 0) DDP_FLAGS1_TIME).
  cbv zeta.
  destruct (negb (version_of (byte_at packet 0) =? 1)); [reflexivity|].
  destruct (has_flag (byte_at packet 0) DDP_FLAGS1_TIME); [|reflexivity].
  cbn [andb]. destruct (len packet <? 14); reflexivity.
Qed.

Lemma parse_header_short (packet : list byte) :
  len packet < 10 -> _parse_header packet = Ok None.
Proof.
  intros H. unfold _parse_header, DDP_HEADER_LEN.
  destruct (Z.ltb_spec (len packet) 10); [reflexivity|lia].
Qed.

(** The bytes [packet[10:14]] of a packet of at least fourteen bytes. *)
Lemma slice_10_14 (packet : list byte) :
  14 <= len packet ->
  slice packet 10 14 =
    [nth 10 packet x00; nth 11 packet x00; nth 12 packet x00; nth 13 packet x00].
Proof.
  intros H. unfold slice, clamp_index.
  change (10 <? 0) with false. change (14 <? 0) with false. cbv iota.
  rewrite !Z.min_l by lia.
  change (Z.to_nat (14 - 10)) with 4%nat. change (Z.to_nat 10) with 10%nat.
  unfold len in H.
  do 14 (destruct packet as [|? packet]; [cbn [length] in H; lia|]).
  reflexivity.
Qed.

Lemma timecode_value (packet : list byte) :
  14 <= len packet ->
  int_from_bytes_big (slice packet 10 14)
  = byte_at packet 10 * 2 ^ 24 + byte_at packet 11 * 2 ^ 16
    + byte_at packet 12 * 2 ^ 8 + byte_at packet 13.
Proof.
  intros H. rewrite slice_10_14 by exact H.
  unfold int_from_bytes_big, byte_at. cbn [fold_left]. lia.
Qed.

Lemma Ok_Some_inj {A : Type} (a b : A) : Ok (Some a) = Ok (Some b) -> a = b.
Proof. intros E. injection E as E. exact E. Qed.

Ltac byte_bounds packet :=
  pose proof (byte_val_range (nth 4 packet x00));
  pose proof (byte_val_range (nth 5 packet x00));
  pose proof (byte_val_range (nth 6 packet x00));
  pose proof (byte_val_range (nth 7 packet x00));
  pose proof (byte_val_range (nth 8 packet x00));
  pose proof (byte_val_range (nth 9 packet x00)).

Lemma parsed_fields_nonneg (packet : list byte) (h : header) :
  _parse_header packet = Ok (Some h) ->
  0 <= hdr_offset h /\ 0 <= hdr_length h /\ 10 <= hdr_header_len h <= len packet.
Proof.
  intros E.
  destruct (Z.lt_ge_cases (len packet) 10) as [Hs | Hl].
  - rewrite parse_header_short in E by exact Hs. discriminate.
  - rewrite parse_header_long in E by exact Hl. cbv zeta in E.
    destruct (negb _) in E; [discriminate|].
    byte_bounds packet.
    destruct (has_flag _ _) eqn:Ht in E; cbn [andb] in E.
    + destruct (Z.ltb_spec (len packet) 14); [discriminate|].
      apply Ok_Some_inj in E. subst h.
      cbn [hdr_offset hdr_length hdr_header_len].
      unfold byte_at. rewrite be32_value, be16_value by assumption. lia.
    + apply Ok_Some_inj in E. subst h.
      cbn [hdr_offset hdr_length hdr_header_len].
      unfold byte_at. rewrite be32_value, be16_value by assumption. lia.
Qed.

(** C3: [_parse_header] never raises, and it returns invalid ([None])
    exactly when the packet is shorter than 10 bytes, or the 2-bit version
    field of its first byte is not 1, or the TIME flag is set and the packet
    is shorter than 14 bytes.  On success the header length is 14 with the
    TIME flag (and the timecode is the big-endian value of bytes 10..13),
    and 10 without it (and there is no timecode). *)
Theorem parse_header_invalid_iff (packet : list byte) :
  (_parse_header packet = Ok None <->
     (len packet < 10 \/
      version_of (byte_at packet 0) <> 1 \/
      (has_flag (byte_at packet 0) DDP_FLAGS1_TIME = true /\ len packet < 14)))
  /\ (forall e, _parse_header packet <> Raise e)
  /\ (forall h, _parse_header packet = Ok (Some h) ->
        hdr_header_len h
        = (if has_flag (byte_at packet 0) DDP_FLAGS1_TIME then 14 else 10)
        /\ hdr_timecode h
           = (if has_flag (byte_at packet 0) DDP_FLAGS1_TIME
              then Some (byte_at packet 10 * 2 ^ 24 + byte_at packet 11 * 2 ^ 16
                         + byte_at packet 12 * 2 ^ 8 + byte_at packet 13)
              else None)).
Proof.
  destruct (Z.lt_ge_cases (len packet) 10) as [Hs | Hl].
  - rewrite parse_header_short by exact Hs.
    split; [|split].
    + split; [intros _; left; exact Hs | reflexivity].
    + discriminate.
    + discriminate.
  - rewrite parse_header_long by exact Hl. cbv zeta.
    destruct (Z.eqb_spec (version_of (byte_at packet 0)) 1) as [Hv | Hv];
      cbn [negb].
    2:{ split; [|split]; try discriminate.
        split; [intros _; right; left; exact Hv | reflexivity]. }
    destruct (has_flag (byte_at packet 0) DDP_FLAGS1_TIME) eqn:Ht; cbn [andb].
    + destruct (Z.ltb_spec (len packet) 14) as [H14 | H14].
      * split; [|split]; try discriminate.
        split; [intros _; right; right; split; [reflexivity | exact H14]
               | reflexivity].
      * split; [|split]; try discriminate.
        -- split; [discriminate|].
           intros [H | [H | [_ H]]]; [lia | contradiction | lia].
        -- intros h E. apply Ok_Some_inj in E. subst h.
           cbn [hdr_header_len hdr_timecode].
           rewrite timecode_value by lia. split; reflexivity.
    + split; [|split]; try discriminate.
      * split; [discriminate|].
        intros [H | [H | [H _]]]; [lia | contradiction | discriminate].
      * intros h E. apply Ok_Some_inj in E. subst h.
        cbn [hdr_header_len hdr_timecode]. split; reflexivity.
Qed.

Example parse_header_bad_version :
  _parse_header (build_header 0x81 1 0 3 ++ [x01; x02; x03]) = Ok None.
Proof. reflexivity. Qed.

Example parse_header_time :
  _parse_header (build_header 0x51 1 0 0 ++ [x00; x00; x01; x02])
  = Ok (Some (mkHeader 0x51 1 0 0 14 (Some 258))).
Proof. reflexivity. Qed.

Lemma build_header_len (flags1 device_id offset length : Z) :
  len (build_header flags1 device_id offset length) = 10.
Proof. reflexivity. Qed.

(** What [_parse_header] reads back from a header made by [build_header],
    whatever the arguments: every field reduced to its width. *)
Lemma parse_build_header (flags1 device_id offset length : Z) :
  version_of (flags1 mod 256) = 1 ->
  has_flag (flags1 mod 256) DDP_FLAGS1_TIME = false ->
  _parse_header (build_header flags1 device_id offset length)
  = Ok (Some (mkHeader (flags1 mod 256) (device_id mod 256)
                (Z.shiftr offset 24 mod 256 * 2 ^ 24
                 + Z.shiftr offset 16 mod 256 * 2 ^ 16
                 + Z.shiftr offset 8 mod 256 * 2 ^ 8 + offset mod 256)
                (Z.shiftr length 8 mod 256 * 2 ^ 8 + length mod 256)
                10 None)).
Proof.
  intros Hv Ht.
  rewrite parse_header_long by (rewrite build_header_len; lia).
  unfold byte_at, build_header. cbn [nth]. cbv zeta.
  rewrite !stored_byte.
  rewrite Hv, Ht. cbn [negb Z.eqb Pos.eqb andb].
  rewrite be32_value, be16_value
    by (apply Z.mod_pos_bound; lia).
  reflexivity.
Qed.

(** C2 (amended): for every flags byte in [0,255] whose version field is 1
    and whose TIME flag is clear, every [device_id] in [0,255], [offset] in
    [0, 2^32-1] and [length] in [0,65535], decoding the 10-byte header made
    by [build_header] succeeds and gives back the same four values, with
    header length 10 and no timecode. *)
Theorem header_roundtrip (flags1 device_id offset length : Z) :
  0 <= flags1 <= 255 ->
  version_of flags1 = 1 ->
  has_flag flags1 DDP_FLAGS1_TIME = false ->
  0 <= device_id <= 255 ->
  0 <= offset <= 2 ^ 32 - 1 ->
  0 <= length <= 65535 ->
  _parse_header (build_header flags1 device_id offset length)
  = Ok (Some (mkHeader flags1 device_id offset length 10 None)).
Proof.
  intros Hf Hv Ht Hd Ho Hl.
  rewrite parse_build_header; rewrite ?(Z.mod_small flags1) by lia; try assumption.
  rewrite be32_split by lia.
  rewrite be16_split by (change (2 ^ 16) with 65536; lia).
  rewrite (Z.mod_small device_id) by lia.
  reflexivity.
Qed.

Lemma header_roundtrip_witness :
  _parse_header (build_header 0x41 255 4294967295 65535)
  = Ok (Some (mkHeader 0x41 255 4294967295 65535 10 None)).
Proof.
  apply (header_roundtrip 0x41 255 4294967295 65535);
    first [ reflexivity | cbn; lia ].
Defined.

(** C2 as stated fails: a flags byte with version 1 and the TIME flag set is
    encoded into 10 bytes, which [_parse_header] rejects for want of the
    timecode. *)
Lemma header_roundtrip_fails_with_time_flag :
  ~ (forall flags1 device_id offset length : Z,
       0 <= flags1 <= 255 -> version_of flags1 = 1 ->
       0 <= device_id <= 255 -> 0 <= offset <= 2 ^ 32 - 1 ->
       0 <= length <= 65535 ->
       exists h,
         _parse_header (build_header flags1 device_id offset length) = Ok (Some h)
         /\ hdr_flags1 h = flags1 /\ hdr_device_id h = device_id
         /\ hdr_offset h = offset /\ hdr_length h = length).
Proof.
  intros H.
  destruct (H 0x50 1 0 0) as [h [E _]]; try (cbn; lia); try reflexivity.
  discriminate E.
Qed.

(** ** Dictionaries *)

Section DictFacts.

Context {V : Type}.
Implicit Types (d : dict V) (k : Z) (v : V).

Lemma dict_get_set_eq k v d : dict_get k (dict_set k v d) = Some v.
Proof.
  induction d as [|[k' v'] d IH]; cbn.
  - rewrite Z.eqb_refl. reflexivity.
  - destruct (Z.eqb_spec k k') as [-> | Hne]; cbn.
    + rewrite Z.eqb_refl. reflexivity.
    + destruct (Z.eqb_spec k k'); [contradiction | exact IH].
Qed.

Lemma dict_get_set_ne k k' v d :
  k <> k' -> dict_get k' (dict_set k v d) = dict_get k' d.
Proof.
  intros Hne. induction d as [|[k0 v0] d IH]; cbn.
  - destruct (Z.eqb_spec k' k); [congruence | reflexivity].
  - destruct (Z.eqb_spec k k0) as [-> | Hk]; cbn.
    + destruct (Z.eqb_spec k' k0); [congruence | reflexivity].
    + destruct (Z.eqb_spec k' k0); [reflexivity | exact IH].
Qed.

Lemma dict_set_same k v d : dict_get k d = Some v -> dict_set k v d = d.
Proof.
  induction d as [|[k0 v0] d IH]; cbn; [discriminate|].
  destruct (Z.eqb_spec k k0) as [-> | Hk]; intros E.
  - congruence.
  - rewrite IH by exact E. reflexivity.
Qed.

Lemma dict_keys_set_present k v v0 d :
  dict_get k d = Some v0 -> dict_keys (dict_set k v d) = dict_keys d.
Proof.
  unfold dict_keys. induction d as [|[k0 v1] d IH]; cbn; [discriminate|].
  destruct (Z.eqb_spec k k0) as [-> | Hk]; intros E; cbn.
  - reflexivity.
  - rewrite IH by exact E. reflexivity.
Qed.

Lemma dict_keys_set_absent k v d :
  dict_get k d = None -> dict_keys (dict_set k v d) = dict_keys d ++ [k].
Proof.
  unfold dict_keys. induction d as [|[k0 v1] d IH]; cbn; [reflexivity|].
  destruct (Z.eqb_spec k k0) as [-> | Hk]; intros E; cbn.
  - discriminate.
  - rewrite IH by exact E. reflexivity.
Qed.

Lemma dict_get_in_keys k d : In k (dict_keys d) <-> dict_get k d <> None.
Proof.
  unfold dict_keys. induction d as [|[k0 v0] d IH]; cbn.
  - split; [contradiction | congruence].
  - destruct (Z.eqb_spec k k0) as [-> | Hk].
    + split; [discriminate | intros _; left; reflexivity].
    + rewrite <- IH. split; [intros [H | H]; [congruence | exact H] | auto].
Qed.

End DictFacts.

(** ** Slices and buffers *)

Lemma len_app {A : Type} (l1 l2 : list A) : len (l1 ++ l2) = len l1 + len l2.
Proof. unfold len. rewrite length_app. lia. Qed.

Lemma len_zeros (n : Z) : len (zeros n) = Z.max 0 n.
Proof. unfold len, zeros. rewrite repeat_length. lia. Qed.

Lemma zeros_nonpos (n : Z) : n <= 0 -> zeros n = [].
Proof.
  intros H. unfold zeros. replace (Z.to_nat n) with 0%nat by lia. reflexivity.
Qed.

Lemma firstn_repeat {A : Type} (x : A) (m n : nat) :
  firstn m (repeat x n) = repeat x (Nat.min m n).
Proof.
  revert n. induction m as [|m IH]; intros [|n]; cbn; try reflexivity.
  rewrite IH. reflexivity.
Qed.

Lemma firstn_zeros (m n : Z) : 0 <= m <= n -> firstn (Z.to_nat m) (zeros n) = zeros m.
Proof.
  intros H. unfold zeros. rewrite firstn_repeat.
  f_equal. lia.
Qed.

Lemma len_patched (buf : list byte) (offset : Z) (data : list byte) :
  0 <= offset ->
  len (patched buf offset data) = Z.max (len buf) (offset + len data).
Proof.
  intros H. unfold patched, len, zeros.
  rewrite !length_app, length_firstn, length_skipn, length_app, repeat_length.
  lia.
Qed.

(** [patched] holds [data] at [[offset, offset + len data)]. *)
Lemma slice_patched (buf : list byte) (offset : Z) (data : list byte) :
  0 <= offset ->
  slice (patched buf offset data) offset (offset + len data) = data.
Proof.
  intros H. unfold slice.
  rewrite len_patched by exact H.
  pose proof (len_nonneg buf) as Hb. pose proof (len_nonneg data) as Hd.
  unfold clamp_index.
  destruct (Z.ltb_spec offset 0); [lia|].
  destruct (Z.ltb_spec (offset + len data) 0); [lia|].
  rewrite !Z.min_l by lia.
  replace (offset + len data - offset) with (len data) by lia.
  unfold patched.
  assert (Hf : length (firstn (Z.to_nat offset) (buf ++ zeros (offset - len buf)))
               = Z.to_nat offset).
  { rewrite length_firstn, length_app. unfold zeros. rewrite repeat_length.
    unfold len in *. lia. }
  rewrite skipn_app, Hf, Nat.sub_diag. cbn [skipn].
  rewrite skipn_all2 by lia. cbn [app].
  rewrite firstn_app.
  unfold len. rewrite Nat2Z.id, Nat.sub_diag, firstn_all. cbn [firstn].
  apply app_nil_r.
Qed.

Lemma clamp_index_in (i n : Z) : 0 <= i <= n -> clamp_index i n = i.
Proof.
  intros H. unfold clamp_index. destruct (Z.ltb_spec i 0); lia.
Qed.

Lemma length_zeros (n : Z) : length (zeros n) = Z.to_nat n.
Proof. unfold zeros. apply repeat_length. Qed.

(** [bytearray(end)] followed by [buf[offset:end] = data]. *)
Lemma slice_assign_fresh (offset : Z) (data : list byte) :
  0 <= offset ->
  slice_assign (zeros (offset + len data)) offset (offset + len data) data
  = patched [] offset data.
Proof.
  intros H. pose proof (len_nonneg data) as Hd.
  unfold slice_assign, patched. rewrite len_zeros.
  rewrite (Z.max_r 0 (offset + len data)) by lia.
  rewrite !clamp_index_in by lia. rewrite Z.max_r by lia.
  rewrite firstn_zeros by lia.
  change (len (@nil byte)) with 0. rewrite Z.sub_0_r. cbn [app].
  rewrite skipn_nil.
  rewrite skipn_all2 by (rewrite length_zeros; lia).
  rewrite firstn_all2 by (rewrite length_zeros; lia).
  reflexivity.
Qed.

(** [buf.extend(zeros)] followed by [buf[offset:end] = data], when the
    write ends beyond the buffer. *)
Lemma slice_assign_grown (buf : list byte) (offset : Z) (data : list byte) :
  0 <= offset -> len buf < offset + len data ->
  slice_assign (buf ++ zeros (offset + len data - len buf)) offset
               (offset + len data) data
  = patched buf offset data.
Proof.
  intros H Hg. pose proof (len_nonneg data) as Hd. pose proof (len_nonneg buf) as Hb.
  unfold slice_assign, patched. rewrite len_app, len_zeros.
  rewrite (Z.max_r 0) by lia.
  rewrite !clamp_index_in by lia. rewrite Z.max_r by lia.
  rewrite (skipn_all2 buf) by (unfold len in *; lia).
  rewrite skipn_all2
    by (rewrite length_app, length_zeros; unfold len in *; lia).
  f_equal.
  destruct (Z.le_gt_cases offset (len buf)) as [Hin | Hout].
  - rewrite (zeros_nonpos (offset - len buf)) by lia. rewrite app_nil_r.
    rewrite firstn_app.
    replace (Z.to_nat offset - length buf)%nat with 0%nat by (unfold len in *; lia).
    cbn [firstn]. apply app_nil_r.
  - rewrite !firstn_app.
    rewrite !(firstn_all2 buf) by (unfold len in *; lia).
    f_equal. unfold zeros. rewrite !firstn_repeat. f_equal. unfold len in *. lia.
Qed.

(** [buf[offset:end] = data] when the write ends inside the buffer. *)
Lemma slice_assign_inside (buf : list byte) (offset : Z) (data : list byte) :
  0 <= offset -> offset + len data <= len buf ->
  slice_assign buf offset (offset + len data) data = patched buf offset data.
Proof.
  intros H Hin. pose proof (len_nonneg data) as Hd.
  unfold slice_assign, patched.
  rewrite !clamp_index_in by lia. rewrite Z.max_r by lia.
  rewrite (zeros_nonpos (offset - len buf)) by lia. rewrite app_nil_r.
  reflexivity.
Qed.

Lemma dict_set_set {V : Type} (k : Z) (v v' : V) (d : dict V) :
  dict_set k v' (dict_set k v d) = dict_set k v' d.
Proof.
  induction d as [|[k0 v0] d IH]; cbn.
  - rewrite Z.eqb_refl. reflexivity.
  - destruct (Z.eqb_spec k k0) as [-> | Hk]; cbn.
    + rewrite Z.eqb_refl. reflexivity.
    + destruct (Z.eqb_spec k k0); [contradiction|]. rewrite IH. reflexivity.
Qed.

(** The reply to a status query decodes to the fields it was built from,
    and its payload starts at the header length, as long as the payload's
    length fits the 16-bit length field. *)
Lemma reply_datagram_decodes (device_id : Z) (payload : list byte) :
  0 <= device_id <= 255 -> len payload <= 65535 ->
  let datagram := build_header 0x45 device_id 0 (len payload) ++ payload in
  _parse_header datagram = Ok (Some (mkHeader 0x45 device_id 0 (len payload) 10 None))
  /\ slice datagram 10 (10 + len payload) = payload.
Proof.
  intros Hd Hl datagram. pose proof (len_nonneg payload) as Hp.
  assert (Hlen : len datagram = 10 + len payload).
  { unfold datagram. rewrite len_app, build_header_len. reflexivity. }
  split.
  - rewrite parse_header_long by lia.
    unfold datagram, byte_at, build_header. cbn [app nth]. cbv zeta.
    rewrite !stored_byte.
    change (0x45 mod 256) with 0x45.
    change (version_of 0x45 =? 1) with true.
    change (has_flag 0x45 DDP_FLAGS1_TIME) with false.
    cbn [negb andb].
    rewrite be32_value, be16_value by (apply Z.mod_pos_bound; lia).
    rewrite (Z.mod_small device_id) by lia.
    pose proof (be16_split (len payload)) as H16.
    change (2 ^ 16) with 65536 in H16. rewrite H16 by lia.
    reflexivity.
  - unfold slice. rewrite Hlen. rewrite !clamp_index_in by lia.
    replace (10 + len payload - 10) with (len payload) by lia.
    unfold datagram, build_header. change (Z.to_nat 10) with 10%nat.
    cbn [app skipn]. unfold len. rewrite Nat2Z.id. apply firstn_all.
Qed.

(** ** Buffer registry *)

Section RegistryFacts.

Context {cb address : Type}.
Implicit Types (w : world cb address) (r : receiver cb).

Lemma set_buffer_twice (d : Z) (b b' : list byte) r :
  set_buffer d b' (set_buffer d b r) = set_buffer d b' r.
Proof.
  unfold set_buffer. cbn. rewrite dict_set_set. reflexivity.
Qed.

(** What one call of [_write_to_buffer] with a non-negative offset does:
    it never raises, and it either leaves the receiver as it is or puts
    the patched buffer under [device_id]. *)
Lemma write_to_buffer_spec (device_id offset : Z) (data : list byte) w :
  0 <= offset ->
  _write_to_buffer device_id offset data w =
    (Ok tt,
     match dict_get device_id (_buffers (rcv w)) with
     | None =>
         if offset + len data >? _max_buffer_size (rcv w) then w
         else mkWorld (set_buffer device_id (patched [] offset data) (rcv w))
                      (trace w)
     | Some buf =>
         if (offset + len data >? len buf)
            && (offset + len data >? _max_buffer_size (rcv w)) then w
         else mkWorld (set_buffer device_id (patched buf offset data) (rcv w))
                      (trace w)
     end).
Proof.
  intros Hoff. pose proof (len_nonneg data) as Hd.
  unfold _write_to_buffer, bind, get_rcv, lift, ret, modify, buffer_of, bytearray.
  destruct (dict_get device_id (_buffers (rcv w))) as [buf|] eqn:E; cbn [andb].
  - cbn [rcv trace]. rewrite E.
    destruct (Z.gtb_spec (offset + len data) (len buf)) as [Hg | Hg]; cbn [andb].
    + destruct (offset + len data >? _max_buffer_size (rcv w)); [reflexivity|].
      rewrite slice_assign_grown by lia. reflexivity.
    + rewrite slice_assign_inside by lia. reflexivity.
  - destruct (offset + len data >? _max_buffer_size (rcv w)); [reflexivity|].
    destruct (Z.ltb_spec (offset + len data) 0); [lia|].
    cbn [rcv trace set_buffer _buffers _max_buffer_size].
    rewrite dict_get_set_eq.
    destruct (Z.gtb_spec (offset + len data) (len (zeros (offset + len data))))
      as [Hg | Hg].
    { rewrite len_zeros in Hg. lia. }
    rewrite slice_assign_fresh by lia.
    cbn [rcv trace]. rewrite set_buffer_twice. reflexivity.
Qed.

(** C4 (amended): for every [device_id], non-negative [offset] and [data],
    with [end = offset + len data]: with no buffer for [device_id] and
    [end > max_buffer_size] the write changes nothing and raises nothing;
    with no buffer and [end <= max_buffer_size] a buffer of exactly [end]
    bytes is created (zeros up to [offset], then [data]); with a buffer
    and [end] greater than both the buffer's length and [max_buffer_size]
    the write changes nothing; in every other case the buffer is
    zero-filled up to [end] as needed and [data] is copied to
    [[offset, end)]. *)
Theorem write_to_buffer_cases (device_id offset : Z) (data : list byte) w :
  0 <= offset ->
  (dict_get device_id (_buffers (rcv w)) = None ->
   offset + len data > _max_buffer_size (rcv w) ->
   _write_to_buffer device_id offset data w = (Ok tt, w))
  /\
  (dict_get device_id (_buffers (rcv w)) = None ->
   offset + len data <= _max_buffer_size (rcv w) ->
   _write_to_buffer device_id offset data w
   = (Ok tt, mkWorld (set_buffer device_id (zeros offset ++ data) (rcv w))
                     (trace w))
   /\ len (zeros offset ++ data) = offset + len data)
  /\
  (forall buf,
     dict_get device_id (_buffers (rcv w)) = Some buf ->
     offset + len data > len buf ->
     offset + len data > _max_buffer_size (rcv w) ->
     _write_to_buffer device_id offset data w = (Ok tt, w))
  /\
  (forall buf,
     dict_get device_id (_buffers (rcv w)) = Some buf ->
     offset + len data <= len buf
     \/ offset + len data <= _max_buffer_size (rcv w) ->
     _write_to_buffer device_id offset data w
     = (Ok tt, mkWorld (set_buffer device_id (patched buf offset data) (rcv w))
                       (trace w))
     /\ len (patched buf offset data) = Z.max (len buf) (offset + len data)
     /\ slice (patched buf offset data) offset (offset + len data) = data).
Proof.
  intros Hoff. rewrite write_to_buffer_spec by exact Hoff.
  pose proof (len_nonneg data) as Hd.
  split; [|split; [|split]].
  - intros -> Hgt.
    destruct (Z.gtb_spec (offset + len data) (_max_buffer_size (rcv w)));
      [reflexivity | lia].
  - intros -> Hle. split.
    + destruct (Z.gtb_spec (offset + len data) (_max_buffer_size (rcv w)));
        [lia|].
      unfold patched. change (len (@nil byte)) with 0. rewrite Z.sub_0_r.
      cbn [app]. rewrite skipn_nil, app_nil_r.
      rewrite firstn_all2 by (rewrite length_zeros; lia). reflexivity.
    + rewrite len_app, len_zeros. lia.
  - intros buf -> Hg1 Hg2.
    destruct (Z.gtb_spec (offset + len data) (len buf)); [|lia].
    destruct (Z.gtb_spec (offset + len data) (_max_buffer_size (rcv w)));
      [reflexivity | lia].
  - intros buf -> Hfits. split; [|split].
    + destruct (Z.gtb_spec (offset + len data) (len buf));
        destruct (Z.gtb_spec (offset + len data) (_max_buffer_size (rcv w)));
        cbn [andb]; try reflexivity; lia.
    + apply len_patched. exact Hoff.
    + apply slice_patched. exact Hoff.
Qed.

Lemma configure_output_spec (device_id size : Z) (callback : option cb) w :
  0 <= size ->
  configure_output device_id size callback w =
    (Ok tt,
     mkWorld
       (match callback with
        | Some c => set_callback device_id c
                      (set_buffer device_id (zeros size) (rcv w))
        | None => set_buffer device_id (zeros size) (rcv w)
        end)
       (trace w)).
Proof.
  intros Hs. unfold configure_output, bind, lift, modify, ret, bytearray.
  destruct (Z.ltb_spec size 0); [lia|].
  destruct callback; reflexivity.
Qed.

(** C9 (amended): for every [device_id] with a previously registered
    callback and every [size >= 0], [configure_output] puts a zero-filled
    buffer of exactly [size] bytes under [device_id], replacing any prior
    buffer; when a callback is passed it becomes the registered one,
    replacing the prior one, and when none is passed the prior callback
    stays registered. *)
Theorem configure_output_registers
    (device_id size : Z) (callback : option cb) (prior : cb) w :
  dict_get device_id (_callbacks (rcv w)) = Some prior ->
  0 <= size ->
  exists w',
    configure_output device_id size callback w = (Ok tt, w')
    /\ dict_get device_id (_buffers (rcv w')) = Some (zeros size)
    /\ len (zeros size) = size
    /\ Forall (fun b => b = x00) (zeros size)
    /\ dict_get device_id (_callbacks (rcv w'))
       = match callback with Some c => Some c | None => Some prior end.
Proof.
  intros Hprior Hs. rewrite configure_output_spec by exact Hs.
  eexists. split; [reflexivity|]. cbn [rcv].
  repeat split.
  - destruct callback; cbn [set_callback set_buffer _buffers];
      apply dict_get_set_eq.
  - rewrite len_zeros. lia.
  - unfold zeros. apply Forall_forall. intros b Hb.
    apply repeat_spec in Hb. exact Hb.
  - destruct callback; cbn [set_callback set_buffer _callbacks].
    + apply dict_get_set_eq.
    + exact Hprior.
Qed.

Lemma grows_refl r : grows r r.
Proof.
  split; [reflexivity|]. intros id.
  destruct (dict_get id (_buffers r)); [lia | exact I].
Qed.

Lemma grows_trans r1 r2 r3 : grows r1 r2 -> grows r2 r3 -> grows r1 r3.
Proof.
  intros [M12 H12] [M23 H23]. split; [congruence|].
  intros id. specialize (H12 id). specialize (H23 id).
  rewrite M12 in H23.
  destruct (dict_get id (_buffers r1)), (dict_get id (_buffers r2)),
    (dict_get id (_buffers r3)); try contradiction; try exact I; lia.
Qed.

Lemma grows_set_buffer (d : Z) (b' : list byte) r :
  match dict_get d (_buffers r) with
  | Some b => len b <= len b' <= Z.max (len b) (_max_buffer_size r)
  | None => len b' <= _max_buffer_size r
  end ->
  grows r (set_buffer d b' r).
Proof.
  intros H. split; [reflexivity|]. intros id.
  cbn [set_buffer _buffers].
  destruct (Z.eq_dec d id) as [<- | Hne].
  - rewrite dict_get_set_eq. exact H.
  - rewrite dict_get_set_ne by exact Hne.
    destruct (dict_get id (_buffers r)); [lia | exact I].
Qed.

Lemma preserves_ret {A : Type} (a : A) : preserves_grows (@ret cb address A a).
Proof. intros w. apply grows_refl. Qed.

Lemma preserves_raise {A : Type} (e : exn) :
  preserves_grows (@raise cb address A e).
Proof. intros w. apply grows_refl. Qed.

Lemma preserves_lift {A : Type} (x : result A) :
  preserves_grows (@lift cb address A x).
Proof. intros w. apply grows_refl. Qed.

Lemma preserves_get_rcv : preserves_grows (@get_rcv cb address).
Proof. intros w. apply grows_refl. Qed.

Lemma preserves_emit (e : event cb address) : preserves_grows (emit e).
Proof. intros w. apply grows_refl. Qed.

Lemma preserves_bind {A B : Type} (m : M cb address A) (f : A -> M cb address B) :
  preserves_grows m -> (forall a, preserves_grows (f a)) ->
  preserves_grows (bind m f).
Proof.
  intros Hm Hf w. unfold bind. specialize (Hm w).
  destruct (m w) as [[a | e] w1]; cbn [snd] in *.
  - eapply grows_trans; [exact Hm | apply Hf].
  - exact Hm.
Qed.

Lemma preserves_for_each {A : Type} (l : list A) (body : A -> M cb address unit) :
  (forall x, preserves_grows (body x)) -> preserves_grows (for_each l body).
Proof.
  intros Hb. induction l as [|x l IH]; cbn [for_each].
  - apply preserves_ret.
  - apply preserves_bind; [apply Hb | intros _; exact IH].
Qed.

Lemma preserves_write (device_id offset : Z) (data : list byte) :
  0 <= offset ->
  preserves_grows (@_write_to_buffer cb address device_id offset data).
Proof.
  intros Hoff w. rewrite write_to_buffer_spec by exact Hoff. cbn [snd].
  pose proof (len_nonneg data) as Hd.
  destruct (dict_get device_id (_buffers (rcv w))) as [buf|] eqn:E.
  - destruct (Z.gtb_spec (offset + len data) (len buf)) as [Hg | Hg];
      cbn [andb].
    + destruct (Z.gtb_spec (offset + len data) (_max_buffer_size (rcv w)));
        [apply grows_refl|].
      cbn [rcv]. apply grows_set_buffer. rewrite E.
      rewrite len_patched by exact Hoff. lia.
    + cbn [rcv]. apply grows_set_buffer. rewrite E.
      rewrite len_patched by exact Hoff. lia.
  - destruct (Z.gtb_spec (offset + len data) (_max_buffer_size (rcv w)));
      [apply grows_refl|].
    cbn [rcv]. apply grows_set_buffer. rewrite E.
    rewrite len_patched by exact Hoff.
    change (len (@nil byte)) with 0. lia.
Qed.

End RegistryFacts.

(** ** Dispatcher and query responder *)

Section DispatcherFacts.

Context {cb address : Type}.
Variable run_cb : cb -> Z -> list byte -> option Z -> receiver cb -> receiver cb.
Implicit Types (w : world cb address) (r : receiver cb) (h : header).

(** The flags every reply carries: version 1, REPLY, PUSH. *)
Lemma reply_flags_value :
  Z.lor (Z.lor DDP_FLAGS1_VER1 DDP_FLAGS1_REPLY) DDP_FLAGS1_PUSH = 0x45.
Proof. reflexivity. Qed.

Lemma handle_query_spec (device_id : Z) (addr : address) w :
  _handle_query device_id addr w =
    (Ok tt,
     mkWorld (rcv w)
       (trace w ++
        [ESend
           (match _status_json (rcv w) with
            | Some payload =>
                if device_id =? DDP_ID_STATUS
                then build_header 0x45 device_id 0 (len payload) ++ payload
                else build_header 0x45 device_id 0 0
            | None => build_header 0x45 device_id 0 0
            end) addr])).
Proof.
  unfold _handle_query, _send_empty_reply, sendto, emit, bind, get_rcv.
  rewrite reply_flags_value.
  destruct (device_id =? DDP_ID_STATUS); cbn [negb].
  - destruct (_status_json (rcv w)); reflexivity.
  - destruct (_status_json (rcv w)); reflexivity.
Qed.

(** [_process_packet] once the header has been decoded. *)
Lemma process_packet_parsed (packet : list byte) (addr : address) h w :
  _parse_header packet = Ok (Some h) ->
  _process_packet run_cb packet addr w =
    if has_flag (hdr_flags1 h) DDP_FLAGS1_REPLY then (Ok tt, w)
    else if has_flag (hdr_flags1 h) DDP_FLAGS1_QUERY then
      _handle_query (hdr_device_id h) addr w
    else if has_flag (hdr_flags1 h) DDP_FLAGS1_STORAGE then (Ok tt, w)
    else
      let data :=
        slice packet (hdr_header_len h) (hdr_header_len h + hdr_length h) in
      let step := fun target_id : Z =>
        bind (emit (EWrite target_id (hdr_offset h) data)) (fun _ =>
        bind (_write_to_buffer target_id (hdr_offset h) data) (fun _ =>
        if has_flag (hdr_flags1 h) DDP_FLAGS1_PUSH
        then _handle_push run_cb target_id (hdr_timecode h)
        else ret tt)) in
      if hdr_device_id h =? DDP_ID_ALL
      then for_each (dict_keys (_buffers (rcv w))) step w
      else step (hdr_device_id h) w.
Proof.
  intros E. unfold _process_packet, has_flag.
  unfold bind at 1. unfold lift. rewrite E. destruct h as [f d o l hl tc].
  cbn [hdr_flags1 hdr_device_id hdr_offset hdr_length hdr_header_len hdr_timecode].
  destruct (truthy (Z.land f DDP_FLAGS1_REPLY)); [reflexivity|].
  destruct (truthy (Z.land f DDP_FLAGS1_QUERY)); [reflexivity|].
  destruct (truthy (Z.land f DDP_FLAGS1_STORAGE)); [reflexivity|].
  cbv zeta. destruct (d =? DDP_ID_ALL); reflexivity.
Qed.

Lemma process_packet_invalid (packet : list byte) (addr : address) w :
  _parse_header packet = Ok None ->
  _process_packet run_cb packet addr w = (Ok tt, w).
Proof.
  intros E. unfold _process_packet, bind, lift. rewrite E. reflexivity.
Qed.

Lemma parse_header_never_raises (packet : list byte) (e : exn) :
  _parse_header packet <> Raise e.
Proof.
  destruct (Z.lt_ge_cases (len packet) 10) as [Hs | Hl].
  - rewrite parse_header_short by exact Hs. discriminate.
  - rewrite parse_header_long by exact Hl. cbv zeta.
    destruct (negb _); [discriminate|].
    destruct (_ && _); discriminate.
Qed.

(** *** Buffer lengths across packets and poll cycles *)

Hypothesis run_cb_grows : callbacks_grow run_cb.

Lemma preserves_handle_push (device_id : Z) (timecode : option Z) :
  preserves_grows (@_handle_push cb address run_cb device_id timecode).
Proof.
  unfold _handle_push.
  apply preserves_bind; [apply preserves_get_rcv|]. intros r.
  destruct (dict_get device_id (_callbacks r)) as [c|]; [|apply preserves_ret].
  apply preserves_bind; [apply preserves_lift|]. intros buf.
  apply preserves_bind; [apply preserves_emit|]. intros _.
  intros w. cbn. apply run_cb_grows.
Qed.

Lemma preserves_handle_query (device_id : Z) (addr : address) :
  preserves_grows (@_handle_query cb address device_id addr).
Proof.
  intros w. rewrite handle_query_spec. cbn [snd rcv]. apply grows_refl.
Qed.

Lemma preserves_process_packet (packet : list byte) (addr : address) :
  preserves_grows (_process_packet run_cb packet addr).
Proof.
  intros w.
  destruct (_parse_header packet) as [[h|]|e] eqn:E.
  - rewrite (process_packet_parsed _ _ h) by exact E.
    destruct (parsed_fields_nonneg _ _ E) as [Hoff _].
    destruct (has_flag _ DDP_FLAGS1_REPLY); [apply grows_refl|].
    destruct (has_flag _ DDP_FLAGS1_QUERY); [apply preserves_handle_query|].
    destruct (has_flag _ DDP_FLAGS1_STORAGE); [apply grows_refl|].
    cbv zeta.
    assert (Hstep : forall target_id,
      preserves_grows
        (bind (emit (EWrite target_id (hdr_offset h)
                 (slice packet (hdr_header_len h)
                    (hdr_header_len h + hdr_length h)))) (fun _ =>
         bind (@_write_to_buffer cb address target_id (hdr_offset h)
                 (slice packet (hdr_header_len h)
                    (hdr_header_len h + hdr_length h))) (fun _ =>
         if has_flag (hdr_flags1 h) DDP_FLAGS1_PUSH
         then _handle_push run_cb target_id (hdr_timecode h)
         else ret tt)))).
    { intros target_id.
      apply preserves_bind; [apply preserves_emit|]. intros _.
      apply preserves_bind; [apply preserves_write; exact Hoff|]. intros _.
      destruct (has_flag _ _); [apply preserves_handle_push | apply preserves_ret]. }
    destruct (hdr_device_id h =? DDP_ID_ALL).
    + apply preserves_for_each. exact Hstep.
    + apply Hstep.
  - rewrite process_packet_invalid by exact E. apply grows_refl.
  - exfalso. exact (parse_header_never_raises _ _ E).
Qed.

Lemma preserves_poll_loop (queue : list (arrival address)) (processed : Z) :
  preserves_grows (poll_loop run_cb queue processed).
Proof.
  revert processed. induction queue as [|a queue IH]; intros processed.
  - apply preserves_ret.
  - cbn [poll_loop]. destruct a as [data addr | args].
    + cbv zeta. destruct (negb _); [apply preserves_ret|].
      apply preserves_bind; [apply preserves_process_packet|].
      intros _. apply IH.
    + destruct (match args with [] => false | a0 :: _ => a0 =? EAGAIN end);
        [apply preserves_ret | apply preserves_raise].
Qed.

Lemma preserves_poll_cycles (cycles : list (list (arrival address))) :
  preserves_grows (poll_cycles run_cb cycles).
Proof.
  induction cycles as [|queue cycles IH]; cbn [poll_cycles].
  - apply preserves_ret.
  - apply preserves_bind; [apply preserves_poll_loop | intros _; exact IH].
Qed.

End DispatcherFacts.

Lemma slice_full {A : Type} (l : list A) : slice l 0 (len l) = l.
Proof.
  unfold slice. pose proof (len_nonneg l).
  rewrite !clamp_index_in by lia.
  rewrite Z.sub_0_r. unfold len. rewrite Nat2Z.id.
  change (Z.to_nat 0) with 0%nat. cbn [skipn]. apply firstn_all.
Qed.

Section PollFacts.

Context {cb address : Type}.
Variable run_cb : cb -> Z -> list byte -> option Z -> receiver cb -> receiver cb.
Implicit Types (w : world cb address) (queue : list (arrival address)).

Lemma poll_loop_prefix (pre rest : list (arrival address)) (processed : Z) w :
  forallb is_packet pre = true ->
  (rest = [] \/ exists a rest', rest = a :: rest' /\ stops_poll a = true) ->
  poll_loop run_cb (pre ++ rest) processed w =
    match for_each pre (process_arrival run_cb) w with
    | (Ok _, w') => (Ok (processed + len pre, tl rest), w')
    | (Raise e, w') => (Raise e, w')
    end.
Proof.
  intros Hpre Hrest. revert processed w.
  induction pre as [|a pre IH]; intros processed w.
  - cbn [app for_each ret]. change (len (@nil (arrival address))) with 0.
    rewrite Z.add_0_r.
    destruct Hrest as [-> | [a [rest' [-> Hstop]]]]; [reflexivity|].
    cbn [poll_loop tl]. destruct a as [data addr | args]; cbn [stops_poll] in Hstop.
    + cbv zeta.
      assert (len (firstn (Z.to_nat RX_BUFFER_LEN) data) = 0) as ->.
      { apply Z.eqb_eq in Hstop. unfold len in *. rewrite length_firstn. lia. }
      reflexivity.
    + rewrite Hstop. reflexivity.
  - cbn [forallb] in Hpre. apply andb_true_iff in Hpre as [Ha Hpre].
    specialize (IH Hpre).
    destruct a as [data addr | args]; cbn [is_packet] in Ha; [|discriminate].
    cbn [app poll_loop for_each process_arrival]. cbv zeta.
    assert (Hn : truthy (len (firstn (Z.to_nat RX_BUFFER_LEN) data)) = true).
    { unfold truthy. apply negb_true_iff in Ha. apply Z.eqb_neq in Ha.
      apply negb_true_iff. apply Z.eqb_neq.
      unfold len in *. rewrite length_firstn. unfold RX_BUFFER_LEN. lia. }
    rewrite Hn. cbn [negb]. rewrite slice_full.
    unfold bind.
    destruct (_process_packet run_cb _ addr w) as [[[]|e] w1]; [|reflexivity].
    rewrite IH.
    replace (processed + 1 + len pre) with (processed + len (Datagram data addr :: pre))
      by (unfold len; cbn [length]; lia).
    reflexivity.
Qed.

(** *** No exception from well-behaved callbacks *)

Lemma normal_ret {A : Type} (a : A) : returns_normally (@ret cb address A a).
Proof. intros w Hw. exists a, w. split; [reflexivity | exact Hw]. Qed.

Lemma normal_emit (e : event cb address) : returns_normally (emit e).
Proof. intros w Hw. eexists tt, _. split; [reflexivity | exact Hw]. Qed.

Lemma normal_bind {A B : Type} (m : M cb address A) (f : A -> M cb address B) :
  returns_normally m -> (forall a, returns_normally (f a)) ->
  returns_normally (bind m f).
Proof.
  intros Hm Hf w Hw. destruct (Hm w Hw) as [a [w1 [E1 Hw1]]].
  destruct (Hf a w1 Hw1) as [b [w2 [E2 Hw2]]].
  exists b, w2. unfold bind. rewrite E1. split; assumption.
Qed.

Lemma normal_for_each {A : Type} (l : list A) (body : A -> M cb address unit) :
  (forall x, returns_normally (body x)) -> returns_normally (for_each l body).
Proof.
  intros Hb. induction l as [|x l IH]; cbn [for_each].
  - apply normal_ret.
  - apply normal_bind; [apply Hb | intros _; exact IH].
Qed.

Lemma registered_set_buffer (d : Z) (b : list byte) (r : receiver cb) :
  registered_have_buffers r -> registered_have_buffers (set_buffer d b r).
Proof.
  intros Hr k Hk. cbn [set_buffer _buffers _callbacks] in *.
  destruct (Z.eq_dec d k) as [<- | Hne].
  - rewrite dict_get_set_eq. discriminate.
  - rewrite dict_get_set_ne by exact Hne. apply Hr. exact Hk.
Qed.

Lemma normal_write (device_id offset : Z) (data : list byte) :
  0 <= offset ->
  returns_normally (@_write_to_buffer cb address device_id offset data).
Proof.
  intros Hoff w Hw. rewrite write_to_buffer_spec by exact Hoff.
  eexists tt, _. split; [reflexivity|].
  destruct (dict_get device_id (_buffers (rcv w))).
  - destruct (_ && _); [exact Hw|]. cbn [rcv].
    apply registered_set_buffer. exact Hw.
  - destruct (_ >? _); [exact Hw|]. cbn [rcv].
    apply registered_set_buffer. exact Hw.
Qed.

Lemma normal_handle_query (device_id : Z) (addr : address) :
  returns_normally (@_handle_query cb address device_id addr).
Proof.
  intros w Hw. rewrite handle_query_spec.
  eexists tt, _. split; [reflexivity | exact Hw].
Qed.

Hypothesis run_cb_keeps_buffers : callbacks_keep_buffers run_cb.

Lemma normal_handle_push (device_id : Z) (timecode : option Z) :
  returns_normally (@_handle_push cb address run_cb device_id timecode).
Proof.
  intros w Hw. unfold _handle_push, bind, get_rcv, lift, emit, modify, buffer_of, ret.
  destruct (dict_get device_id (_callbacks (rcv w))) as [c|] eqn:Ec.
  - destruct (dict_get device_id (_buffers (rcv w))) as [buf|] eqn:Eb.
    + eexists tt, _. split; [reflexivity|]. cbn [rcv].
      apply run_cb_keeps_buffers. exact Hw.
    + exfalso. apply (Hw device_id); [rewrite Ec; discriminate | exact Eb].
  - exists tt, w. split; [reflexivity | exact Hw].
Qed.

Lemma normal_process_packet (packet : list byte) (addr : address) :
  returns_normally (_process_packet run_cb packet addr).
Proof.
  intros w Hw.
  destruct (_parse_header packet) as [[h|]|e] eqn:E.
  - rewrite (process_packet_parsed _ _ _ h) by exact E.
    destruct (parsed_fields_nonneg _ _ E) as [Hoff _].
    destruct (has_flag _ DDP_FLAGS1_REPLY); [apply normal_ret; exact Hw|].
    destruct (has_flag _ DDP_FLAGS1_QUERY); [apply normal_handle_query; exact Hw|].
    destruct (has_flag _ DDP_FLAGS1_STORAGE); [apply normal_ret; exact Hw|].
    cbv zeta.
    assert (Hstep : forall target_id,
      returns_normally
        (bind (emit (EWrite target_id (hdr_offset h)
                 (slice packet (hdr_header_len h)
                    (hdr_header_len h + hdr_length h)))) (fun _ =>
         bind (@_write_to_buffer cb address target_id (hdr_offset h)
                 (slice packet (hdr_header_len h)
                    (hdr_header_len h + hdr_length h))) (fun _ =>
         if has_flag (hdr_flags1 h) DDP_FLAGS1_PUSH
         then _handle_push run_cb target_id (hdr_timecode h)
         else ret tt)))).
    { intros target_id.
      apply normal_bind; [apply normal_emit|]. intros _.
      apply normal_bind; [apply normal_write; exact Hoff|]. intros _.
      destruct (has_flag _ _); [apply normal_handle_push | apply normal_ret]. }
    destruct (hdr_device_id h =? DDP_ID_ALL).
    + apply normal_for_each; [exact Hstep | exact Hw].
    + apply Hstep. exact Hw.
  - rewrite process_packet_invalid by exact E. apply normal_ret. exact Hw.
  - exfalso. exact (parse_header_never_raises _ _ E).
Qed.

Lemma normal_process_arrival (a : arrival address) :
  returns_normally (process_arrival run_cb a).
Proof.
  destruct a as [data addr | args]; cbn [process_arrival].
  - apply normal_process_packet.
  - apply normal_ret.
Qed.

End PollFacts.

(** ** The receiver's behaviour, claim by claim *)

Section ReceiverClaims.

Context {cb address : Type}.
Variable run_cb : cb -> Z -> list byte -> option Z -> receiver cb -> receiver cb.
Implicit Types (w : world cb address) (r : receiver cb) (h : header).

Lemma set_buffer_same (d : Z) (buf : list byte) r :
  dict_get d (_buffers r) = Some buf -> set_buffer d buf r = r.
Proof.
  intros E. destruct r as [m bs cs st]. unfold set_buffer. cbn in *.
  rewrite dict_set_same by exact E. reflexivity.
Qed.

Lemma write_existing_spec (device_id offset : Z) (data buf : list byte) w :
  0 <= offset ->
  dict_get device_id (_buffers (rcv w)) = Some buf ->
  _write_to_buffer device_id offset data w =
    (Ok tt,
     mkWorld (set_buffer device_id
                (written (_max_buffer_size (rcv w)) buf offset data) (rcv w))
             (trace w)).
Proof.
  intros Hoff E. rewrite write_to_buffer_spec by exact Hoff. rewrite E.
  unfold written. destruct (_ && _); [|reflexivity].
  rewrite set_buffer_same by exact E. destruct w; reflexivity.
Qed.

Lemma handle_push_spec (device_id : Z) (timecode : option Z) (c : cb)
    (buf : list byte) w :
  dict_get device_id (_callbacks (rcv w)) = Some c ->
  dict_get device_id (_buffers (rcv w)) = Some buf ->
  _handle_push run_cb device_id timecode w =
    (Ok tt,
     mkWorld (run_cb c device_id buf timecode (rcv w))
             (trace w ++ [ECall c device_id buf timecode])).
Proof.
  intros Ec Eb.
  unfold _handle_push, bind, get_rcv, lift, emit, modify, buffer_of.
  rewrite Ec, Eb. reflexivity.
Qed.

(** One pass of the dispatch body, with PUSH set, over a destination that
    has a buffer and a callback. *)
Lemma write_then_push (device_id offset : Z) (data buf : list byte)
    (timecode : option Z) (c : cb) w :
  0 <= offset ->
  dict_get device_id (_buffers (rcv w)) = Some buf ->
  dict_get device_id (_callbacks (rcv w)) = Some c ->
  bind (emit (EWrite device_id offset data)) (fun _ =>
    bind (_write_to_buffer device_id offset data) (fun _ =>
      _handle_push run_cb device_id timecode)) w
  = let b := written (_max_buffer_size (rcv w)) buf offset data in
    (Ok tt,
     mkWorld (run_cb c device_id b timecode (set_buffer device_id b (rcv w)))
             (trace w ++ [EWrite device_id offset data;
                          ECall c device_id b timecode])).
Proof.
  intros Hoff Eb Ec. unfold bind at 1, emit.
  unfold bind. rewrite (write_existing_spec _ _ _ buf) by assumption.
  cbn [rcv trace].
  rewrite (handle_push_spec _ _ c
             (written (_max_buffer_size (rcv w)) buf offset data)).
  - cbn [rcv trace]. rewrite <- app_assoc. reflexivity.
  - exact Ec.
  - cbn [rcv set_buffer _buffers]. apply dict_get_set_eq.
Qed.

(** C1 (amended): over every sequence of poll cycles, with callbacks that
    respect [grows] (such as callbacks that only read their buffer),
    packet processing never removes or shrinks a destination buffer, never
    grows one beyond the larger of its former length and
    [max_buffer_size], and creates buffers within [max_buffer_size] only;
    [max_buffer_size] itself does not change. *)
Theorem buffer_lengths_under_polling
    (cycles : list (list (arrival address))) w (id : Z) :
  callbacks_grow run_cb ->
  let w' := snd (poll_cycles run_cb cycles w) in
  _max_buffer_size (rcv w') = _max_buffer_size (rcv w)
  /\ (forall b, dict_get id (_buffers (rcv w)) = Some b ->
        exists b', dict_get id (_buffers (rcv w')) = Some b'
                   /\ len b <= len b' <= Z.max (len b) (_max_buffer_size (rcv w)))
  /\ (dict_get id (_buffers (rcv w)) = None ->
      forall b', dict_get id (_buffers (rcv w')) = Some b' ->
                 len b' <= _max_buffer_size (rcv w)).
Proof.
  intros Hcb w'.
  destruct (preserves_poll_cycles run_cb Hcb cycles w) as [Hmax Hbuf].
  fold w' in Hmax, Hbuf. specialize (Hbuf id).
  split; [exact Hmax|]. split.
  - intros b Eb. rewrite Eb in Hbuf.
    destruct (dict_get id (_buffers (rcv w'))) as [b'|]; [|contradiction].
    exists b'. split; [reflexivity | exact Hbuf].
  - intros En b' Eb'. rewrite En, Eb' in Hbuf. exact Hbuf.
Qed.

Lemma parsed_device_id_range (packet : list byte) h :
  _parse_header packet = Ok (Some h) -> 0 <= hdr_device_id h <= 255.
Proof.
  intros E.
  destruct (Z.lt_ge_cases (len packet) 10) as [Hs | Hl].
  { rewrite parse_header_short in E by exact Hs. discriminate. }
  rewrite parse_header_long in E by exact Hl. cbv zeta in E.
  destruct (negb _) in E; [discriminate|].
  pose proof (byte_val_range (nth 3 packet x00)) as B3.
  destruct (_ && _) in E; [discriminate|].
  apply Ok_Some_inj in E. subst h. cbn [hdr_device_id]. unfold byte_at. lia.
Qed.

(** The ten bytes of a reply header whose fields fit their widths. *)
Lemma reply_header_bytes (device_id n : Z) :
  0 <= device_id <= 255 -> 0 <= n <= 65535 ->
  build_header 0x45 device_id 0 n
  = [x45; x00; x00; to_byte device_id; x00; x00; x00; x00;
     to_byte (n / 256); to_byte (n mod 256)].
Proof.
  intros Hd Hn. unfold build_header.
  rewrite !land_255_mod. rewrite !Z.shiftr_0_l.
  rewrite (Z.shiftr_div_pow2 n 8) by lia. change (2 ^ 8) with 256.
  rewrite (Z.mod_small device_id) by lia.
  rewrite (Z.mod_small (n / 256)) by (Z.to_euclidean_division_equations; lia).
  reflexivity.
Qed.

(** C6 (amended): a QUERY packet (REPLY clear) makes the receiver hand
    exactly one datagram to [sendto], for the packet's source address, and
    leaves the receiver as it was.  The datagram starts with a 10-byte
    header that decodes to flags [0x45] (version 1, REPLY, PUSH), the
    packet's [device_id] and offset 0.  When the [device_id] is 251 and a
    status payload of at most 65535 bytes is configured, the header's
    length field is the payload's length and the payload follows the
    header; in every other case (no payload configured, or another id) the
    length field is 0 and nothing follows the header. *)
Theorem query_reply_fields (packet : list byte) (addr : address) h w :
  _parse_header packet = Ok (Some h) ->
  has_flag (hdr_flags1 h) DDP_FLAGS1_REPLY = false ->
  has_flag (hdr_flags1 h) DDP_FLAGS1_QUERY = true ->
  (hdr_device_id h = DDP_ID_STATUS ->
   forall payload, _status_json (rcv w) = Some payload -> len payload <= 65535) ->
  exists datagram reply,
    snd (_process_packet run_cb packet addr w)
    = mkWorld (rcv w) (trace w ++ [ESend datagram addr])
    /\ _parse_header datagram = Ok (Some reply)
    /\ hdr_flags1 reply
       = Z.lor (Z.lor DDP_FLAGS1_VER1 DDP_FLAGS1_REPLY) DDP_FLAGS1_PUSH
    /\ hdr_device_id reply = hdr_device_id h
    /\ hdr_offset reply = 0
    /\ hdr_header_len reply = 10
    /\ firstn 10%nat datagram
       = [x45; x00; x00; to_byte (hdr_device_id h); x00; x00; x00; x00;
          to_byte (hdr_length reply / 256); to_byte (hdr_length reply mod 256)]
    /\ match _status_json (rcv w) with
       | Some payload =>
           if hdr_device_id h =? DDP_ID_STATUS
           then hdr_length reply = len payload /\ skipn 10%nat datagram = payload
           else hdr_length reply = 0 /\ skipn 10%nat datagram = []
       | None => hdr_length reply = 0 /\ skipn 10%nat datagram = []
       end.
Proof.
  intros E Hr Hq Hbound.
  pose proof (parsed_device_id_range _ _ E) as Hd.
  rewrite (process_packet_parsed _ _ _ h) by exact E.
  rewrite Hr, Hq. rewrite handle_query_spec. cbn [snd].
  assert (Hempty :
    exists reply,
      _parse_header (build_header 0x45 (hdr_device_id h) 0 0) = Ok (Some reply)
      /\ hdr_flags1 reply
         = Z.lor (Z.lor DDP_FLAGS1_VER1 DDP_FLAGS1_REPLY) DDP_FLAGS1_PUSH
      /\ hdr_device_id reply = hdr_device_id h
      /\ hdr_offset reply = 0
      /\ hdr_header_len reply = 10
      /\ firstn 10%nat (build_header 0x45 (hdr_device_id h) 0 0)
         = [x45; x00; x00; to_byte (hdr_device_id h); x00; x00; x00; x00;
            to_byte (hdr_length reply / 256); to_byte (hdr_length reply mod 256)]
      /\ hdr_length reply = 0
      /\ skipn 10%nat (build_header 0x45 (hdr_device_id h) 0 0) = []).
  { destruct (reply_datagram_decodes (hdr_device_id h) [] Hd) as [Hdec _].
    { change (len (@nil byte)) with 0. lia. }
    change (len (@nil byte)) with 0 in Hdec. rewrite app_nil_r in Hdec.
    exists (mkHeader 0x45 (hdr_device_id h) 0 0 10 None).
    split; [exact Hdec|].
    cbn [hdr_flags1 hdr_device_id hdr_offset hdr_header_len hdr_length].
    repeat split.
    rewrite reply_header_bytes by lia. reflexivity. }
  destruct (_status_json (rcv w)) as [payload|] eqn:Est.
  - destruct (Z.eqb_spec (hdr_device_id h) DDP_ID_STATUS) as [Hid | Hid].
    + assert (Hlen : len payload <= 65535) by (apply Hbound; [exact Hid | reflexivity]).
      pose proof (len_nonneg payload) as Hnn.
      destruct (reply_datagram_decodes (hdr_device_id h) payload Hd Hlen)
        as [Hdec _].
      exists (build_header 0x45 (hdr_device_id h) 0 (len payload) ++ payload),
             (mkHeader 0x45 (hdr_device_id h) 0 (len payload) 10 None).
      split; [reflexivity|]. split; [exact Hdec|].
      cbn [hdr_flags1 hdr_device_id hdr_offset hdr_header_len hdr_length].
      rewrite reply_header_bytes by lia.
      repeat split.
    + destruct Hempty as [reply [H1 [H2 [H3 [H4 [H5 [H6 [H7 H8]]]]]]]].
      exists (build_header 0x45 (hdr_device_id h) 0 0), reply.
      repeat split; assumption.
  - destruct Hempty as [reply [H1 [H2 [H3 [H4 [H5 [H6 [H7 H8]]]]]]]].
    exists (build_header 0x45 (hdr_device_id h) 0 0), reply.
    repeat split; assumption.
Qed.

(** C7: a valid packet with the QUERY flag set and REPLY clear is answered
    by the query responder and nothing else happens: the receiver (its
    buffers and callbacks included) is left as it was, and the only event
    is the reply datagram, so no callback is invoked, whatever the other
    flags (PUSH included) are. *)
Theorem query_leaves_buffers_alone (packet : list byte) (addr : address) h w :
  _parse_header packet = Ok (Some h) ->
  has_flag (hdr_flags1 h) DDP_FLAGS1_REPLY = false ->
  has_flag (hdr_flags1 h) DDP_FLAGS1_QUERY = true ->
  exists datagram,
    _process_packet run_cb packet addr w
    = (Ok tt, mkWorld (rcv w) (trace w ++ [ESend datagram addr])).
Proof.
  intros E Hr Hq.
  rewrite (process_packet_parsed _ _ _ h) by exact E.
  rewrite Hr, Hq. rewrite handle_query_spec. eexists. reflexivity.
Qed.

(** C10: a PUSH data packet for a device id (not the broadcast id) that
    has a buffer and a registered callback invokes the callback even when
    its write is dropped for ending beyond both the buffer and
    [max_buffer_size]; the callback then receives the buffer exactly as it
    was before the packet. *)
Theorem push_fires_after_dropped_write
    (packet : list byte) (addr : address) h (buf : list byte) (c : cb) w :
  _parse_header packet = Ok (Some h) ->
  has_flag (hdr_flags1 h) DDP_FLAGS1_REPLY = false ->
  has_flag (hdr_flags1 h) DDP_FLAGS1_QUERY = false ->
  has_flag (hdr_flags1 h) DDP_FLAGS1_STORAGE = false ->
  has_flag (hdr_flags1 h) DDP_FLAGS1_PUSH = true ->
  hdr_device_id h <> DDP_ID_ALL ->
  dict_get (hdr_device_id h) (_buffers (rcv w)) = Some buf ->
  dict_get (hdr_device_id h) (_callbacks (rcv w)) = Some c ->
  let data := slice packet (hdr_header_len h) (hdr_header_len h + hdr_length h) in
  hdr_offset h + len data > len buf ->
  hdr_offset h + len data > _max_buffer_size (rcv w) ->
  _process_packet run_cb packet addr w
  = (Ok tt,
     mkWorld (run_cb c (hdr_device_id h) buf (hdr_timecode h) (rcv w))
             (trace w ++ [EWrite (hdr_device_id h) (hdr_offset h) data;
                          ECall c (hdr_device_id h) buf (hdr_timecode h)])).
Proof.
  intros E Hr Hq Hs Hp Hall Eb Ec data Hlen Hmax.
  rewrite (process_packet_parsed _ _ _ h) by exact E.
  rewrite Hr, Hq, Hs, Hp. cbv zeta.
  destruct (Z.eqb_spec (hdr_device_id h) DDP_ID_ALL); [contradiction|].
  destruct (parsed_fields_nonneg _ _ E) as [Hoff _].
  rewrite (write_then_push _ _ _ buf _ c) by assumption. cbv zeta.
  fold data.
  assert (Hw : written (_max_buffer_size (rcv w)) buf (hdr_offset h) data = buf).
  { unfold written.
    destruct (Z.gtb_spec (hdr_offset h + len data) (len buf)); [|lia].
    destruct (Z.gtb_spec (hdr_offset h + len data) (_max_buffer_size (rcv w)));
      [reflexivity | lia]. }
  rewrite Hw. rewrite set_buffer_same by exact Eb. reflexivity.
Qed.


(** C8 (amended): [poll] handles the queued datagrams in order, without
    waiting, up to the first point where the transport reports no data
    (the queue is empty, or [OSError(EAGAIN)]) or a read returns zero
    bytes; it hands each datagram before that point to [_process_packet]
    and returns their number, and what lies behind a zero-length datagram
    stays queued.  With callbacks that keep every registered callback's
    buffer in place, it returns that count and never raises. *)
Theorem poll_stops_at_first_no_data
    (pre rest : list (arrival address)) w :
  forallb is_packet pre = true ->
  (rest = [] \/ exists a rest', rest = a :: rest' /\ stops_poll a = true) ->
  poll run_cb (pre ++ rest) w
  = match for_each pre (process_arrival run_cb) w with
    | (Ok _, w') => (Ok (len pre, tl rest), w')
    | (Raise e, w') => (Raise e, w')
    end
  /\ (callbacks_keep_buffers run_cb -> registered_have_buffers (rcv w) ->
      fst (poll run_cb (pre ++ rest) w) = Ok (len pre, tl rest)).
Proof.
  intros Hpre Hrest.
  assert (Hpoll := poll_loop_prefix run_cb pre rest 0 w Hpre Hrest).
  rewrite Z.add_0_l in Hpoll. fold (poll run_cb (pre ++ rest)) in Hpoll.
  split; [exact Hpoll|].
  intros Hk Hw. rewrite Hpoll.
  destruct (normal_for_each pre (process_arrival run_cb)
              (normal_process_arrival run_cb Hk) w Hw) as [[] [w' [Ew _]]].
  rewrite Ew. reflexivity.
Qed.

End ReceiverClaims.

(** ** Concrete runs *)


Lemma demo_run_keeps_buffers : callbacks_keep_buffers demo_run.
Proof.
  intros c device_id buf timecode r Hr.
  destruct c as [tag | new_id size]; cbn [demo_run]; [exact Hr|].
  destruct (size <? 0); [exact Hr|].
  apply registered_set_buffer. exact Hr.
Qed.

Lemma registered_construct {cb address : Type} (max_buffer_size : Z)
    (status_json : option (list byte)) :
  registered_have_buffers (rcv (@construct cb address max_buffer_size status_json)).
Proof. intros k Hk. cbn in Hk. congruence. Qed.

Lemma registered_configure_output {cb address : Type} (device_id size : Z)
    (callback : option cb) (w : world cb address) :
  registered_have_buffers (rcv w) ->
  registered_have_buffers (rcv (snd (configure_output device_id size callback w))).
Proof.
  intros Hw.
  destruct (Z.lt_ge_cases size 0) as [Hneg | Hpos].
  - unfold configure_output, bind, lift, bytearray.
    destruct (Z.ltb_spec size 0); [exact Hw | lia].
  - rewrite configure_output_spec by exact Hpos. cbn [snd rcv].
    destruct callback as [c|]; [|apply registered_set_buffer; exact Hw].
    intros k Hk. cbn [set_callback set_buffer _buffers _callbacks] in *.
    destruct (Z.eq_dec device_id k) as [<- | Hne].
    + rewrite dict_get_set_eq. discriminate.
    + rewrite dict_get_set_ne by exact Hne.
      rewrite dict_get_set_ne in Hk by exact Hne. apply Hw. exact Hk.
Qed.

Lemma read_only_grows : callbacks_grow read_only.
Proof. intros c device_id buf timecode r. apply grows_refl. Qed.

(** The examples of the specification. *)

Example write_twice_fills_buffer :
  let w0 : world demo_cb nat := construct 4096 None in
  let w1 := snd (configure_output 5 6 None w0) in
  let w2 := snd (_write_to_buffer 5 0 [x01; x02; x03] w1) in
  let w3 := snd (_write_to_buffer 5 3 [x04; x05; x06] w2) in
  dict_get 5 (_buffers (rcv w3)) = Some [x01; x02; x03; x04; x05; x06].
Proof. reflexivity. Qed.

Example oversized_write_creates_nothing :
  let w0 : world demo_cb nat := construct 10 None in
  _write_to_buffer 7 8 [x01; x02; x03] w0 = (Ok tt, w0)
  /\ dict_get 7 (_buffers (rcv w0)) = None.
Proof. split; reflexivity. Qed.

Example status_query_example :
  let payload := [x01; x02; x03; x04; x05; x06; x07] in
  let w0 : world demo_cb nat := construct 4096 (Some payload) in
  _process_packet demo_run (build_header 0x42 251 0 0) 9%nat w0
  = (Ok tt,
     mkWorld (rcv w0)
       [ESend ([x45; x00; x00; xfb; x00; x00; x00; x00; x00; x07] ++ payload)
              9%nat]).
Proof. reflexivity. Qed.

Example config_query_example :
  let w0 : world demo_cb nat := construct 4096 (Some [x01; x02]) in
  _process_packet demo_run (build_header 0x42 250 0 0) 9%nat w0
  = (Ok tt,
     mkWorld (rcv w0)
       [ESend [x45; x00; x00; xfa; x00; x00; x00; x00; x00; x00] 9%nat]).
Proof. reflexivity. Qed.

(** The broadcast of the examples: destination 3, registered by the callback
    of destination 1 during the dispatch, is neither written nor called. *)
Example broadcast_snapshot :
  _process_packet demo_run demo_broadcast 9%nat demo_world
  = (Ok tt,
     mkWorld
       (mkReceiver 16
          [(1, [x01; x02; x03]); (2, [x01; x02; x03]); (3, [x00; x00; x00; x00])]
          [(1, Register 3 4); (2, Observe 2)]
          None)
       [EWrite 1 0 [x01; x02; x03];
        ECall (Register 3 4) 1 [x01; x02; x03] None;
        EWrite 2 0 [x01; x02; x03];
        ECall (Observe 2) 2 [x01; x02; x03] None]).
Proof. reflexivity. Qed.

(** ** Instances of the theorems, and where the stated claims fail *)

Lemma buffer_lengths_under_polling_witness :
  let w : world nat nat := snd (configure_output 1 3 None (construct 4 None)) in
  let cycles := [[Datagram (build_header 0x41 1 1 3 ++ [x01; x02; x03]) 9%nat];
                 [Datagram (build_header 0x41 1 2 3 ++ [x01; x02; x03]) 9%nat]] in
  let w' := snd (poll_cycles read_only cycles w) in
  _max_buffer_size (rcv w') = 4
  /\ (forall b, dict_get 1 (_buffers (rcv w)) = Some b ->
        exists b', dict_get 1 (_buffers (rcv w')) = Some b'
                   /\ len b <= len b' <= Z.max (len b) 4)
  /\ (dict_get 1 (_buffers (rcv w)) = None ->
      forall b', dict_get 1 (_buffers (rcv w')) = Some b' -> len b' <= 4).
Proof.
  intros w cycles.
  exact (buffer_lengths_under_polling read_only cycles w 1 read_only_grows).
Defined.

(** C1 as stated fails: [configure_output] gives a buffer longer than
    [max_buffer_size], and then replaces it by a shorter one. *)
Lemma configure_output_ignores_length_invariant :
  let w0 : world demo_cb nat := construct 4 None in
  let w1 := snd (configure_output 1 8 None w0) in
  let w2 := snd (configure_output 1 2 None w1) in
  exists b1 b2,
    dict_get 1 (_buffers (rcv w1)) = Some b1
    /\ dict_get 1 (_buffers (rcv w2)) = Some b2
    /\ len b1 > _max_buffer_size (rcv w1)
    /\ len b2 < len b1.
Proof.
  exists (zeros 8), (zeros 2). repeat split; reflexivity.
Qed.

Ltac zcmp := vm_compute; first [reflexivity | discriminate].

Lemma write_to_buffer_cases_witness :
  let w : world demo_cb nat := snd (configure_output 5 6 None (construct 10 None)) in
  _write_to_buffer 5 3 [x04; x05; x06] w
  = (Ok tt, mkWorld (set_buffer 5 [x00; x00; x00; x04; x05; x06] (rcv w)) (trace w))
  /\ _write_to_buffer 5 8 [x01; x02; x03] w = (Ok tt, w)
  /\ _write_to_buffer 7 8 [x01; x02; x03] w = (Ok tt, w)
  /\ _write_to_buffer 7 7 [x01; x02; x03] w
     = (Ok tt,
        mkWorld
          (set_buffer 7 [x00; x00; x00; x00; x00; x00; x00; x01; x02; x03] (rcv w))
          (trace w)).
Proof.
  intros w.
  split; [|split; [|split]].
  - destruct (write_to_buffer_cases 5 3 [x04; x05; x06] w) as [_ [_ [_ H]]];
      [zcmp|].
    destruct (H (zeros 6)) as [E _]; [reflexivity | left; zcmp | exact E].
  - destruct (write_to_buffer_cases 5 8 [x01; x02; x03] w) as [_ [_ [H _]]];
      [zcmp|].
    apply (H (zeros 6)); [reflexivity | zcmp | zcmp].
  - destruct (write_to_buffer_cases 7 8 [x01; x02; x03] w) as [H _]; [zcmp|].
    apply H; [reflexivity | zcmp].
  - destruct (write_to_buffer_cases 7 7 [x01; x02; x03] w) as [_ [H _]]; [zcmp|].
    destruct H as [E _]; [reflexivity | zcmp | exact E].
Defined.

(** C4 as stated fails: a buffer configured longer than [max_buffer_size]
    takes a write that ends beyond [max_buffer_size] but inside the buffer. *)
Lemma write_beyond_max_inside_buffer :
  ~ (forall (w : world demo_cb nat) (device_id offset : Z) (data buf : list byte),
       0 <= offset ->
       dict_get device_id (_buffers (rcv w)) = Some buf ->
       offset + len data > _max_buffer_size (rcv w) ->
       dict_get device_id
         (_buffers (rcv (snd (_write_to_buffer device_id offset data w))))
       = Some buf).
Proof.
  intros H.
  specialize (H (snd (configure_output 5 20 None (construct 10 None)))
                5 12 [x01; x02; x03] (zeros 20)).
  assert (E := H ltac:(zcmp) eq_refl ltac:(zcmp)).
  vm_compute in E. discriminate E.
Qed.

Lemma configure_output_registers_witness :
  let w : world demo_cb nat :=
    snd (configure_output 1 3 (Some (Observe 1)) (construct 16 None)) in
  (exists w',
     configure_output 1 5 (Some (Observe 7)) w = (Ok tt, w')
     /\ dict_get 1 (_buffers (rcv w')) = Some [x00; x00; x00; x00; x00]
     /\ dict_get 1 (_callbacks (rcv w')) = Some (Observe 7))
  /\ (exists w',
     configure_output 1 5 None w = (Ok tt, w')
     /\ dict_get 1 (_buffers (rcv w')) = Some [x00; x00; x00; x00; x00]
     /\ dict_get 1 (_callbacks (rcv w')) = Some (Observe 1)).
Proof.
  intros w. split.
  - destruct (configure_output_registers 1 5 (Some (Observe 7)) (Observe 1) w)
      as [w' [E [Hb [_ [_ Hc]]]]]; [reflexivity | lia |].
    exists w'. split; [exact E | split; [exact Hb | exact Hc]].
  - destruct (configure_output_registers 1 5 None (Observe 1) w)
      as [w' [E [Hb [_ [_ Hc]]]]]; [reflexivity | lia |].
    exists w'. split; [exact E | split; [exact Hb | exact Hc]].
Defined.

(** C9 as stated fails: called without a callback, [configure_output] leaves
    the previously registered callback in place. *)
Lemma configure_output_keeps_prior_callback :
  ~ (forall (w : world demo_cb nat) (device_id size : Z)
            (callback : option demo_cb) (prior : demo_cb),
       dict_get device_id (_callbacks (rcv w)) = Some prior ->
       0 <= size ->
       dict_get device_id
         (_callbacks (rcv (snd (configure_output device_id size callback w))))
       = callback).
Proof.
  intros H.
  specialize (H (snd (configure_output 1 3 (Some (Observe 1)) (construct 16 None)))
                1 5 None (Observe 1) eq_refl ltac:(lia)).
  vm_compute in H. discriminate H.
Qed.


Lemma query_reply_fields_witness :
  let w : world demo_cb nat := construct 16 (Some [x7b; x7d]) in
  exists datagram reply,
    snd (_process_packet demo_run demo_query 9%nat w)
    = mkWorld (rcv w) (trace w ++ [ESend datagram 9%nat])
    /\ _parse_header datagram = Ok (Some reply)
    /\ hdr_flags1 reply = 0x45
    /\ hdr_device_id reply = 251
    /\ hdr_offset reply = 0
    /\ hdr_header_len reply = 10
    /\ firstn 10%nat datagram
       = [x45; x00; x00; to_byte 251; x00; x00; x00; x00;
          to_byte (hdr_length reply / 256); to_byte (hdr_length reply mod 256)]
    /\ hdr_length reply = 2 /\ skipn 10%nat datagram = [x7b; x7d].
Proof.
  intros w.
  apply (query_reply_fields demo_run demo_query 9%nat
           (mkHeader 0x43 251 0 0 10 None) w eq_refl eq_refl eq_refl).
  intros _ payload E. injection E as <-. zcmp.
Defined.

(** What the header of a status reply decodes to, whatever the payload's
    length: the length field holds its low 16 bits. *)
Lemma status_reply_length_wraps (payload : list byte) (reply : header) :
  _parse_header (build_header 0x45 251 0 (len payload) ++ payload)
  = Ok (Some reply) ->
  hdr_length reply = len payload mod 2 ^ 16.
Proof.
  intros E. pose proof (len_nonneg payload) as Hnn.
  rewrite parse_header_long in E
    by (rewrite len_app, build_header_len; lia).
  unfold byte_at, build_header in E. cbn [app nth] in E. cbv zeta in E.
  rewrite !stored_byte in E.
  change (0x45 mod 256) with 0x45 in E.
  change (version_of 0x45 =? 1) with true in E.
  change (has_flag 0x45 DDP_FLAGS1_TIME) with false in E.
  cbn [negb andb] in E.
  apply Ok_Some_inj in E. subst reply. cbn [hdr_length].
  rewrite be16_value by (apply Z.mod_pos_bound; lia).
  rewrite Z.shiftr_div_pow2 by lia.
  change (2 ^ 8) with 256. change (2 ^ 16) with 65536.
  Z.to_euclidean_division_equations. lia.
Qed.

Lemma status_query_datagram (payload datagram : list byte) :
  let w : world demo_cb nat := construct 16 (Some payload) in
  snd (_process_packet demo_run demo_query 9%nat w)
  = mkWorld (rcv w) (trace w ++ [ESend datagram 9%nat]) ->
  datagram = build_header 0x45 251 0 (len payload) ++ payload.
Proof.
  intros w E. subst w.
  rewrite (process_packet_parsed demo_run demo_query 9%nat
             (mkHeader 0x43 251 0 0 10 None)) in E by reflexivity.
  cbn [hdr_flags1 hdr_device_id] in E.
  change (has_flag 0x43 DDP_FLAGS1_REPLY) with false in E.
  change (has_flag 0x43 DDP_FLAGS1_QUERY) with true in E.
  cbv iota in E. rewrite handle_query_spec in E.
  cbn [snd rcv trace construct _status_json app] in E.
  change (251 =? DDP_ID_STATUS) with true in E. cbv iota in E.
  injection E as E. symmetry. exact E.
Qed.

(** C6 as stated fails: with a status payload of 65536 bytes the length
    field of the reply header is 0, not the payload's length. *)
Lemma query_reply_length_field_wraps :
  ~ (forall (w : world demo_cb nat) (packet : list byte) (addr : nat)
            (h : header) (payload : list byte),
       _parse_header packet = Ok (Some h) ->
       has_flag (hdr_flags1 h) DDP_FLAGS1_REPLY = false ->
       has_flag (hdr_flags1 h) DDP_FLAGS1_QUERY = true ->
       hdr_device_id h = DDP_ID_STATUS ->
       _status_json (rcv w) = Some payload ->
       exists datagram reply,
         snd (_process_packet demo_run packet addr w)
         = mkWorld (rcv w) (trace w ++ [ESend datagram addr])
         /\ _parse_header datagram = Ok (Some reply)
         /\ hdr_length reply = len payload).
Proof.
  intros H.
  destruct (H (construct 16 (Some (zeros 65536))) demo_query 9%nat
              (mkHeader 0x43 251 0 0 10 None) (zeros 65536)
              eq_refl eq_refl eq_refl eq_refl eq_refl)
    as [datagram [reply [Hw [Hp Hl]]]].
  apply status_query_datagram in Hw. subst datagram.
  apply status_reply_length_wraps in Hp.
  rewrite Hp, len_zeros in Hl. vm_compute in Hl. discriminate Hl.
Qed.

Lemma query_leaves_buffers_alone_witness :
  exists datagram,
    _process_packet demo_run demo_query 9%nat demo_world
    = (Ok tt, mkWorld (rcv demo_world) (trace demo_world ++ [ESend datagram 9%nat])).
Proof.
  exact (query_leaves_buffers_alone demo_run demo_query 9%nat
           (mkHeader 0x43 251 0 0 10 None) demo_world eq_refl eq_refl eq_refl).
Defined.

Lemma push_fires_after_dropped_write_witness :
  _process_packet demo_run demo_overflow 9%nat demo_world
  = (Ok tt,
     mkWorld (demo_run (Register 3 4) 1 [x00; x00; x00] None (rcv demo_world))
       [EWrite 1 14 [x01; x02; x03];
        ECall (Register 3 4) 1 [x00; x00; x00] None]).
Proof.
  apply (push_fires_after_dropped_write demo_run demo_overflow 9%nat
           (mkHeader 0x41 1 14 3 10 None) [x00; x00; x00] (Register 3 4) demo_world);
    first [reflexivity | discriminate].
Defined.

Lemma poll_stops_at_first_no_data_witness :
  let first := Datagram (build_header 0x41 1 0 3 ++ [x01; x02; x03]) 9%nat in
  let behind := Datagram (build_header 0x41 2 0 3 ++ [x04; x05; x06]) 9%nat in
  fst (poll demo_run ([first] ++ [Datagram [] 9%nat; behind]) demo_world)
  = Ok (1, [behind]).
Proof.
  intros first behind.
  destruct (poll_stops_at_first_no_data demo_run [first]
              [Datagram [] 9%nat; behind] demo_world) as [_ H].
  - reflexivity.
  - right. exists (Datagram [] 9%nat), [behind]. split; reflexivity.
  - apply H.
    + exact demo_run_keeps_buffers.
    + unfold demo_world. do 2 apply registered_configure_output.
      apply registered_construct.
Defined.

(** C8 as stated fails: a zero-length datagram ends the call, and the
    datagram queued behind it is not processed in that call. *)
Lemma poll_stops_at_zero_length_datagram :
  ~ (forall (queue : list (arrival nat)) (w : world demo_cb nat),
       (forall a, In a queue -> exists data addr, a = Datagram data addr) ->
       exists w', poll demo_run queue w = (Ok (len queue, []), w')).
Proof.
  intros H.
  destruct (H [Datagram [] 9%nat; Datagram demo_broadcast 9%nat] demo_world)
    as [w' E].
  - intros a [<- | [<- | []]]; eexists _, _; reflexivity.
  - vm_compute in E. discriminate E.
Qed.

(** ** Further properties of the header codec *)

(** X1: every field of a decoded header lies within its width on the wire:
    the flags byte and the device id in [0, 255], the version field equal
    to 1, the offset below [2^32], the length below [2^16], a timecode (if
    any) below [2^32], and the header length within the packet. *)
Theorem parse_header_field_ranges (packet : list byte) (h : header) :
  _parse_header packet = Ok (Some h) ->
  0 <= hdr_flags1 h <= 255
  /\ version_of (hdr_flags1 h) = 1
  /\ 0 <= hdr_device_id h <= 255
  /\ 0 <= hdr_offset h < 2 ^ 32
  /\ 0 <= hdr_length h < 2 ^ 16
  /\ match hdr_timecode h with
     | Some t => 0 <= t < 2 ^ 32 /\ hdr_header_len h = 14
     | None => hdr_header_len h = 10
     end
  /\ hdr_header_len h <= len packet.
Proof.
  intros E.
  destruct (Z.lt_ge_cases (len packet) 10) as [Hs | Hl].
  { rewrite parse_header_short in E by exact Hs. discriminate. }
  rewrite parse_header_long in E by exact Hl. cbv zeta in E.
  destruct (Z.eqb_spec (version_of (byte_at packet 0)) 1) as [Hv | Hv];
    cbn [negb] in E; [|discriminate].
  byte_bounds packet.
  pose proof (byte_val_range (nth 0 packet x00)) as B0.
  pose proof (byte_val_range (nth 3 packet x00)) as B3.
  pose proof (byte_val_range (nth 10 packet x00)) as B10.
  pose proof (byte_val_range (nth 11 packet x00)) as B11.
  pose proof (byte_val_range (nth 12 packet x00)) as B12.
  pose proof (byte_val_range (nth 13 packet x00)) as B13.
  change (2 ^ 32) with 4294967296. change (2 ^ 16) with 65536.
  destruct (has_flag _ _) eqn:Ht in E; cbn [andb] in E.
  - destruct (Z.ltb_spec (len packet) 14) as [H14 | H14]; [discriminate|].
    apply Ok_Some_inj in E. subst h.
    cbn [hdr_flags1 hdr_device_id hdr_offset hdr_length hdr_header_len hdr_timecode].
    rewrite timecode_value by exact H14.
    split; [unfold byte_at; lia|]. split; [exact Hv|].
    unfold byte_at. rewrite be32_value, be16_value by assumption.
    change (2 ^ 24) with 16777216. change (2 ^ 16) with 65536.
    change (2 ^ 8) with 256. lia.
  - apply Ok_Some_inj in E. subst h.
    cbn [hdr_flags1 hdr_device_id hdr_offset hdr_length hdr_header_len hdr_timecode].
    split; [unfold byte_at; lia|]. split; [exact Hv|].
    unfold byte_at. rewrite be32_value, be16_value by assumption.
    change (2 ^ 24) with 16777216. change (2 ^ 16) with 65536.
    change (2 ^ 8) with 256. lia.
Qed.

Lemma parse_header_field_ranges_witness :
  0 <= 0x51 <= 255 /\ version_of 0x51 = 1 /\ 0 <= 7 <= 255
  /\ 0 <= 513 < 2 ^ 32 /\ 0 <= 3 < 2 ^ 16
  /\ (0 <= 258 < 2 ^ 32 /\ 14 = 14)
  /\ 14 <= len (build_header 0x51 7 513 3 ++ [x00; x00; x01; x02; x09]).
Proof.
  exact (parse_header_field_ranges
           (build_header 0x51 7 513 3 ++ [x00; x00; x01; x02; x09])
           (mkHeader 0x51 7 513 3 14 (Some 258)) eq_refl).
Defined.

Lemma shiftr_land_mod (x k n : Z) :
  0 <= k -> k + 8 <= n ->
  Z.land (Z.shiftr (x mod 2 ^ n) k) 0xFF = Z.land (Z.shiftr x k) 0xFF.
Proof.
  intros Hk Hn. apply Z.bits_inj'. intros i Hi.
  rewrite !Z.land_spec, !Z.shiftr_spec by lia.
  change 0xFF with (Z.ones 8). rewrite Z.testbit_ones_nonneg by lia.
  destruct (Z.ltb_spec i 8) as [Hlt | Hge].
  - rewrite Z.mod_pow2_bits_low by lia. reflexivity.
  - rewrite !andb_false_r. reflexivity.
Qed.

(** X2: [build_header] never rejects an argument: it keeps the low 8 bits of
    [flags1] and [device_id], the low 32 bits of [offset] and the low 16
    bits of [length], so out-of-range (also negative) arguments wrap around
    silently. *)
Theorem build_header_wraps (flags1 device_id offset length : Z) :
  build_header flags1 device_id offset length
  = build_header (flags1 mod 2 ^ 8) (device_id mod 2 ^ 8)
                 (offset mod 2 ^ 32) (length mod 2 ^ 16).
Proof.
  unfold build_header.
  rewrite !(shiftr_land_mod offset) by lia.
  rewrite !(shiftr_land_mod length) by lia.
  pose proof (shiftr_land_mod flags1 0 8) as Hf.
  pose proof (shiftr_land_mod device_id 0 8) as Hd.
  pose proof (shiftr_land_mod offset 0 32) as Ho.
  pose proof (shiftr_land_mod length 0 16) as Hl.
  rewrite !Z.shiftr_0_r in Hf, Hd, Ho, Hl.
  rewrite Hf, Hd, Ho, Hl by lia. reflexivity.
Qed.

(** X3: [_parse_header] does not look at the two reserved bytes: packets that
    differ only in bytes 1 and 2 decode alike. *)
Theorem parse_header_ignores_reserved
    (b0 b1 b2 b1' b2' : byte) (rest : list byte) :
  _parse_header (b0 :: b1 :: b2 :: rest) = _parse_header (b0 :: b1' :: b2' :: rest).
Proof.
  assert (Hlen : len (b0 :: b1 :: b2 :: rest) = len (b0 :: b1' :: b2' :: rest))
    by reflexivity.
  destruct (Z.lt_ge_cases (len (b0 :: b1 :: b2 :: rest)) 10) as [Hs | Hl].
  - rewrite !parse_header_short by (rewrite <- ?Hlen; exact Hs). reflexivity.
  - rewrite !parse_header_long by (rewrite <- ?Hlen; exact Hl).
    cbv zeta. rewrite <- Hlen. unfold byte_at. cbn [nth].
    destruct (negb _); [reflexivity|].
    destruct (has_flag _ _) eqn:Ht; cbn [andb]; [|reflexivity].
    destruct (Z.ltb_spec (len (b0 :: b1 :: b2 :: rest)) 14) as [H14 | H14];
      [reflexivity|].
    rewrite !slice_10_14 by (rewrite <- ?Hlen; exact H14).
    cbn [nth]. reflexivity.
Qed.

(** ** Further properties of the buffer registry *)

Lemma patched_head_length (buf : list byte) (offset : Z) :
  0 <= offset ->
  length (firstn (Z.to_nat offset) (buf ++ zeros (offset - len buf)))
  = Z.to_nat offset.
Proof.
  intros H. rewrite length_firstn, length_app, length_zeros. unfold len. lia.
Qed.

Lemma to_nat_end (offset : Z) (data : list byte) :
  0 <= offset ->
  Z.to_nat (offset + len data) = (Z.to_nat offset + length data)%nat.
Proof. intros H. unfold len. lia. Qed.

(** Writing [d1] at [offset] and then [d2] right behind it gives the buffer
    that writing [d1 ++ d2] at [offset] gives. *)
Lemma patched_adjacent (buf : list byte) (offset : Z) (d1 d2 : list byte) :
  0 <= offset ->
  patched (patched buf offset d1) (offset + len d1) d2
  = patched buf offset (d1 ++ d2).
Proof.
  intros H. pose proof (len_nonneg d1) as H1. pose proof (len_nonneg d2) as H2.
  assert (Hz : zeros (offset + len d1 - len (patched buf offset d1)) = []).
  { apply zeros_nonpos. rewrite len_patched by exact H. lia. }
  unfold patched at 1. rewrite Hz, app_nil_r.
  unfold patched.
  pose proof (patched_head_length buf offset H) as HA.
  set (A := firstn (Z.to_nat offset) (buf ++ zeros (offset - len buf))) in *.
  rewrite len_app, Z.add_assoc.
  rewrite !to_nat_end by lia.
  rewrite (app_assoc A d1).
  assert (HAd : length (A ++ d1) = (Z.to_nat offset + length d1)%nat)
    by (rewrite length_app, HA; reflexivity).
  rewrite firstn_app, HAd, Nat.sub_diag. cbn [firstn]. rewrite app_nil_r.
  rewrite firstn_all2 by lia.
  rewrite skipn_app, HAd.
  rewrite (skipn_all2 (A ++ d1)) by lia. cbn [app].
  replace (Z.to_nat offset + length d1 + length d2 - (Z.to_nat offset + length d1))%nat
    with (length d2) by lia.
  rewrite skipn_skipn.
  replace (length d2 + (Z.to_nat offset + length d1))%nat
    with (Z.to_nat offset + length d1 + length d2)%nat by lia.
  rewrite <- !app_assoc. reflexivity.
Qed.


(** The bytes of [patched] outside [[offset, offset + len data)]. *)
Lemma patched_outside (buf : list byte) (offset : Z) (data : list byte) (i : nat) :
  0 <= offset ->
  (i < Z.to_nat offset \/ Z.to_nat (offset + len data) <= i)%nat ->
  nth i (patched buf offset data) x00 = nth i buf x00.
Proof.
  intros H Hi. unfold patched.
  pose proof (patched_head_length buf offset H) as HA.
  rewrite to_nat_end in * by exact H.
  destruct Hi as [Hlow | Hhigh].
  - rewrite app_nth1 by lia. rewrite nth_firstn.
    destruct (Nat.ltb_spec i (Z.to_nat offset)); [|lia].
    destruct (Nat.lt_ge_cases i (length buf)) as [Hin | Hout].
    + apply app_nth1. exact Hin.
    + rewrite app_nth2 by exact Hout.
      rewrite (nth_overflow buf) by exact Hout.
      unfold zeros. apply nth_repeat.
  - rewrite app_assoc.
    rewrite app_nth2 by (rewrite length_app, HA; lia).
    rewrite length_app, HA, nth_skipn. f_equal. lia.
Qed.

Section RegistryMore.

Context {cb address : Type}.
Implicit Types (w : world cb address) (r : receiver cb).

(** X4: a write touches one destination only.  Whatever [_write_to_buffer]
    does for [device_id], it returns normally, every other destination's
    buffer is the same afterwards, and so are the callbacks, the status
    payload, [max_buffer_size] and the trace; the destinations keep their
    order, a created one coming last. *)
Theorem write_touches_one_destination
    (device_id offset : Z) (data : list byte) w :
  0 <= offset ->
  let w' := snd (_write_to_buffer device_id offset data w) in
  fst (_write_to_buffer device_id offset data w) = Ok tt
  /\ (forall k, k <> device_id ->
        dict_get k (_buffers (rcv w')) = dict_get k (_buffers (rcv w)))
  /\ _callbacks (rcv w') = _callbacks (rcv w)
  /\ _status_json (rcv w') = _status_json (rcv w)
  /\ _max_buffer_size (rcv w') = _max_buffer_size (rcv w)
  /\ trace w' = trace w
  /\ (dict_keys (_buffers (rcv w')) = dict_keys (_buffers (rcv w))
      \/ (dict_get device_id (_buffers (rcv w)) = None
          /\ dict_keys (_buffers (rcv w'))
             = dict_keys (_buffers (rcv w)) ++ [device_id])).
Proof.
  intros Hoff w'. subst w'.
  rewrite write_to_buffer_spec by exact Hoff. cbn [fst snd].
  split; [reflexivity|].
  destruct (dict_get device_id (_buffers (rcv w))) as [buf|] eqn:E.
  - destruct (_ && _).
    + repeat split; try reflexivity. left. reflexivity.
    + cbn [rcv trace set_buffer _buffers _callbacks _status_json _max_buffer_size].
      repeat split; try reflexivity.
      * intros k Hk. apply dict_get_set_ne. congruence.
      * left. apply (dict_keys_set_present _ _ buf). exact E.
  - destruct (_ >? _).
    + repeat split; try reflexivity. left. reflexivity.
    + cbn [rcv trace set_buffer _buffers _callbacks _status_json _max_buffer_size].
      repeat split; try reflexivity.
      * intros k Hk. apply dict_get_set_ne. congruence.
      * right. split; [reflexivity|]. apply dict_keys_set_absent. exact E.
Qed.

End RegistryMore.

Lemma write_touches_one_destination_witness :
  let w : world demo_cb nat := demo_world in
  let w' := snd (_write_to_buffer 7 2 [x01; x02] w) in
  fst (_write_to_buffer 7 2 [x01; x02] w) = Ok tt
  /\ (forall k, k <> 7 ->
        dict_get k (_buffers (rcv w')) = dict_get k (_buffers (rcv w)))
  /\ _callbacks (rcv w') = _callbacks (rcv w)
  /\ _status_json (rcv w') = _status_json (rcv w)
  /\ _max_buffer_size (rcv w') = _max_buffer_size (rcv w)
  /\ trace w' = trace w
  /\ (dict_keys (_buffers (rcv w')) = dict_keys (_buffers (rcv w))
      \/ (dict_get 7 (_buffers (rcv w)) = None
          /\ dict_keys (_buffers (rcv w')) = dict_keys (_buffers (rcv w)) ++ [7])).
Proof.
  intros w.
  apply (write_touches_one_destination 7 2 [x01; x02] w). zcmp.
Defined.

Section RegistryCompose.

Context {cb address : Type}.
Variable run_cb : cb -> Z -> list byte -> option Z -> receiver cb -> receiver cb.
Implicit Types (w : world cb address) (r : receiver cb) (h : header).

(** X5: a write to an existing buffer leaves every byte outside
    [[offset, offset + len(data))] as it was; where the buffer had to be
    extended up to [offset], the new bytes are zero (the value a read beyond
    the old end is given here). *)
Theorem write_keeps_bytes_outside_range
    (device_id offset : Z) (data buf : list byte) (i : nat) w :
  0 <= offset ->
  dict_get device_id (_buffers (rcv w)) = Some buf ->
  (i < Z.to_nat offset \/ Z.to_nat (offset + len data) <= i)%nat ->
  exists buf',
    dict_get device_id
      (_buffers (rcv (snd (_write_to_buffer device_id offset data w))))
    = Some buf'
    /\ nth i buf' x00 = nth i buf x00.
Proof.
  intros Hoff E Hi.
  rewrite (write_existing_spec _ _ _ buf) by assumption. cbn [snd rcv].
  eexists. split.
  - cbn [set_buffer _buffers]. apply dict_get_set_eq.
  - unfold written. destruct (_ && _); [reflexivity|].
    apply patched_outside; assumption.
Qed.


(** X7: a frame sent in two pieces gives the buffer the whole frame gives:
    when [d1 ++ d2] written at [offset] fits (it ends within
    [max_buffer_size], or within the existing buffer), writing [d1] at
    [offset] and then [d2] at [offset + len(d1)] leaves the same receiver as
    writing [d1 ++ d2] at [offset]. *)
Theorem adjacent_writes_compose
    (device_id offset : Z) (d1 d2 : list byte) w :
  0 <= offset ->
  (offset + len (d1 ++ d2) <= _max_buffer_size (rcv w)
   \/ exists buf, dict_get device_id (_buffers (rcv w)) = Some buf
                  /\ offset + len (d1 ++ d2) <= len buf) ->
  snd (_write_to_buffer device_id (offset + len d1) d2
         (snd (_write_to_buffer device_id offset d1 w)))
  = snd (_write_to_buffer device_id offset (d1 ++ d2) w).
Proof.
  intros Hoff Hfit.
  pose proof (len_nonneg d1) as H1. pose proof (len_nonneg d2) as H2.
  rewrite len_app in Hfit.
  rewrite (write_to_buffer_spec device_id offset d1 w) by exact Hoff.
  rewrite (write_to_buffer_spec device_id offset (d1 ++ d2) w) by exact Hoff.
  rewrite len_app. cbn [snd].
  destruct (dict_get device_id (_buffers (rcv w))) as [buf|] eqn:E.
  - assert (Hfit' : offset + (len d1 + len d2) <= _max_buffer_size (rcv w)
                    \/ offset + (len d1 + len d2) <= len buf).
    { destruct Hfit as [H | [b [Eb H]]]; [left; exact H|].
      right. injection Eb as <-. exact H. }
    assert (Hc1 : (offset + len d1 >? len buf)
                  && (offset + len d1 >? _max_buffer_size (rcv w)) = false).
    { destruct (Z.gtb_spec (offset + len d1) (len buf));
        destruct (Z.gtb_spec (offset + len d1) (_max_buffer_size (rcv w)));
        cbn [andb]; try reflexivity; lia. }
    assert (Hc : (offset + (len d1 + len d2) >? len buf)
                 && (offset + (len d1 + len d2) >? _max_buffer_size (rcv w))
                 = false).
    { destruct (Z.gtb_spec (offset + (len d1 + len d2)) (len buf));
        destruct (Z.gtb_spec (offset + (len d1 + len d2)) (_max_buffer_size (rcv w)));
        cbn [andb]; try reflexivity; lia. }
    rewrite Hc1, Hc.
    rewrite write_to_buffer_spec by lia. cbn [snd].
    cbn [rcv trace set_buffer _buffers _max_buffer_size].
    rewrite dict_get_set_eq.
    assert (Hc2 : (offset + len d1 + len d2 >? len (patched buf offset d1))
                  && (offset + len d1 + len d2 >? _max_buffer_size (rcv w))
                  = false).
    { rewrite len_patched by exact Hoff.
      destruct (Z.gtb_spec (offset + len d1 + len d2)
                           (Z.max (len buf) (offset + len d1)));
        destruct (Z.gtb_spec (offset + len d1 + len d2) (_max_buffer_size (rcv w)));
        cbn [andb]; try reflexivity; lia. }
    rewrite Hc2. rewrite patched_adjacent by exact Hoff.
    cbn [rcv trace]. rewrite set_buffer_twice. reflexivity.
  - assert (Hfit' : offset + (len d1 + len d2) <= _max_buffer_size (rcv w)).
    { destruct Hfit as [H | [b [Eb _]]]; [exact H | discriminate]. }
    destruct (Z.gtb_spec (offset + len d1) (_max_buffer_size (rcv w))); [lia|].
    destruct (Z.gtb_spec (offset + (len d1 + len d2)) (_max_buffer_size (rcv w)));
      [lia|].
    rewrite write_to_buffer_spec by lia. cbn [snd].
    cbn [rcv trace set_buffer _buffers _max_buffer_size].
    rewrite dict_get_set_eq.
    destruct (Z.gtb_spec (offset + len d1 + len d2) (_max_buffer_size (rcv w)));
      [lia|].
    rewrite andb_false_r. rewrite patched_adjacent by exact Hoff.
    cbn [rcv trace]. rewrite set_buffer_twice. reflexivity.
Qed.

(** X8: [configure_output] with a negative size raises [ValueError] before
    it stores anything: no buffer is created or replaced and no callback is
    registered. *)
Theorem configure_output_negative_size
    (device_id size : Z) (callback : option cb) w :
  size < 0 ->
  configure_output device_id size callback w = (Raise ValueError, w).
Proof.
  intros H. unfold configure_output, bind, lift, bytearray.
  destruct (Z.ltb_spec size 0); [reflexivity | lia].
Qed.

(** X9: [set_status] takes effect for the next status query and changes
    nothing else: after [set_status(payload)], whatever the status was
    before, a QUERY packet for id 251 is answered with the header of length
    [len(payload)] followed by [payload], and buffers, callbacks and
    [max_buffer_size] are as before. *)
Theorem set_status_then_query
    (payload packet : list byte) (addr : address) h w :
  _parse_header packet = Ok (Some h) ->
  has_flag (hdr_flags1 h) DDP_FLAGS1_REPLY = false ->
  has_flag (hdr_flags1 h) DDP_FLAGS1_QUERY = true ->
  hdr_device_id h = DDP_ID_STATUS ->
  let w1 := snd (set_status payload w) in
  fst (set_status payload w) = Ok tt
  /\ _buffers (rcv w1) = _buffers (rcv w)
  /\ _callbacks (rcv w1) = _callbacks (rcv w)
  /\ _max_buffer_size (rcv w1) = _max_buffer_size (rcv w)
  /\ _process_packet run_cb packet addr w1
     = (Ok tt,
        mkWorld (rcv w1)
          (trace w ++
           [ESend (build_header 0x45 251 0 (len payload) ++ payload) addr])).
Proof.
  intros E Hr Hq Hid w1. subst w1.
  unfold set_status, modify. cbn [fst snd rcv].
  repeat split.
  rewrite (process_packet_parsed _ _ _ h) by exact E.
  rewrite Hr, Hq, Hid. rewrite handle_query_spec. reflexivity.
Qed.

End RegistryCompose.

(** ** Further properties of the dispatcher *)

Section DispatcherMore.

Context {cb address : Type}.
Variable run_cb : cb -> Z -> list byte -> option Z -> receiver cb -> receiver cb.
Implicit Types (w : world cb address) (r : receiver cb) (h : header).

(** X10: the packets the dispatcher ignores leave no mark at all.  A packet
    that does not decode, a packet with the REPLY flag (even when QUERY is
    set too), and a packet with the STORAGE flag and without QUERY are
    dropped: no buffer changes, nothing is sent, no callback runs, nothing
    is raised. *)
Theorem ignored_packets_change_nothing
    (packet : list byte) (addr : address) w :
  _parse_header packet = Ok None
  \/ (exists h, _parse_header packet = Ok (Some h)
                /\ (has_flag (hdr_flags1 h) DDP_FLAGS1_REPLY = true
                    \/ (has_flag (hdr_flags1 h) DDP_FLAGS1_QUERY = false
                        /\ has_flag (hdr_flags1 h) DDP_FLAGS1_STORAGE = true))) ->
  _process_packet run_cb packet addr w = (Ok tt, w).
Proof.
  intros [E | [h [E [Hr | [Hq Hs]]]]].
  - apply process_packet_invalid. exact E.
  - rewrite (process_packet_parsed _ _ _ h) by exact E. rewrite Hr. reflexivity.
  - rewrite (process_packet_parsed _ _ _ h) by exact E. rewrite Hq, Hs.
    destruct (has_flag _ DDP_FLAGS1_REPLY); reflexivity.
Qed.

Lemma slice_clipped (packet : list byte) (start count : Z) :
  0 <= start <= len packet -> 0 <= count ->
  slice packet start (start + count)
  = firstn (Z.to_nat count) (skipn (Z.to_nat start) packet)
  /\ len (slice packet start (start + count))
     = Z.min count (len packet - start).
Proof.
  intros Hs Hc. unfold slice. rewrite (clamp_index_in start) by lia.
  assert (Hclamp : clamp_index (start + count) (len packet)
                   = Z.min (start + count) (len packet)).
  { unfold clamp_index. destruct (Z.ltb_spec (start + count) 0); [lia|].
    reflexivity. }
  rewrite Hclamp.
  assert (Heq : firstn (Z.to_nat (Z.min (start + count) (len packet) - start))
                  (skipn (Z.to_nat start) packet)
                = firstn (Z.to_nat count) (skipn (Z.to_nat start) packet)).
  { destruct (Z.le_gt_cases (start + count) (len packet)) as [Hin | Hout].
    - rewrite Z.min_l by lia. f_equal. lia.
    - rewrite Z.min_r by lia.
      rewrite !firstn_all2; [reflexivity | |];
        rewrite length_skipn; unfold len in *; lia. }
  rewrite Heq. split; [reflexivity|].
  unfold len. rewrite length_firstn, length_skipn. unfold len in Hs. lia.
Qed.

(** X11: the payload of a data packet is what the datagram really holds:
    for a unicast data packet whose PUSH flag is clear, or whose
    destination has no callback, the bytes written are the first
    [length] bytes behind the header, fewer when the datagram ends earlier
    (bytes behind them are ignored); the write is the only thing that
    happens, and a PUSH flag without a registered callback is not an
    error. *)
Theorem unicast_write_uses_clipped_payload
    (packet : list byte) (addr : address) h w :
  _parse_header packet = Ok (Some h) ->
  has_flag (hdr_flags1 h) DDP_FLAGS1_REPLY = false ->
  has_flag (hdr_flags1 h) DDP_FLAGS1_QUERY = false ->
  has_flag (hdr_flags1 h) DDP_FLAGS1_STORAGE = false ->
  hdr_device_id h <> DDP_ID_ALL ->
  has_flag (hdr_flags1 h) DDP_FLAGS1_PUSH = false
  \/ dict_get (hdr_device_id h) (_callbacks (rcv w)) = None ->
  let data :=
    firstn (Z.to_nat (hdr_length h)) (skipn (Z.to_nat (hdr_header_len h)) packet) in
  len data = Z.min (hdr_length h) (len packet - hdr_header_len h)
  /\ _process_packet run_cb packet addr w
     = (Ok tt,
        mkWorld
          (rcv (snd (_write_to_buffer (hdr_device_id h) (hdr_offset h) data w)))
          (trace w ++ [EWrite (hdr_device_id h) (hdr_offset h) data])).
Proof.
  intros E Hr Hq Hs Hall Hpush data.
  destruct (parsed_fields_nonneg _ _ E) as [Hoff [Hlen Hhl]].
  destruct (slice_clipped packet (hdr_header_len h) (hdr_length h)) as [Hd Hl];
    [lia | lia |].
  fold data in Hd. rewrite Hd in Hl.
  split; [exact Hl|].
  rewrite (process_packet_parsed _ _ _ h) by exact E.
  rewrite Hr, Hq, Hs. cbv zeta. rewrite Hd.
  destruct (Z.eqb_spec (hdr_device_id h) DDP_ID_ALL); [contradiction|].
  unfold bind at 1, emit. unfold bind.
  rewrite write_to_buffer_spec by exact Hoff.
  rewrite (write_to_buffer_spec _ _ _ w) by exact Hoff.
  cbn [rcv trace snd].
  set (w1 := match dict_get (hdr_device_id h) (_buffers (rcv w)) with
             | Some buf => _ | None => _ end).
  set (w2 := match dict_get (hdr_device_id h) (_buffers (rcv w)) with
             | Some buf => _ | None => _ end).
  assert (Hw : w1 = mkWorld (rcv w2)
                      (trace w ++ [EWrite (hdr_device_id h) (hdr_offset h) data])).
  { subst w1 w2.
    destruct (dict_get (hdr_device_id h) (_buffers (rcv w)));
      [destruct (_ && _) | destruct (_ >? _)]; reflexivity. }
  assert (Hcb : _callbacks (rcv w2) = _callbacks (rcv w)).
  { subst w2.
    destruct (dict_get (hdr_device_id h) (_buffers (rcv w)));
      [destruct (_ && _) | destruct (_ >? _)]; reflexivity. }
  rewrite Hw.
  destruct Hpush as [Hp | Hnone].
  - rewrite Hp. reflexivity.
  - destruct (has_flag _ DDP_FLAGS1_PUSH); [|reflexivity].
    unfold _handle_push, bind, get_rcv. cbn [rcv].
    rewrite Hcb, Hnone. reflexivity.
Qed.

End DispatcherMore.

Section CallbackDiscipline.

Context {cb address : Type}.
Variable run_cb : cb -> Z -> list byte -> option Z -> receiver cb -> receiver cb.
Implicit Types (w : world cb address) (r : receiver cb) (h : header).

Lemma calls_nothing_ret {A : Type} (a : A) : calls_nothing (@ret cb address A a).
Proof. intros w. exists []. rewrite app_nil_r. split; reflexivity. Qed.

Lemma calls_nothing_emit (e : event cb address) :
  is_call e = false -> calls_nothing (emit e).
Proof.
  intros He w. exists [e]. split; [reflexivity|]. cbn. rewrite He. reflexivity.
Qed.

Lemma calls_nothing_bind {A B : Type} (m : M cb address A) (f : A -> M cb address B) :
  calls_nothing m -> (forall a, calls_nothing (f a)) -> calls_nothing (bind m f).
Proof.
  intros Hm Hf w. unfold bind. destruct (Hm w) as [evs1 [E1 N1]].
  destruct (m w) as [[a | e] w1]; cbn [snd] in *.
  - destruct (Hf a w1) as [evs2 [E2 N2]].
    exists (evs1 ++ evs2). rewrite E2, E1, app_assoc. split; [reflexivity|].
    rewrite existsb_app, N1, N2. reflexivity.
  - exists evs1. split; assumption.
Qed.

Lemma calls_nothing_for_each {A : Type} (l : list A) (body : A -> M cb address unit) :
  (forall x, calls_nothing (body x)) -> calls_nothing (for_each l body).
Proof.
  intros Hb. induction l as [|x l IH]; cbn [for_each].
  - apply calls_nothing_ret.
  - apply calls_nothing_bind; [apply Hb | intros _; exact IH].
Qed.

Lemma calls_nothing_write (device_id offset : Z) (data : list byte) :
  0 <= offset ->
  calls_nothing (@_write_to_buffer cb address device_id offset data).
Proof.
  intros Hoff w. exists []. rewrite app_nil_r. split; [|reflexivity].
  rewrite write_to_buffer_spec by exact Hoff. cbn [snd].
  destruct (dict_get device_id (_buffers (rcv w)));
    [destruct (_ && _) | destruct (_ >? _)]; reflexivity.
Qed.

Lemma calls_nothing_handle_query (device_id : Z) (addr : address) :
  calls_nothing (@_handle_query cb address device_id addr).
Proof.
  intros w. rewrite handle_query_spec. cbn [snd trace].
  eexists. split; reflexivity.
Qed.

(** X12: callbacks run for PUSH packets only.  Whatever a packet without the
    PUSH flag is (invalid, reply, query, storage, unicast or broadcast
    data), processing it invokes no callback. *)
Theorem no_push_no_callback (packet : list byte) (addr : address) w :
  (forall h, _parse_header packet = Ok (Some h) ->
             has_flag (hdr_flags1 h) DDP_FLAGS1_PUSH = false) ->
  exists evs,
    trace (snd (_process_packet run_cb packet addr w)) = trace w ++ evs
    /\ existsb is_call evs = false.
Proof.
  intros Hpush.
  destruct (_parse_header packet) as [[h|]|e] eqn:E.
  - rewrite (process_packet_parsed _ _ _ h) by exact E.
    specialize (Hpush h eq_refl).
    destruct (parsed_fields_nonneg _ _ E) as [Hoff _].
    destruct (has_flag _ DDP_FLAGS1_REPLY); [apply (calls_nothing_ret tt)|].
    destruct (has_flag _ DDP_FLAGS1_QUERY); [apply calls_nothing_handle_query|].
    destruct (has_flag _ DDP_FLAGS1_STORAGE); [apply (calls_nothing_ret tt)|].
    cbv zeta. rewrite Hpush.
    assert (Hstep : forall target_id,
      calls_nothing
        (bind (emit (EWrite target_id (hdr_offset h)
                 (slice packet (hdr_header_len h)
                    (hdr_header_len h + hdr_length h)))) (fun _ =>
         bind (@_write_to_buffer cb address target_id (hdr_offset h)
                 (slice packet (hdr_header_len h)
                    (hdr_header_len h + hdr_length h))) (fun _ => ret tt)))).
    { intros target_id.
      apply calls_nothing_bind; [apply calls_nothing_emit; reflexivity|].
      intros _. apply calls_nothing_bind; [apply calls_nothing_write; exact Hoff|].
      intros _. apply calls_nothing_ret. }
    destruct (hdr_device_id h =? DDP_ID_ALL).
    + apply calls_nothing_for_each. exact Hstep.
    + apply Hstep.
  - rewrite process_packet_invalid by exact E. apply (calls_nothing_ret tt).
  - exfalso. exact (parse_header_never_raises _ _ E).
Qed.

(** The broadcast loop without PUSH over destinations that all exist. *)
Lemma broadcast_loop_writes (ks : list Z) (offset : Z) (data : list byte) w :
  0 <= offset ->
  NoDup ks ->
  (forall k, In k ks -> dict_get k (_buffers (rcv w)) <> None) ->
  let step := fun target_id : Z =>
    bind (emit (EWrite target_id offset data)) (fun _ =>
    bind (@_write_to_buffer cb address target_id offset data) (fun _ => ret tt)) in
  let w' := snd (for_each ks step w) in
  fst (for_each ks step w) = Ok tt
  /\ dict_keys (_buffers (rcv w')) = dict_keys (_buffers (rcv w))
  /\ (forall k buf, In k ks -> dict_get k (_buffers (rcv w)) = Some buf ->
        dict_get k (_buffers (rcv w'))
        = Some (written (_max_buffer_size (rcv w)) buf offset data))
  /\ (forall k, ~ In k ks ->
        dict_get k (_buffers (rcv w')) = dict_get k (_buffers (rcv w)))
  /\ _max_buffer_size (rcv w') = _max_buffer_size (rcv w)
  /\ _callbacks (rcv w') = _callbacks (rcv w)
  /\ _status_json (rcv w') = _status_json (rcv w)
  /\ trace w' = trace w ++ map (fun k => EWrite k offset data) ks.
Proof.
  intros Hoff Hnd Hin step. revert w Hin.
  induction ks as [|k ks IH]; intros w Hin w'.
  - subst w'. cbn [for_each ret fst snd map]. rewrite app_nil_r.
    repeat split; try reflexivity. intros k buf [].
  - inversion Hnd as [|k0 ks0 Hnotin Hnd']; subst k0 ks0.
    destruct (dict_get k (_buffers (rcv w))) as [bufk|] eqn:Ek;
      [|exfalso; apply (Hin k); [left; reflexivity | exact Ek]].
    assert (Estep : step k w
                    = (Ok tt,
                       mkWorld (set_buffer k
                                  (written (_max_buffer_size (rcv w)) bufk offset data)
                                  (rcv w))
                               (trace w ++ [EWrite k offset data]))).
    { unfold step. unfold bind at 1, emit. unfold bind.
      rewrite (write_existing_spec _ _ _ bufk) by assumption. reflexivity. }
    set (w1 := mkWorld (set_buffer k
                          (written (_max_buffer_size (rcv w)) bufk offset data)
                          (rcv w))
                       (trace w ++ [EWrite k offset data])) in *.
    assert (Efe : for_each (k :: ks) step w = for_each ks step w1).
    { cbn [for_each]. unfold bind at 1. rewrite Estep. reflexivity. }
    subst w'. rewrite Efe.
    assert (Hin1 : forall k', In k' ks -> dict_get k' (_buffers (rcv w1)) <> None).
    { intros k' Hk'. subst w1. cbn [rcv set_buffer _buffers].
      rewrite dict_get_set_ne by (intros ->; contradiction).
      apply Hin. right. exact Hk'. }
    destruct (IH Hnd' w1 Hin1) as [Hok [Hkeys [Hw [Hothers [Hmax [Hcb [Hst Htr]]]]]]].
    fold step.
    split; [exact Hok|]. split; [|split; [|split; [|split; [|split; [|split]]]]].
    + rewrite Hkeys. subst w1. cbn [rcv set_buffer _buffers].
      apply (dict_keys_set_present _ _ bufk). exact Ek.
    + intros k' buf [<- | Hk'] Eb.
      * rewrite Hothers by exact Hnotin. subst w1. cbn [rcv set_buffer _buffers].
        rewrite dict_get_set_eq. congruence.
      * apply Hw; [exact Hk'|]. subst w1. cbn [rcv set_buffer _buffers].
        rewrite dict_get_set_ne by (intros ->; contradiction). exact Eb.
    + intros k' Hk'. rewrite Hothers by (intros H; apply Hk'; right; exact H).
      subst w1. cbn [rcv set_buffer _buffers].
      apply dict_get_set_ne. intros ->. apply Hk'. left. reflexivity.
    + rewrite Hmax. reflexivity.
    + rewrite Hcb. reflexivity.
    + rewrite Hst. reflexivity.
    + rewrite Htr. subst w1. cbn [trace map]. rewrite <- app_assoc. reflexivity.
Qed.

(** X13: a broadcast data packet without PUSH applies the write to every
    configured destination and to nothing else: each existing buffer
    becomes what the write makes of it (unchanged where the write is
    dropped), no destination appears or disappears (none is created for id
    255 itself), callbacks, status and [max_buffer_size] stay, and nothing
    is raised. *)
Theorem broadcast_writes_every_destination
    (packet : list byte) (addr : address) h w :
  _parse_header packet = Ok (Some h) ->
  has_flag (hdr_flags1 h) DDP_FLAGS1_REPLY = false ->
  has_flag (hdr_flags1 h) DDP_FLAGS1_QUERY = false ->
  has_flag (hdr_flags1 h) DDP_FLAGS1_STORAGE = false ->
  has_flag (hdr_flags1 h) DDP_FLAGS1_PUSH = false ->
  hdr_device_id h = DDP_ID_ALL ->
  NoDup (dict_keys (_buffers (rcv w))) ->
  let data := slice packet (hdr_header_len h) (hdr_header_len h + hdr_length h) in
  let w' := snd (_process_packet run_cb packet addr w) in
  fst (_process_packet run_cb packet addr w) = Ok tt
  /\ dict_keys (_buffers (rcv w')) = dict_keys (_buffers (rcv w))
  /\ (forall k, dict_get k (_buffers (rcv w'))
               = option_map
                   (fun buf => written (_max_buffer_size (rcv w)) buf
                                 (hdr_offset h) data)
                   (dict_get k (_buffers (rcv w))))
  /\ _callbacks (rcv w') = _callbacks (rcv w)
  /\ _status_json (rcv w') = _status_json (rcv w)
  /\ _max_buffer_size (rcv w') = _max_buffer_size (rcv w).
Proof.
  intros E Hr Hq Hs Hp Hall Hnd data w'.
  destruct (parsed_fields_nonneg _ _ E) as [Hoff _].
  assert (Hin : forall k, In k (dict_keys (_buffers (rcv w))) ->
                          dict_get k (_buffers (rcv w)) <> None).
  { intros k Hk. apply dict_get_in_keys. exact Hk. }
  destruct (broadcast_loop_writes (dict_keys (_buffers (rcv w)))
              (hdr_offset h) data w Hoff Hnd Hin)
    as [Hok [Hkeys [Hw [Hothers [Hmax [Hcb [Hst _]]]]]]].
  assert (Eproc : _process_packet run_cb packet addr w
                  = for_each (dict_keys (_buffers (rcv w)))
                      (fun target_id : Z =>
                         bind (emit (EWrite target_id (hdr_offset h) data)) (fun _ =>
                         bind (@_write_to_buffer cb address target_id
                                 (hdr_offset h) data) (fun _ => ret tt))) w).
  { rewrite (process_packet_parsed _ _ _ h) by exact E.
    rewrite Hr, Hq, Hs, Hp, Hall. reflexivity. }
  subst w'. rewrite Eproc.
  split; [exact Hok|]. split; [exact Hkeys|].
  split; [|split; [exact Hcb | split; [exact Hst | exact Hmax]]].
  intros k. destruct (dict_get k (_buffers (rcv w))) as [buf|] eqn:Ek; cbn [option_map].
  - apply Hw; [|exact Ek]. apply dict_get_in_keys. rewrite Ek. discriminate.
  - rewrite Hothers; [exact Ek|]. intros Hk. apply dict_get_in_keys in Hk.
    contradiction.
Qed.

End CallbackDiscipline.

(** ** Further properties of [poll] *)

Section PollMore.

Context {cb address : Type}.
Variable run_cb : cb -> Z -> list byte -> option Z -> receiver cb -> receiver cb.
Implicit Types (w : world cb address) (queue : list (arrival address)).

(** The loop over a run of non-empty datagrams. *)
Lemma poll_loop_packets (pre rest : list (arrival address)) (processed : Z) w :
  forallb is_packet pre = true ->
  poll_loop run_cb (pre ++ rest) processed w =
    match for_each pre (process_arrival run_cb) w with
    | (Ok _, w') => poll_loop run_cb rest (processed + len pre) w'
    | (Raise e, w') => (Raise e, w')
    end.
Proof.
  intros Hpre. revert processed w.
  induction pre as [|a pre IH]; intros processed w.
  - cbn [app for_each ret]. change (len (@nil (arrival address))) with 0.
    rewrite Z.add_0_r. reflexivity.
  - cbn [forallb] in Hpre. apply andb_true_iff in Hpre as [Ha Hpre].
    specialize (IH Hpre).
    destruct a as [data addr | args]; cbn [is_packet] in Ha; [|discriminate].
    cbn [app poll_loop for_each process_arrival]. cbv zeta.
    assert (Hn : truthy (len (firstn (Z.to_nat RX_BUFFER_LEN) data)) = true).
    { unfold truthy. apply negb_true_iff in Ha. apply Z.eqb_neq in Ha.
      apply negb_true_iff. apply Z.eqb_neq.
      unfold len in *. rewrite length_firstn. unfold RX_BUFFER_LEN. lia. }
    rewrite Hn. cbn [negb]. rewrite slice_full.
    unfold bind.
    destruct (_process_packet run_cb _ addr w) as [[[]|e] w1]; [|reflexivity].
    rewrite IH.
    replace (processed + 1 + len pre)
      with (processed + len (Datagram data addr :: pre))
      by (unfold len; cbn [length]; lia).
    reflexivity.
Qed.

(** The count [poll_loop] starts from is only added to its result. *)
Lemma poll_loop_count queue (processed : Z) w :
  poll_loop run_cb queue processed w =
    match poll_loop run_cb queue 0 w with
    | (Ok (n, rest), w') => (Ok (processed + n, rest), w')
    | (Raise e, w') => (Raise e, w')
    end.
Proof.
  revert processed w. induction queue as [|a queue IH]; intros processed w.
  - cbn [poll_loop ret]. rewrite Z.add_0_r. reflexivity.
  - cbn [poll_loop]. destruct a as [data addr | args].
    + cbv zeta. destruct (negb _).
      * cbn [ret]. rewrite Z.add_0_r. reflexivity.
      * unfold bind.
        destruct (_process_packet run_cb _ addr w) as [[[]|e] w1]; [|reflexivity].
        rewrite (IH (processed + 1)). rewrite (IH (0 + 1)).
        destruct (poll_loop run_cb queue 0 w1) as [[[n rest]|e] w2];
          [|reflexivity].
        f_equal. f_equal. f_equal. lia.
    + destruct (match args with [] => false | a0 :: _ => a0 =? EAGAIN end).
      * cbn [ret]. rewrite Z.add_0_r. reflexivity.
      * reflexivity.
Qed.

(** X14: a transport error other than [EAGAIN] (an [OSError] with other
    arguments, or with none) is raised out of [poll] unchanged, after the
    datagrams received before it have been processed; their effects stay,
    the count is lost. *)
Theorem poll_propagates_transport_error
    (pre rest : list (arrival address)) (args : list Z) w :
  forallb is_packet pre = true ->
  stops_poll (@Fault address args) = false ->
  poll run_cb (pre ++ Fault args :: rest) w
  = match for_each pre (process_arrival run_cb) w with
    | (Ok _, w') => (Raise (OSError args), w')
    | (Raise e, w') => (Raise e, w')
    end.
Proof.
  intros Hpre Hargs. unfold poll. rewrite poll_loop_packets by exact Hpre.
  destruct (for_each pre (process_arrival run_cb) w) as [[[]|e] w']; [|reflexivity].
  cbn [poll_loop]. cbn [stops_poll] in Hargs. rewrite Hargs. reflexivity.
Qed.

(** X15: datagrams that arrive between two calls of [poll] are handled as if
    they had all been there for one call: over a first run of non-empty
    datagrams followed by any queue, one [poll] gives the state and the
    remaining queue that a [poll] over the run and then a [poll] over the
    rest give, and its count is the sum of their counts. *)
Theorem poll_splits (pre rest : list (arrival address)) w :
  forallb is_packet pre = true ->
  poll run_cb (pre ++ rest) w
  = match poll run_cb pre w with
    | (Ok (n1, _), w1) =>
        match poll run_cb rest w1 with
        | (Ok (n2, remaining), w2) => (Ok (n1 + n2, remaining), w2)
        | (Raise e, w2) => (Raise e, w2)
        end
    | (Raise e, w1) => (Raise e, w1)
    end.
Proof.
  intros Hpre. unfold poll.
  rewrite poll_loop_packets by exact Hpre.
  pose proof (poll_loop_packets pre [] 0 w Hpre) as Hp.
  rewrite app_nil_r in Hp. rewrite Hp.
  destruct (for_each pre (process_arrival run_cb) w) as [[[]|e] w1]; [|reflexivity].
  cbn [poll_loop ret]. apply poll_loop_count.
Qed.

Hypothesis run_cb_keeps_buffers : callbacks_keep_buffers run_cb.

Lemma quiet_ret {A : Type} (a : A) :
  returns_without_sending (@ret cb address A a).
Proof.
  intros w Hw. exists a, w, []. rewrite app_nil_r.
  repeat split. exact Hw.
Qed.

Lemma quiet_emit (e : event cb address) :
  is_send e = false -> returns_without_sending (emit e).
Proof.
  intros He w Hw. eexists tt, _, [e].
  split; [reflexivity|]. split; [exact Hw|]. split; [reflexivity|].
  cbn. rewrite He. reflexivity.
Qed.

Lemma quiet_bind {A B : Type} (m : M cb address A) (f : A -> M cb address B) :
  returns_without_sending m -> (forall a, returns_without_sending (f a)) ->
  returns_without_sending (bind m f).
Proof.
  intros Hm Hf w Hw.
  destruct (Hm w Hw) as [a [w1 [evs1 [E1 [Hw1 [T1 N1]]]]]].
  destruct (Hf a w1 Hw1) as [b [w2 [evs2 [E2 [Hw2 [T2 N2]]]]]].
  exists b, w2, (evs1 ++ evs2). unfold bind. rewrite E1.
  split; [exact E2|]. split; [exact Hw2|].
  split; [rewrite T2, T1, app_assoc; reflexivity|].
  rewrite existsb_app, N1, N2. reflexivity.
Qed.

Lemma quiet_for_each {A : Type} (l : list A) (body : A -> M cb address unit) :
  (forall x, returns_without_sending (body x)) ->
  returns_without_sending (for_each l body).
Proof.
  intros Hb. induction l as [|x l IH]; cbn [for_each].
  - apply quiet_ret.
  - apply quiet_bind; [apply Hb | intros _; exact IH].
Qed.

Lemma quiet_write (device_id offset : Z) (data : list byte) :
  0 <= offset ->
  returns_without_sending (@_write_to_buffer cb address device_id offset data).
Proof.
  intros Hoff w Hw.
  destruct (normal_write device_id offset data Hoff w Hw) as [[] [w' [E Hw']]].
  exists tt, w', []. rewrite app_nil_r.
  split; [exact E|]. split; [exact Hw'|]. split; [|reflexivity].
  rewrite write_to_buffer_spec in E by exact Hoff.
  injection E as <-.
  destruct (dict_get device_id (_buffers (rcv w)));
    [destruct (_ && _) | destruct (_ >? _)]; reflexivity.
Qed.

Lemma quiet_handle_push (device_id : Z) (timecode : option Z) :
  returns_without_sending (@_handle_push cb address run_cb device_id timecode).
Proof.
  intros w Hw. unfold _handle_push, bind, get_rcv, lift, emit, modify, buffer_of, ret.
  destruct (dict_get device_id (_callbacks (rcv w))) as [c|] eqn:Ec.
  - destruct (dict_get device_id (_buffers (rcv w))) as [buf|] eqn:Eb.
    + eexists tt, _, [ECall c device_id buf timecode].
      split; [reflexivity|]. cbn [rcv trace].
      split; [apply run_cb_keeps_buffers; exact Hw|].
      split; reflexivity.
    + exfalso. apply (Hw device_id); [rewrite Ec; discriminate | exact Eb].
  - exists tt, w, []. rewrite app_nil_r. repeat split. exact Hw.
Qed.

(** A packet that is not answered as a query is processed without a call
    of [sendto]. *)
Lemma quiet_process_packet (packet : list byte) (addr : address) :
  answers_query packet = false ->
  returns_without_sending (_process_packet run_cb packet addr).
Proof.
  intros Hnq w Hw. unfold answers_query in Hnq.
  destruct (_parse_header packet) as [[h|]|e] eqn:E.
  - rewrite (process_packet_parsed _ _ _ h) by exact E.
    destruct (parsed_fields_nonneg _ _ E) as [Hoff _].
    destruct (has_flag _ DDP_FLAGS1_REPLY); [apply (quiet_ret tt); exact Hw|].
    cbn [negb andb] in Hnq. rewrite Hnq. clear Hnq.
    destruct (has_flag _ DDP_FLAGS1_STORAGE); [apply (quiet_ret tt); exact Hw|].
    cbv zeta.
    assert (Hstep : forall target_id,
      returns_without_sending
        (bind (emit (EWrite target_id (hdr_offset h)
                 (slice packet (hdr_header_len h)
                    (hdr_header_len h + hdr_length h)))) (fun _ =>
         bind (@_write_to_buffer cb address target_id (hdr_offset h)
                 (slice packet (hdr_header_len h)
                    (hdr_header_len h + hdr_length h))) (fun _ =>
         if has_flag (hdr_flags1 h) DDP_FLAGS1_PUSH
         then _handle_push run_cb target_id (hdr_timecode h)
         else ret tt)))).
    { intros target_id.
      apply quiet_bind; [apply quiet_emit; reflexivity|]. intros _.
      apply quiet_bind; [apply quiet_write; exact Hoff|]. intros _.
      destruct (has_flag _ _); [apply quiet_handle_push | apply quiet_ret]. }
    destruct (hdr_device_id h =? DDP_ID_ALL).
    + apply quiet_for_each; [exact Hstep | exact Hw].
    + apply Hstep. exact Hw.
  - rewrite process_packet_invalid by exact E. apply (quiet_ret tt). exact Hw.
  - exfalso. exact (parse_header_never_raises _ _ E).
Qed.

Lemma poll_loop_quiet queue (processed : Z) w :
  (forall args, In (Fault args) queue -> stops_poll (@Fault address args) = true) ->
  (forall data addr, In (Datagram data addr) queue ->
     answers_query (firstn (Z.to_nat RX_BUFFER_LEN) data) = false) ->
  registered_have_buffers (rcv w) ->
  exists n remaining w' evs,
    poll_loop run_cb queue processed w = (Ok (n, remaining), w')
    /\ processed <= n /\ n + len remaining <= processed + len queue
    /\ registered_have_buffers (rcv w')
    /\ trace w' = trace w ++ evs
    /\ existsb is_send evs = false.
Proof.
  revert processed w.
  induction queue as [|a queue IH]; intros processed w Hq Hnq Hw.
  - exists processed, [], w, []. cbn [poll_loop ret]. rewrite app_nil_r.
    change (len (@nil (arrival address))) with 0.
    repeat split; try lia. exact Hw.
  - assert (Hlen : len (a :: queue) = 1 + len queue)
      by (unfold len; cbn [length]; lia).
    assert (Hq' : forall args, In (Fault args) queue ->
                               stops_poll (@Fault address args) = true)
      by (intros args Hin; apply Hq; right; exact Hin).
    assert (Hnq' : forall data addr, In (Datagram data addr) queue ->
              answers_query (firstn (Z.to_nat RX_BUFFER_LEN) data) = false)
      by (intros data addr Hin; apply (Hnq data addr); right; exact Hin).
    pose proof (len_nonneg queue) as Hnn.
    cbn [poll_loop]. destruct a as [data addr | args].
    + cbv zeta. destruct (negb _).
      * exists processed, queue, w, []. cbn [ret]. rewrite app_nil_r.
        repeat split; try lia. exact Hw.
      * unfold bind. rewrite slice_full.
        destruct (quiet_process_packet
                    (firstn (Z.to_nat RX_BUFFER_LEN) data) addr
                    (Hnq data addr (or_introl eq_refl)) w Hw)
          as [[] [w1 [evs1 [E1 [Hw1 [T1 N1]]]]]].
        rewrite E1.
        destruct (IH (processed + 1) w1 Hq' Hnq' Hw1)
          as [n [remaining [w' [evs2 [E [Hn [Hl [Hw' [T2 N2]]]]]]]]].
        exists n, remaining, w', (evs1 ++ evs2).
        split; [exact E|]. split; [lia|]. split; [lia|]. split; [exact Hw'|].
        split; [rewrite T2, T1, app_assoc; reflexivity|].
        rewrite existsb_app, N1, N2. reflexivity.
    + specialize (Hq args (or_introl eq_refl)). cbn [stops_poll] in Hq.
      rewrite Hq. exists processed, queue, w, []. cbn [ret]. rewrite app_nil_r.
      repeat split; try lia. exact Hw.
Qed.

(** X16: no content of a data packet makes [poll] raise.  When the
    transport raises nothing but [EAGAIN] on receive, no queued datagram is
    a query that gets answered (QUERY set and REPLY clear, the only packets
    for which [sendto] is called), every registered callback has a buffer,
    and callbacks return normally and keep it that way, [poll] returns
    normally whatever bytes the datagrams hold, without handing anything to
    [sendto]; its count is at most the number of datagrams it took from the
    queue. *)
Theorem poll_without_queries_never_raises queue w :
  (forall args, In (Fault args) queue -> stops_poll (@Fault address args) = true) ->
  (forall data addr, In (Datagram data addr) queue ->
     answers_query (firstn (Z.to_nat RX_BUFFER_LEN) data) = false) ->
  registered_have_buffers (rcv w) ->
  exists n remaining w' evs,
    poll run_cb queue w = (Ok (n, remaining), w')
    /\ 0 <= n /\ n + len remaining <= len queue
    /\ registered_have_buffers (rcv w')
    /\ trace w' = trace w ++ evs
    /\ existsb is_send evs = false.
Proof.
  intros Hq Hnq Hw.
  destruct (poll_loop_quiet queue 0 w Hq Hnq Hw)
    as [n [remaining [w' [evs [E [Hn [Hl [Hw' [T N]]]]]]]]].
  exists n, remaining, w', evs. unfold poll.
  split; [exact E|]. split; [lia|]. split; [lia|].
  split; [exact Hw'|]. split; assumption.
Qed.

End PollMore.

(** ** The frame callbacks of the example programs *)

Module DisplayFacts.

Import Display.

Lemma triple_at_ok (data : list byte) (k : nat) :
  (3 * k + 2 < length data)%nat ->
  triple_at data (0 + 3 * Z.of_nat k) = Ok (rgb_at data k).
Proof.
  intros H. unfold triple_at, rgb_at.
  rewrite !getitem_nth by (unfold len; lia). cbn [rbind].
  replace (Z.to_nat (0 + 3 * Z.of_nat k)) with (3 * k)%nat by lia.
  replace (Z.to_nat (0 + 3 * Z.of_nat k + 1)) with (3 * k + 1)%nat by lia.
  replace (Z.to_nat (0 + 3 * Z.of_nat k + 2)) with (3 * k + 2)%nat by lia.
  reflexivity.
Qed.

Lemma triple_at_short (data : list byte) (k : nat) :
  (length data <= 3 * k + 2)%nat ->
  triple_at data (0 + 3 * Z.of_nat k) = Raise IndexError.
Proof.
  intros H. unfold triple_at, getitem, len.
  destruct (Z.ltb_spec (0 + 3 * Z.of_nat k) 0); [lia|].
  destruct (Z.leb_spec (Z.of_nat (length data)) (0 + 3 * Z.of_nat k));
    cbn [orb rbind]; [reflexivity|].
  destruct (Z.ltb_spec (0 + 3 * Z.of_nat k + 1) 0); [lia|].
  destruct (Z.leb_spec (Z.of_nat (length data)) (0 + 3 * Z.of_nat k + 1));
    cbn [orb rbind]; [reflexivity|].
  destruct (Z.ltb_spec (0 + 3 * Z.of_nat k + 2) 0); [lia|].
  destruct (Z.leb_spec (Z.of_nat (length data)) (0 + 3 * Z.of_nat k + 2));
    cbn [orb rbind]; [reflexivity | lia].
Qed.

(** The number of indices [range(0, limit, 3)] yields. *)
Lemma range3_count (limit : Z) :
  0 <= limit ->
  py_range 0 limit 3
  = map (fun k => 0 + 3 * Z.of_nat k) (seq 0 (Z.to_nat ((limit + 2) / 3))).
Proof.
  intros H. unfold py_range.
  replace (limit - 0 + 3 - 1) with (limit + 2) by lia. reflexivity.
Qed.

Lemma colors_loop_full (data : list byte) (n s : nat) (acc : list String.string) :
  (3 * (s + n) <= length data)%nat ->
  colors_loop data (map (fun k => 0 + 3 * Z.of_nat k) (seq s n)) acc
  = Ok (acc ++ map (color_at data) (seq s n)).
Proof.
  revert s acc. induction n as [|n IH]; intros s acc H.
  - cbn. rewrite app_nil_r. reflexivity.
  - cbn [seq map colors_loop].
    rewrite triple_at_ok by lia. cbn [rbind]. unfold rgb_at at 1.
    rewrite IH by lia. rewrite <- app_assoc. reflexivity.
Qed.

Lemma colors_loop_stops (data : list byte) (n : nat) (acc : list String.string) :
  (3 * n < length data <= 3 * n + 2)%nat ->
  colors_loop data (map (fun k => 0 + 3 * Z.of_nat k) (seq 0 (S n))) acc
  = Raise IndexError.
Proof.
  intros H. rewrite seq_S, map_app. cbn [map Nat.add].
  revert acc.
  assert (Hgen : forall m s acc, (s + m = n)%nat ->
            colors_loop data
              (map (fun k => 0 + 3 * Z.of_nat k) (seq s m)
               ++ [0 + 3 * Z.of_nat n]) acc = Raise IndexError).
  { induction m as [|m IH]; intros s acc Hs.
    - cbn [seq map app colors_loop]. rewrite triple_at_short by lia. reflexivity.
    - cbn [seq map app colors_loop].
      rewrite triple_at_ok by lia. cbn [rbind]. unfold rgb_at at 1.
      apply IH. lia. }
  intros acc. apply Hgen. lia.
Qed.

Lemma pad_loop_fills (fuel : nat) (colors : list String.string) :
  (Z.to_nat PIXEL_COUNT - length colors <= fuel)%nat ->
  pad_loop fuel colors
  = colors ++ repeat black (Z.to_nat PIXEL_COUNT - length colors).
Proof.
  revert colors. induction fuel as [|fuel IH]; intros colors H.
  - replace (Z.to_nat PIXEL_COUNT - length colors)%nat with 0%nat by lia.
    cbn. rewrite app_nil_r. reflexivity.
  - cbn [pad_loop]. unfold len.
    destruct (Z.ltb_spec (Z.of_nat (length colors)) PIXEL_COUNT) as [Hlt | Hge].
    + rewrite IH by (rewrite length_app; cbn [length]; lia).
      rewrite length_app. cbn [length].
      replace (Z.to_nat PIXEL_COUNT - length colors)%nat
        with (S (Z.to_nat PIXEL_COUNT - (length colors + 1)))%nat by lia.
      cbn [repeat]. rewrite <- app_assoc. reflexivity.
    + replace (Z.to_nat PIXEL_COUNT - length colors)%nat with 0%nat by lia.
      cbn. rewrite app_nil_r. reflexivity.
Qed.

(** The value of [_colors_from_buffer] on a buffer it accepts. *)
Lemma colors_from_buffer_value (data : list byte) :
  90 <= len data \/ len data mod 3 = 0 ->
  let q := Z.to_nat (Z.min (len data) 90 / 3) in
  _colors_from_buffer data
  = Ok (map (color_at data) (seq 0 q) ++ repeat black (30 - q)).
Proof.
  intros Hok q. unfold _colors_from_buffer. cbv zeta.
  change (PIXEL_COUNT * 3) with 90.
  pose proof (len_nonneg data) as Hd.
  rewrite range3_count by lia.
  assert (Hq : Z.to_nat ((Z.min (len data) 90 + 2) / 3) = q).
  { subst q. f_equal. destruct Hok as [H | H].
    - rewrite Z.min_r by lia. reflexivity.
    - destruct (Z.le_gt_cases 90 (len data)).
      + rewrite Z.min_r by lia. reflexivity.
      + rewrite Z.min_l by lia. Z.to_euclidean_division_equations. lia. }
  rewrite Hq.
  assert (Hfit : (3 * (0 + q) <= length data)%nat).
  { subst q. unfold len in *. Z.to_euclidean_division_equations. lia. }
  rewrite colors_loop_full by exact Hfit. cbn [rbind app].
  assert (Hq30 : (q <= 30)%nat).
  { subst q. Z.to_euclidean_division_equations. lia. }
  rewrite pad_loop_fills
    by (rewrite length_map, length_seq; change (Z.to_nat PIXEL_COUNT) with 30%nat; lia).
  rewrite length_map, length_seq. reflexivity.
Qed.

Lemma colors_from_buffer_raises (data : list byte) :
  len data < 90 -> len data mod 3 <> 0 ->
  _colors_from_buffer data = Raise IndexError.
Proof.
  intros Hlt Hmod. unfold _colors_from_buffer. cbv zeta.
  change (PIXEL_COUNT * 3) with 90.
  pose proof (len_nonneg data) as Hd.
  rewrite Z.min_l by lia. rewrite range3_count by lia.
  assert (Hn : Z.to_nat ((len data + 2) / 3) = S (Z.to_nat (len data / 3))).
  { Z.to_euclidean_division_equations. lia. }
  rewrite Hn. rewrite colors_loop_stops; [reflexivity|].
  unfold len in *. Z.to_euclidean_division_equations. lia.
Qed.

(** X17: [_colors_from_buffer] either returns exactly [PIXEL_COUNT] colour
    strings or raises [IndexError]; it raises exactly for a buffer shorter
    than 90 bytes whose length is not a multiple of 3, because the last
    pixel's three bytes are read without a check. *)
Theorem colors_from_buffer_result (data : list byte) :
  match _colors_from_buffer data with
  | Ok colors =>
      len colors = PIXEL_COUNT /\ (90 <= len data \/ len data mod 3 = 0)
  | Raise e =>
      e = IndexError /\ len data < 90 /\ len data mod 3 <> 0
  end.
Proof.
  destruct (Z.le_gt_cases 90 (len data)) as [Hbig | Hsmall].
  - rewrite colors_from_buffer_value by (left; exact Hbig). cbv zeta.
    split; [|left; exact Hbig].
    set (q := Z.to_nat (Z.min (len data) 90 / 3)).
    assert (Hq : (q <= 30)%nat)
      by (subst q; Z.to_euclidean_division_equations; lia).
    unfold len at 1. rewrite length_app, length_map, length_seq, repeat_length.
    change PIXEL_COUNT with 30. lia.
  - destruct (Z.eq_dec (len data mod 3) 0) as [Hmod | Hmod].
    + rewrite colors_from_buffer_value by (right; exact Hmod). cbv zeta.
      split; [|right; exact Hmod].
      set (q := Z.to_nat (Z.min (len data) 90 / 3)).
      assert (Hq : (q <= 30)%nat)
        by (subst q; Z.to_euclidean_division_equations; lia).
      unfold len at 1. rewrite length_app, length_map, length_seq, repeat_length.
      change PIXEL_COUNT with 30. lia.
    + rewrite colors_from_buffer_raises by assumption.
      split; [reflexivity | split; [lia | exact Hmod]].
Qed.

(** X18: on a buffer it accepts, [_colors_from_buffer] gives pixel [k] the
    colour string of bytes [3k, 3k+1, 3k+2] for every pixel the buffer
    holds among the first thirty, and ["#000000"] for the pixels beyond the
    buffer; bytes from index 90 on are ignored. *)
Theorem colors_from_buffer_pixels (data : list byte) (colors : list String.string)
    (k : nat) :
  _colors_from_buffer data = Ok colors ->
  (k < 30)%nat ->
  nth k colors black
  = if (3 * Z.of_nat k <? Z.min (len data) 90) then color_at data k else black.
Proof.
  intros E Hk.
  assert (Hok : 90 <= len data \/ len data mod 3 = 0).
  { destruct (Z.le_gt_cases 90 (len data)) as [Hbig | Hsmall]; [left; exact Hbig|].
    destruct (Z.eq_dec (len data mod 3) 0) as [Hmod | Hmod]; [right; exact Hmod|].
    rewrite colors_from_buffer_raises in E by assumption. discriminate. }
  rewrite colors_from_buffer_value in E by exact Hok. cbv zeta in E.
  injection E as <-.
  pose proof (len_nonneg data) as Hd.
  set (q := Z.to_nat (Z.min (len data) 90 / 3)).
  assert (Hq : Z.of_nat q * 3 = Z.min (len data) 90
               \/ (Z.of_nat q = 30 /\ 90 <= len data)).
  { subst q. destruct Hok as [H | H].
    - right. rewrite Z.min_r by lia. split; [reflexivity | exact H].
    - destruct (Z.le_gt_cases 90 (len data)).
      + right. rewrite Z.min_r by lia. split; [reflexivity | assumption].
      + left. rewrite Z.min_l by lia. Z.to_euclidean_division_equations. lia. }
  destruct (Z.ltb_spec (3 * Z.of_nat k) (Z.min (len data) 90)) as [Hin | Hout].
  - assert (Hkq : (k < q)%nat) by lia.
    rewrite app_nth1 by (rewrite length_map, length_seq; exact Hkq).
    rewrite (nth_indep _ black (color_at data 0))
      by (rewrite length_map, length_seq; exact Hkq).
    rewrite map_nth, seq_nth by exact Hkq. reflexivity.
  - assert (Hkq : (q <= k)%nat) by lia.
    rewrite app_nth2 by (rewrite length_map, length_seq; exact Hkq).
    rewrite length_map, length_seq. apply nth_repeat.
Qed.

Section StripFacts.

Variable strip : Type.
Variable setitem : strip -> Z -> Z * Z * Z -> strip.
Variable show : strip -> strip.

(** The strip after pixels [s, s + n) have been assigned from [data]. *)
Lemma pixels_loop_full (data : list byte) (n s : nat) (pixels : strip) :
  (3 * (s + n) <= length data)%nat ->
  pixels_loop strip setitem data
    (map (fun k => 0 + 3 * Z.of_nat k) (seq s n)) pixels
  = (Ok tt,
     fold_left (fun p k => setitem p (Z.of_nat k) (rgb_at data k)) (seq s n) pixels).
Proof.
  revert s pixels. induction n as [|n IH]; intros s pixels H.
  - reflexivity.
  - cbn [seq map pixels_loop fold_left]. cbv zeta.
    rewrite triple_at_ok by lia.
    replace ((0 + 3 * Z.of_nat s) / 3) with (Z.of_nat s)
      by (Z.to_euclidean_division_equations; lia).
    apply IH. lia.
Qed.

Lemma pixels_loop_stops (data : list byte) (n : nat) (pixels : strip) :
  (3 * n < length data <= 3 * n + 2)%nat ->
  pixels_loop strip setitem data
    (map (fun k => 0 + 3 * Z.of_nat k) (seq 0 (S n))) pixels
  = (Raise IndexError,
     fold_left (fun p k => setitem p (Z.of_nat k) (rgb_at data k)) (seq 0 n) pixels).
Proof.
  intros H. rewrite seq_S, map_app. cbn [map Nat.add].
  assert (Hgen : forall m s p, (s + m = n)%nat ->
            pixels_loop strip setitem data
              (map (fun k => 0 + 3 * Z.of_nat k) (seq s m)
               ++ [0 + 3 * Z.of_nat n]) p
            = (Raise IndexError,
               fold_left (fun p k => setitem p (Z.of_nat k) (rgb_at data k))
                         (seq s m) p)).
  { induction m as [|m IH]; intros s p Hs.
    - cbn [seq map app pixels_loop fold_left]. cbv zeta.
      rewrite triple_at_short by lia. reflexivity.
    - cbn [seq map app pixels_loop fold_left]. cbv zeta.
      rewrite triple_at_ok by lia.
      replace ((0 + 3 * Z.of_nat s) / 3) with (Z.of_nat s)
        by (Z.to_euclidean_division_equations; lia).
      apply IH. lia. }
  apply Hgen. lia.
Qed.

(** X19: [_update_pixels] assigns pixel [k] the bytes [3k, 3k+1, 3k+2] of
    the buffer, in order, for the pixels the buffer holds among the first
    thirty, and then shows the strip; but on a buffer shorter than 90 bytes
    whose length is not a multiple of 3 it raises [IndexError] at the last,
    incomplete pixel, after assigning the complete ones and without
    showing them. *)
Theorem update_pixels_result (pixels : strip) (data : list byte) :
  let assigned := fun n =>
    fold_left (fun p k => setitem p (Z.of_nat k) (rgb_at data k)) (seq 0 n) pixels in
  _update_pixels strip setitem show pixels data
  = if (90 <=? len data) || (len data mod 3 =? 0)
    then (Ok tt, show (assigned (Z.to_nat (Z.min (len data) 90 / 3))))
    else (Raise IndexError, assigned (Z.to_nat (len data / 3))).
Proof.
  intros assigned. unfold _update_pixels. cbv zeta.
  change (PIXEL_COUNT * 3) with 90.
  pose proof (len_nonneg data) as Hd.
  rewrite range3_count by lia.
  destruct (Z.leb_spec 90 (len data)) as [Hbig | Hsmall]; cbn [orb].
  - rewrite Z.min_r by lia. change (Z.to_nat ((90 + 2) / 3)) with 30%nat.
    change (Z.to_nat (90 / 3)) with 30%nat.
    rewrite pixels_loop_full by (unfold len in *; lia). reflexivity.
  - rewrite Z.min_l by lia.
    destruct (Z.eqb_spec (len data mod 3) 0) as [Hmod | Hmod].
    + assert (Hn : Z.to_nat ((len data + 2) / 3) = Z.to_nat (len data / 3))
        by (Z.to_euclidean_division_equations; lia).
      rewrite Hn.
      rewrite pixels_loop_full
        by (unfold len in *; Z.to_euclidean_division_equations; lia).
      reflexivity.
    + assert (Hn : Z.to_nat ((len data + 2) / 3) = S (Z.to_nat (len data / 3)))
        by (Z.to_euclidean_division_equations; lia).
      rewrite Hn.
      rewrite pixels_loop_stops
        by (unfold len in *; Z.to_euclidean_division_equations; lia).
      reflexivity.
Qed.

End StripFacts.

End DisplayFacts.

(** ** Frames handed to callbacks *)

Section FrameLengths.

Context {cb address : Type}.
Variable run_cb : cb -> Z -> list byte -> option Z -> receiver cb -> receiver cb.
Variables d n : Z.
Implicit Types (w : world cb address) (r : receiver cb) (h : header).

Lemma keeps_frames_ret {A : Type} (a : A) : keeps_frames d n (@ret cb address A a).
Proof. intros w Hw. exact Hw. Qed.

Lemma keeps_frames_raise {A : Type} (e : exn) :
  keeps_frames d n (@raise cb address A e).
Proof. intros w Hw. exact Hw. Qed.

Lemma keeps_frames_bind {A B : Type} (m : M cb address A) (f : A -> M cb address B) :
  keeps_frames d n m -> (forall a, keeps_frames d n (f a)) ->
  keeps_frames d n (bind m f).
Proof.
  intros Hm Hf w Hw. unfold bind. specialize (Hm w Hw).
  destruct (m w) as [[a | e] w1]; cbn [snd] in *.
  - apply Hf. exact Hm.
  - exact Hm.
Qed.

Lemma keeps_frames_for_each {A : Type} (l : list A) (body : A -> M cb address unit) :
  (forall x, keeps_frames d n (body x)) -> keeps_frames d n (for_each l body).
Proof.
  intros Hb. induction l as [|x l IH]; cbn [for_each].
  - apply keeps_frames_ret.
  - apply keeps_frames_bind; [apply Hb | intros _; exact IH].
Qed.

Lemma keeps_frames_emit (e : event cb address) :
  is_call e = false -> keeps_frames d n (emit e).
Proof.
  intros He w [Hbuf Htr]. split; [exact Hbuf|].
  intros c buf tc Hin. cbn [emit snd trace] in Hin.
  apply in_app_or in Hin as [Hin | [Heq | []]].
  - exact (Htr c buf tc Hin).
  - subst e. discriminate He.
Qed.

Lemma keeps_frames_write (device_id offset : Z) (data : list byte) :
  0 <= offset ->
  keeps_frames d n (@_write_to_buffer cb address device_id offset data).
Proof.
  intros Hoff w [[buf [Eb Hn]] Htr].
  rewrite write_to_buffer_spec by exact Hoff. cbn [snd].
  destruct (Z.eq_dec device_id d) as [-> | Hne].
  - rewrite Eb. destruct (_ && _); [split; [exists buf; split; assumption | exact Htr]|].
    split; [|exact Htr]. cbn [rcv set_buffer _buffers].
    exists (patched buf offset data). rewrite dict_get_set_eq.
    split; [reflexivity|]. rewrite len_patched by exact Hoff. lia.
  - assert (Hkeep : forall b,
              frames_ok d n (mkWorld (set_buffer device_id b (rcv w)) (trace w))).
    { intros b. split; [|exact Htr]. cbn [rcv set_buffer _buffers].
      exists buf. rewrite dict_get_set_ne by exact Hne. split; assumption. }
    destruct (dict_get device_id (_buffers (rcv w)));
      [destruct (_ && _) | destruct (_ >? _)];
      first [apply Hkeep | split; [exists buf; split; assumption | exact Htr]].
Qed.

Lemma keeps_frames_handle_query (device_id : Z) (addr : address) :
  keeps_frames d n (@_handle_query cb address device_id addr).
Proof.
  intros w [Hbuf Htr]. rewrite handle_query_spec. cbn [snd].
  split; [exact Hbuf|]. intros c buf tc Hin. cbn [trace] in Hin.
  apply in_app_or in Hin as [Hin | [Hin | []]]; [|discriminate Hin].
  exact (Htr c buf tc Hin).
Qed.

Hypothesis run_cb_grows : callbacks_grow run_cb.

Lemma keeps_frames_handle_push (device_id : Z) (timecode : option Z) :
  keeps_frames d n (@_handle_push cb address run_cb device_id timecode).
Proof.
  intros w [[buf [Eb Hn]] Htr].
  unfold _handle_push, bind, get_rcv, lift, emit, modify, buffer_of.
  destruct (dict_get device_id (_callbacks (rcv w))) as [c|];
    [|split; [exists buf; split; assumption | exact Htr]].
  destruct (dict_get device_id (_buffers (rcv w))) as [b|] eqn:Edev;
    [|split; [exists buf; split; assumption | exact Htr]].
  unfold frames_ok. cbn [snd rcv trace]. split.
  - destruct (run_cb_grows c device_id b timecode (rcv w)) as [_ Hg].
    specialize (Hg d). rewrite Eb in Hg.
    destruct (dict_get d (_buffers (run_cb c device_id b timecode (rcv w))))
      as [b'|]; [|contradiction].
    exists b'. split; [reflexivity | lia].
  - intros c' buf' tc' Hin.
    apply in_app_or in Hin as [Hin | [Hin | []]]; [exact (Htr c' buf' tc' Hin)|].
    injection Hin as _ Hd Hb _. subst device_id buf'.
    rewrite Eb in Edev. injection Edev as <-. exact Hn.
Qed.

Lemma keeps_frames_process_packet (packet : list byte) (addr : address) :
  keeps_frames d n (_process_packet run_cb packet addr).
Proof.
  intros w Hw.
  destruct (_parse_header packet) as [[h|]|e] eqn:E.
  - rewrite (process_packet_parsed _ _ _ h) by exact E.
    destruct (parsed_fields_nonneg _ _ E) as [Hoff _].
    destruct (has_flag _ DDP_FLAGS1_REPLY); [exact Hw|].
    destruct (has_flag _ DDP_FLAGS1_QUERY);
      [apply keeps_frames_handle_query; exact Hw|].
    destruct (has_flag _ DDP_FLAGS1_STORAGE); [exact Hw|].
    cbv zeta.
    assert (Hstep : forall target_id,
      keeps_frames d n
        (bind (emit (EWrite target_id (hdr_offset h)
                 (slice packet (hdr_header_len h)
                    (hdr_header_len h + hdr_length h)))) (fun _ =>
         bind (@_write_to_buffer cb address target_id (hdr_offset h)
                 (slice packet (hdr_header_len h)
                    (hdr_header_len h + hdr_length h))) (fun _ =>
         if has_flag (hdr_flags1 h) DDP_FLAGS1_PUSH
         then _handle_push run_cb target_id (hdr_timecode h)
         else ret tt)))).
    { intros target_id.
      apply keeps_frames_bind; [apply keeps_frames_emit; reflexivity|]. intros _.
      apply keeps_frames_bind; [apply keeps_frames_write; exact Hoff|]. intros _.
      destruct (has_flag _ _);
        [apply keeps_frames_handle_push | apply keeps_frames_ret]. }
    destruct (hdr_device_id h =? DDP_ID_ALL).
    + apply keeps_frames_for_each; [exact Hstep | exact Hw].
    + apply Hstep. exact Hw.
  - rewrite process_packet_invalid by exact E. exact Hw.
  - exfalso. exact (parse_header_never_raises _ _ E).
Qed.

Lemma keeps_frames_poll_loop (queue : list (arrival address)) (processed : Z) :
  keeps_frames d n (poll_loop run_cb queue processed).
Proof.
  revert processed. induction queue as [|a queue IH]; intros processed.
  - apply keeps_frames_ret.
  - cbn [poll_loop]. destruct a as [data addr | args].
    + cbv zeta. destruct (negb _); [apply keeps_frames_ret|].
      apply keeps_frames_bind; [apply keeps_frames_process_packet|].
      intros _. apply IH.
    + destruct (match args with [] => false | a0 :: _ => a0 =? EAGAIN end);
        [apply keeps_frames_ret | apply keeps_frames_raise].
Qed.

Lemma keeps_frames_poll_cycles (cycles : list (list (arrival address))) :
  keeps_frames d n (poll_cycles run_cb cycles).
Proof.
  induction cycles as [|queue cycles IH]; cbn [poll_cycles].
  - apply keeps_frames_ret.
  - apply keeps_frames_bind; [apply keeps_frames_poll_loop | intros _; exact IH].
Qed.

(** X20: a callback is never handed less than was configured.  Once
    destination [d] has a buffer of at least [n] bytes, then over any poll
    cycles (also ones cut short by an exception), with callbacks that
    respect [grows], every invocation of a callback for [d] receives a
    buffer of at least [n] bytes, and [d] still has such a buffer at the
    end. *)
Theorem frames_never_shorter_than_configured
    (cycles : list (list (arrival address))) (buf0 : list byte) w :
  dict_get d (_buffers (rcv w)) = Some buf0 ->
  n <= len buf0 ->
  (forall c buf timecode, ~ In (ECall c d buf timecode) (trace w)) ->
  let w' := snd (poll_cycles run_cb cycles w) in
  (exists buf, dict_get d (_buffers (rcv w')) = Some buf /\ n <= len buf)
  /\ forall c buf timecode, In (ECall c d buf timecode) (trace w') -> n <= len buf.
Proof.
  intros Eb Hn Hfresh w'.
  apply (keeps_frames_poll_cycles cycles w).
  split; [exists buf0; split; assumption|].
  intros c buf tc Hin. exfalso. exact (Hfresh c buf tc Hin).
Qed.

End FrameLengths.

(** X21: the example programs never fail on a frame.  Both configure the
    display destination with 90 bytes; from then on, over any poll cycles
    with callbacks that respect [grows] (theirs only read the buffer),
    every buffer handed to the display callback has at least 90 bytes, so
    [_colors_from_buffer] returns its thirty colours and [on_frame] of the
    sketch returns normally on it. *)
Theorem display_frames_always_render
    {cb address : Type}
    (run_cb : cb -> Z -> list byte -> option Z -> receiver cb -> receiver cb)
    (cycles : list (list (arrival address))) (buf0 : list byte)
    (w : world cb address) :
  callbacks_grow run_cb ->
  dict_get DDP_ID_DISPLAY (_buffers (rcv w)) = Some buf0 ->
  90 <= len buf0 ->
  (forall c buf timecode, ~ In (ECall c DDP_ID_DISPLAY buf timecode) (trace w)) ->
  forall c buf timecode,
    In (ECall c DDP_ID_DISPLAY buf timecode)
       (trace (snd (poll_cycles run_cb cycles w))) ->
    (exists colors, Display._colors_from_buffer buf = Ok colors
                    /\ len colors = Display.PIXEL_COUNT)
    /\ forall (strip : Type) (setitem : strip -> Z -> Z * Z * Z -> strip)
              (show : strip -> strip) (pixels : strip),
         fst (Display.on_frame strip setitem show pixels DDP_ID_DISPLAY buf timecode)
         = Ok tt.
Proof.
  intros Hcb Eb Hn Hfresh c buf tc Hin.
  assert (Hok : frames_ok DDP_ID_DISPLAY 90 w).
  { split; [exists buf0; split; assumption|].
    intros c' buf' tc' Hin'. exfalso. exact (Hfresh c' buf' tc' Hin'). }
  destruct (keeps_frames_poll_cycles run_cb DDP_ID_DISPLAY 90 Hcb cycles w Hok)
    as [_ Hcalls].
  specialize (Hcalls c buf tc Hin).
  split.
  - rewrite DisplayFacts.colors_from_buffer_value by (left; exact Hcalls).
    cbv zeta. eexists. split; [reflexivity|].
    rewrite Z.min_r by lia. change (Z.to_nat (90 / 3)) with 30%nat.
    reflexivity.
  - intros strip setitem show pixels.
    unfold Display.on_frame. change (DDP_ID_DISPLAY =? DDP_ID_DISPLAY) with true.
    cbn [negb]. unfold Display._update_pixels. cbv zeta.
    change (Display.PIXEL_COUNT * 3) with 90.
    rewrite Z.min_r by lia.
    rewrite DisplayFacts.range3_count by lia.
    change (Z.to_nat ((90 + 2) / 3)) with 30%nat.
    rewrite (DisplayFacts.pixels_loop_full strip setitem show)
      by (unfold len in *; lia).
    reflexivity.
Qed.

(** ** Instances of the further properties *)

Lemma write_keeps_bytes_outside_range_witness :
  exists buf',
    dict_get 1 (_buffers (rcv (snd (_write_to_buffer 1 1 [x09] demo_world))))
    = Some buf'
    /\ nth 2 buf' x00 = nth 2 [x00; x00; x00] x00.
Proof.
  apply (write_keeps_bytes_outside_range 1 1 [x09] [x00; x00; x00] 2 demo_world).
  - lia.
  - reflexivity.
  - right. vm_compute. lia.
Defined.


Lemma adjacent_writes_compose_witness :
  snd (_write_to_buffer 1 (0 + len [x01]) [x02; x03]
         (snd (_write_to_buffer 1 0 [x01] demo_world)))
  = snd (_write_to_buffer 1 0 ([x01] ++ [x02; x03]) demo_world).
Proof.
  apply (adjacent_writes_compose 1 0 [x01] [x02; x03] demo_world).
  - lia.
  - left. zcmp.
Defined.

Lemma configure_output_negative_size_witness :
  configure_output 1 (-1) (Some (Observe 5)) demo_world
  = (Raise ValueError, demo_world).
Proof.
  apply (configure_output_negative_size 1 (-1) (Some (Observe 5)) demo_world). lia.
Defined.

Lemma set_status_then_query_witness :
  let w1 := snd (set_status [x7b; x7d] demo_world) in
  fst (set_status [x7b; x7d] demo_world) = Ok tt
  /\ _buffers (rcv w1) = _buffers (rcv demo_world)
  /\ _callbacks (rcv w1) = _callbacks (rcv demo_world)
  /\ _max_buffer_size (rcv w1) = _max_buffer_size (rcv demo_world)
  /\ _process_packet demo_run demo_query 9%nat w1
     = (Ok tt,
        mkWorld (rcv w1)
          (trace demo_world ++
           [ESend (build_header 0x45 251 0 (len [x7b; x7d]) ++ [x7b; x7d]) 9%nat])).
Proof.
  exact (set_status_then_query demo_run [x7b; x7d] demo_query 9%nat
           (mkHeader 0x43 251 0 0 10 None) demo_world
           eq_refl eq_refl eq_refl eq_refl).
Defined.

Lemma ignored_packets_change_nothing_witness :
  _process_packet demo_run [x41; x00] 9%nat demo_world = (Ok tt, demo_world)
  /\ _process_packet demo_run (build_header 0x47 251 0 0) 9%nat demo_world
     = (Ok tt, demo_world)
  /\ _process_packet demo_run (build_header 0x49 1 0 0) 9%nat demo_world
     = (Ok tt, demo_world).
Proof.
  split; [|split].
  - apply (ignored_packets_change_nothing demo_run [x41; x00] 9%nat demo_world).
    left. reflexivity.
  - apply (ignored_packets_change_nothing demo_run (build_header 0x47 251 0 0)
             9%nat demo_world).
    right. exists (mkHeader 0x47 251 0 0 10 None).
    split; [reflexivity | left; reflexivity].
  - apply (ignored_packets_change_nothing demo_run (build_header 0x49 1 0 0)
             9%nat demo_world).
    right. exists (mkHeader 0x49 1 0 0 10 None).
    split; [reflexivity | right; split; reflexivity].
Defined.

Lemma unicast_write_uses_clipped_payload_witness :
  let packet := build_header 0x40 1 1 5 ++ [x01; x02] in
  len [x01; x02] = Z.min 5 (len packet - 10)
  /\ _process_packet demo_run packet 9%nat demo_world
     = (Ok tt,
        mkWorld (rcv (snd (_write_to_buffer 1 1 [x01; x02] demo_world)))
                (trace demo_world ++ [EWrite 1 1 [x01; x02]])).
Proof.
  intros packet.
  apply (unicast_write_uses_clipped_payload demo_run packet 9%nat
           (mkHeader 0x40 1 1 5 10 None) demo_world);
    first [reflexivity | discriminate | left; reflexivity].
Defined.

Lemma no_push_no_callback_witness :
  exists evs,
    trace (snd (_process_packet demo_run
                  (build_header 0x40 255 0 3 ++ [x01; x02; x03]) 9%nat demo_world))
    = trace demo_world ++ evs
    /\ existsb is_call evs = false.
Proof.
  apply (no_push_no_callback demo_run
           (build_header 0x40 255 0 3 ++ [x01; x02; x03]) 9%nat demo_world).
  intros h E. vm_compute in E. injection E as <-. reflexivity.
Defined.

Lemma broadcast_writes_every_destination_witness :
  let packet := build_header 0x40 255 1 2 ++ [x01; x02] in
  let w' := snd (_process_packet demo_run packet 9%nat demo_world) in
  fst (_process_packet demo_run packet 9%nat demo_world) = Ok tt
  /\ dict_keys (_buffers (rcv w')) = [1; 2]
  /\ (forall k, dict_get k (_buffers (rcv w'))
               = option_map (fun buf => written 16 buf 1 [x01; x02])
                   (dict_get k (_buffers (rcv demo_world))))
  /\ _callbacks (rcv w') = _callbacks (rcv demo_world)
  /\ _status_json (rcv w') = None
  /\ _max_buffer_size (rcv w') = 16.
Proof.
  intros packet.
  apply (broadcast_writes_every_destination demo_run packet 9%nat
           (mkHeader 0x40 255 1 2 10 None) demo_world);
    try reflexivity.
  repeat constructor; cbn; intuition discriminate.
Defined.

Lemma poll_propagates_transport_error_witness :
  let packet := Datagram (build_header 0x40 1 0 1 ++ [x07]) 9%nat in
  poll demo_run ([packet] ++ Fault [5] :: [packet]) demo_world
  = (Raise (OSError [5]),
     snd (_process_packet demo_run (build_header 0x40 1 0 1 ++ [x07]) 9%nat
            demo_world)).
Proof.
  intros packet.
  exact (poll_propagates_transport_error demo_run [packet] [packet] [5] demo_world
           eq_refl eq_refl).
Defined.

Lemma poll_splits_witness :
  let first := Datagram (build_header 0x40 1 0 1 ++ [x07]) 9%nat in
  let second := Datagram (build_header 0x40 2 0 1 ++ [x08]) 9%nat in
  poll demo_run ([first] ++ [second]) demo_world
  = match poll demo_run [first] demo_world with
    | (Ok (n1, _), w1) =>
        match poll demo_run [second] w1 with
        | (Ok (n2, remaining), w2) => (Ok (n1 + n2, remaining), w2)
        | (Raise e, w2) => (Raise e, w2)
        end
    | (Raise e, w1) => (Raise e, w1)
    end.
Proof.
  intros first second.
  exact (poll_splits demo_run [first] [second] demo_world eq_refl).
Defined.

Lemma poll_without_queries_never_raises_witness :
  let queue := [Datagram [xff; xff; xff] 9%nat;
                Datagram demo_overflow 9%nat;
                Fault [EAGAIN];
                Datagram demo_broadcast 9%nat] in
  exists n remaining w' evs,
    poll demo_run queue demo_world = (Ok (n, remaining), w')
    /\ 0 <= n /\ n + len remaining <= len queue
    /\ registered_have_buffers (rcv w')
    /\ trace w' = trace demo_world ++ evs
    /\ existsb is_send evs = false.
Proof.
  intros queue.
  apply (poll_without_queries_never_raises demo_run demo_run_keeps_buffers queue
           demo_world).
  - intros args [H | [H | [H | [H | []]]]]; try discriminate H.
    injection H as <-. reflexivity.
  - intros data addr [H | [H | [H | [H | []]]]]; try discriminate H;
      injection H as <- _; reflexivity.
  - unfold demo_world. do 2 apply registered_configure_output.
    apply registered_construct.
Defined.

Lemma colors_from_buffer_pixels_witness :
  exists colors,
    Display._colors_from_buffer [x01; x02; x03] = Ok colors
    /\ nth 0 colors Display.black = Display.color_at [x01; x02; x03] 0
    /\ nth 1 colors Display.black = Display.black.
Proof.
  eexists. split; [vm_compute; reflexivity|]. split.
  - apply (DisplayFacts.colors_from_buffer_pixels [x01; x02; x03] _ 0);
      [vm_compute; reflexivity | lia].
  - apply (DisplayFacts.colors_from_buffer_pixels [x01; x02; x03] _ 1);
      [vm_compute; reflexivity | lia].
Defined.

Lemma frames_never_shorter_than_configured_witness :
  let w : world nat nat :=
    snd (configure_output 1 90 (Some 0%nat) (construct 2048 None)) in
  let cycles :=
    [[Datagram (build_header 0x41 1 0 3 ++ [x01; x02; x03]) 9%nat];
     [Datagram (build_header 0x41 1 88 3 ++ [x01; x02; x03]) 9%nat]] in
  let w' := snd (poll_cycles read_only cycles w) in
  (exists buf, dict_get 1 (_buffers (rcv w')) = Some buf /\ 90 <= len buf)
  /\ forall c buf timecode, In (ECall c 1 buf timecode) (trace w') -> 90 <= len buf.
Proof.
  intros w cycles.
  apply (frames_never_shorter_than_configured read_only 1 90 read_only_grows
           cycles (zeros 90) w).
  - reflexivity.
  - zcmp.
  - intros c buf tc H. exact H.
Defined.

Lemma display_frames_always_render_witness :
  let frame := [x01; x02; x03] ++ zeros 87 in
  (exists colors, Display._colors_from_buffer frame = Ok colors
                  /\ len colors = Display.PIXEL_COUNT)
  /\ forall (strip : Type) (setitem : strip -> Z -> Z * Z * Z -> strip)
            (show : strip -> strip) (pixels : strip),
       fst (Display.on_frame strip setitem show pixels DDP_ID_DISPLAY frame None)
       = Ok tt.
Proof.
  intros frame.
  apply (display_frames_always_render read_only
           [[Datagram (build_header 0x41 1 0 3 ++ [x01; x02; x03]) 9%nat]]
           (zeros 90)
           (snd (configure_output 1 90 (Some 0%nat) (construct 2048 None)))
           read_only_grows eq_refl ltac:(zcmp) (fun c buf tc H => H)
           0%nat frame None).
  vm_compute. right. left. reflexivity.
Defined.

(** X22: a PUSH data packet for one destination with a buffer and a callback
    invokes the callback once, after the write, with the destination's id,
    its whole buffer as the write left it (not only the bytes just written)
    and the timecode of the header ([None] without the TIME flag); the
    callback's effect on the receiver comes last. *)
Theorem push_hands_over_whole_buffer
    {cb address : Type}
    (run_cb : cb -> Z -> list byte -> option Z -> receiver cb -> receiver cb)
    (packet : list byte) (addr : address) (h : header) (buf : list byte) (c : cb)
    (w : world cb address) :
  _parse_header packet = Ok (Some h) ->
  has_flag (hdr_flags1 h) DDP_FLAGS1_REPLY = false ->
  has_flag (hdr_flags1 h) DDP_FLAGS1_QUERY = false ->
  has_flag (hdr_flags1 h) DDP_FLAGS1_STORAGE = false ->
  has_flag (hdr_flags1 h) DDP_FLAGS1_PUSH = true ->
  hdr_device_id h <> DDP_ID_ALL ->
  dict_get (hdr_device_id h) (_buffers (rcv w)) = Some buf ->
  dict_get (hdr_device_id h) (_callbacks (rcv w)) = Some c ->
  let data := slice packet (hdr_header_len h) (hdr_header_len h + hdr_length h) in
  let frame := written (_max_buffer_size (rcv w)) buf (hdr_offset h) data in
  _process_packet run_cb packet addr w
  = (Ok tt,
     mkWorld
       (run_cb c (hdr_device_id h) frame (hdr_timecode h)
          (set_buffer (hdr_device_id h) frame (rcv w)))
       (trace w ++ [EWrite (hdr_device_id h) (hdr_offset h) data;
                    ECall c (hdr_device_id h) frame (hdr_timecode h)]))
  /\ len buf <= len frame
  /\ (has_flag (hdr_flags1 h) DDP_FLAGS1_TIME = false -> hdr_timecode h = None).
Proof.
  intros E Hr Hq Hs Hp Hall Eb Ec data frame.
  destruct (parsed_fields_nonneg _ _ E) as [Hoff _].
  split; [|split].
  - rewrite (process_packet_parsed _ _ _ h) by exact E.
    rewrite Hr, Hq, Hs, Hp. cbv zeta.
    destruct (Z.eqb_spec (hdr_device_id h) DDP_ID_ALL); [contradiction|].
    rewrite (write_then_push _ _ _ _ buf _ c) by assumption. reflexivity.
  - subst frame. unfold written. destruct (_ && _); [lia|].
    rewrite len_patched by exact Hoff. lia.
  - intros Ht.
    destruct (Z.lt_ge_cases (len packet) 10) as [Hshort | Hlong].
    { rewrite parse_header_short in E by exact Hshort. discriminate. }
    rewrite parse_header_long in E by exact Hlong. cbv zeta in E.
    destruct (negb _) in E; [discriminate|].
    destruct (has_flag (byte_at packet 0) DDP_FLAGS1_TIME) eqn:Ht0;
      cbn [andb] in E.
    + destruct (len packet <? 14); [discriminate|].
      apply Ok_Some_inj in E. subst h. cbn [hdr_flags1] in Ht. congruence.
    + apply Ok_Some_inj in E. subst h. reflexivity.
Qed.

Lemma push_hands_over_whole_buffer_witness :
  let packet := build_header 0x51 2 1 2 ++ [x00; x00; x01; x02; x0a; x0b] in
  _process_packet demo_run packet 9%nat demo_world
  = (Ok tt,
     mkWorld
       (demo_run (Observe 2) 2 [x00; x0a; x0b] (Some 258)
          (set_buffer 2 [x00; x0a; x0b] (rcv demo_world)))
       (trace demo_world ++ [EWrite 2 1 [x0a; x0b];
                             ECall (Observe 2) 2 [x00; x0a; x0b] (Some 258)]))
  /\ len [x00; x00; x00] <= len [x00; x0a; x0b]
  /\ (has_flag 0x51 DDP_FLAGS1_TIME = false -> Some 258 = None).
Proof.
  intros packet.
  apply (push_hands_over_whole_buffer demo_run packet 9%nat
           (mkHeader 0x51 2 1 2 14 (Some 258)) [x00; x00; x00] (Observe 2)
           demo_world);
    first [reflexivity | discriminate].
Defined.

Module DisplayExamples.

Import Stdlib.Strings.String.

Example colors_of_two_pixels :
  Display._colors_from_buffer [xff; x00; x10; x0a; xbc; x09]
  = Ok (["#ff0010"; "#0abc09"]%string ++ repeat "#000000"%string 28).
Proof. reflexivity. Qed.

Example colors_of_incomplete_pixel :
  Display._colors_from_buffer [xff; x00; x10; x0a] = Raise IndexError.
Proof. reflexivity. Qed.

End DisplayExamples.
